(** * Orders router: pricing, advance policy, credit guard, payment verification

    A shallow embedding of [backend/routers/orders_router.py].

    Conventions of the model.
    - A Python [float] is an IEEE 754 binary64 number: the Standard
      Library's [spec_float] at precision 53 and exponent bound 1024, with its
      correctly rounded [SFadd], [SFsub], [SFmul] and [SFdiv], its infinities,
      its NaN and its two zeros.  [round(x, 2)] rounds the exact binary value
      to the nearest hundredth, ties to even, and returns the float nearest
      to that decimal, as CPython does.  An [int] that meets a float in an
      operation is converted first; the [int] [0] that starts a sum is the
      float [0.0].
    - [sum] adds from left to right up to CPython 3.11 and uses Neumaier's
      compensated summation from 3.12 on; [sum_is_compensated] of the
      configuration says which.
    - A Mongo collection is a list of documents in natural order; [find_one]
      and [update_one] act on the first match.
    - [datetime.now], [uuid.uuid4] and the gateway's [order.create] are inputs
      of the request ([request_env]).
    - An endpoint maps a store to an outcome, the store after the request and
      the ledger postings the request handed to [auto_post_to_ledger_orders]. *)

From Stdlib Require Import ZArith QArith Qabs List String Ascii Bool Lia.
From Stdlib Require Import DecimalString DecimalNat Sorted Permutation.
From Stdlib Require Import SpecFloat.
From Stdlib Require PrimFloat FloatOps.
Import ListNotations.

Local Open Scope string_scope.
Local Open Scope list_scope.
Local Open Scope Z_scope.

(** ** HMAC-SHA256, as [hmac.new(key, msg, hashlib.sha256).hexdigest()] *)

Module SHA256.

(** 32-bit words are [Z] reduced modulo [2^32]. *)
Definition wrap (x : Z) : Z := x mod 4294967296.
Definition add32 (x y : Z) : Z := wrap (x + y).
Definition rotr (n x : Z) : Z :=
  Z.lor (Z.shiftr x n) (wrap (Z.shiftl x (32 - n))).
Definition not32 (x : Z) : Z := Z.lxor x 4294967295.

Definition Ch (x y z : Z) : Z := Z.lxor (Z.land x y) (Z.land (not32 x) z).
Definition Maj (x y z : Z) : Z :=
  Z.lxor (Z.lxor (Z.land x y) (Z.land x z)) (Z.land y z).
Definition bsig0 (x : Z) : Z := Z.lxor (Z.lxor (rotr 2 x) (rotr 13 x)) (rotr 22 x).
Definition bsig1 (x : Z) : Z := Z.lxor (Z.lxor (rotr 6 x) (rotr 11 x)) (rotr 25 x).
Definition ssig0 (x : Z) : Z := Z.lxor (Z.lxor (rotr 7 x) (rotr 18 x)) (Z.shiftr x 3).
Definition ssig1 (x : Z) : Z := Z.lxor (Z.lxor (rotr 17 x) (rotr 19 x)) (Z.shiftr x 10).

(** The constants are the leading 32 fractional bits of the square roots
    (initial state) and cube roots (round constants) of the first primes;
    they are computed rather than tabulated. *)
Definition is_prime (n : Z) : bool :=
  (1 <? n) && forallb (fun d => negb (n mod d =? 0))
                      (map Z.of_nat (seq 2 (Z.to_nat n - 2))).

Definition primes64 : list Z :=
  Eval vm_compute in filter is_prime (map Z.of_nat (seq 2 310)).

Fixpoint cbrt_bits (bits : nat) (n r : Z) : Z :=
  match bits with
  | O => r
  | S b =>
      let c := r + Z.shiftl 1 (Z.of_nat b) in
      cbrt_bits b n (if c * c * c <=? n then c else r)
  end.

Definition frac_sqrt (p : Z) : Z := wrap (Z.sqrt (p * 2 ^ 64)).
Definition frac_cbrt (p : Z) : Z := wrap (cbrt_bits 40 (p * 2 ^ 96) 0).

Definition H0 : list Z := Eval vm_compute in map frac_sqrt (firstn 8 primes64).
Definition K : list Z := Eval vm_compute in map frac_cbrt primes64.

(** Message schedule; [rev_w] holds the words computed so far, latest first. *)
Fixpoint schedule (n : nat) (rev_w : list Z) : list Z :=
  match n with
  | O => rev_w
  | S n' =>
      let w := add32 (add32 (ssig1 (nth 1 rev_w 0)) (nth 6 rev_w 0))
                     (add32 (ssig0 (nth 14 rev_w 0)) (nth 15 rev_w 0)) in
      schedule n' (w :: rev_w)
  end.

Definition round (st : list Z) (kw : Z * Z) : list Z :=
  match st with
  | [a; b; c; d; e; f; g; h] =>
      let t1 := add32 (add32 (add32 h (bsig1 e)) (add32 (Ch e f g) (fst kw))) (snd kw) in
      let t2 := add32 (bsig0 a) (Maj a b c) in
      [add32 t1 t2; a; b; c; add32 d t1; e; f; g]
  | _ => st
  end.

Definition compress (st : list Z) (block : list Z) : list Z :=
  let w := rev (schedule 48 (rev block)) in
  map (fun p => add32 (fst p) (snd p))
      (combine st (fold_left round (combine K w) st)).

Fixpoint be_words (fuel : nat) (bytes : list Z) : list Z :=
  match fuel, bytes with
  | S f, b0 :: b1 :: b2 :: b3 :: rest =>
      (((b0 * 256 + b1) * 256 + b2) * 256 + b3) :: be_words f rest
  | _, _ => []
  end.

Fixpoint blocks (fuel : nat) (words : list Z) : list (list Z) :=
  match fuel, words with
  | S f, _ :: _ => firstn 16 words :: blocks f (skipn 16 words)
  | _, _ => []
  end.

Definition be_bytes (width : nat) (x : Z) : list Z :=
  map (fun i => Z.shiftr x (8 * Z.of_nat i) mod 256) (rev (seq 0 width)).

Definition pad (msg : list Z) : list Z :=
  let len := Z.of_nat (List.length msg) in
  msg ++ [128] ++ repeat 0 (Z.to_nat ((55 - len) mod 64)) ++ be_bytes 8 (8 * len).

Definition digest (msg : list Z) : list Z :=
  let padded := pad msg in
  let ws := be_words (List.length padded) padded in
  flat_map (be_bytes 4) (fold_left compress (blocks (List.length ws) ws) H0).

End SHA256.

Definition bytes_of_string (s : string) : list Z :=
  map (fun c => Z.of_N (N_of_ascii c)) (list_ascii_of_string s).

Definition hex_digit (d : Z) : ascii :=
  nth (Z.to_nat d) (list_ascii_of_string "0123456789abcdef") "0"%char.

Definition hex_of_bytes (bs : list Z) : string :=
  string_of_list_ascii
    (flat_map (fun b => [hex_digit (b / 16); hex_digit (b mod 16)]) bs).

(** [hmac.new(key, msg, hashlib.sha256)]: block size 64, keys longer than a
    block are hashed first. *)
Definition hmac_sha256 (key msg : list Z) : list Z :=
  let k0 := if (64 <? Z.of_nat (List.length key)) then SHA256.digest key else key in
  let k := k0 ++ repeat 0 (64 - List.length k0) in
  let ipad := map (fun b => Z.lxor b 54) k in
  let opad := map (fun b => Z.lxor b 92) k in
  SHA256.digest (opad ++ SHA256.digest (ipad ++ msg)).

Definition hmac_sha256_hex (key msg : string) : string :=
  hex_of_bytes (hmac_sha256 (bytes_of_string key) (bytes_of_string msg)).

Arguments hmac_sha256_hex : simpl never.

(** ** Python values *)

(** Truthiness of an optional string: [None] and the empty string are falsy. *)
Definition truthy (s : option string) : bool :=
  match s with
  | Some (String _ _) => true
  | _ => false
  end.

(** [a or b] on optional strings. *)
Definition py_or (a b : option string) : option string :=
  if truthy a then a else b.

(** [f"{x}"] for a value that may be [None]. *)
Definition py_fmt (s : option string) : string :=
  match s with
  | Some v => v
  | None => "None"
  end.

(** [str(n)] for a natural number. *)
Definition py_str (n : nat) : string :=
  NilEmpty.string_of_uint (Nat.to_uint n).

(** [s.zfill(width)] for a string without sign. *)
Definition zfill (width : nat) (s : string) : string :=
  string_of_list_ascii (repeat "0"%char (width - String.length s)) ++ s.

(** A dict with string values, in insertion order. *)
Definition dict := list (string * string).

Fixpoint dict_get (d : dict) (k : string) : option string :=
  match d with
  | [] => None
  | (k', v) :: rest => if String.eqb k' k then Some v else dict_get rest k
  end.

Definition dict_get_default (d : dict) (k : string) (dflt : string) : option string :=
  match dict_get d k with
  | Some v => Some v
  | None => Some dflt
  end.

(** ** Floats *)

(** binary64. *)
Definition prec : Z := 53.
Definition emax : Z := 1024.

Definition float : Set := spec_float.

Definition fadd : float -> float -> float := SFadd prec emax.
Definition fsub : float -> float -> float := SFsub prec emax.
Definition fmul : float -> float -> float := SFmul prec emax.
Definition fdiv : float -> float -> float := SFdiv prec emax.

(** [a < b], [a <= b], [a > b] and [a == b]: all false on a NaN. *)
Definition flt (a b : float) : bool := SFltb a b.
Definition fle (a b : float) : bool := SFleb a b.
Definition fgt (a b : float) : bool := SFltb b a.
Definition feq (a b : float) : bool := SFeqb a b.

Definition fabs (a : float) : float := SFabs a.

Definition is_finite (a : float) : bool :=
  match a with
  | S754_zero _ | S754_finite _ _ _ => true
  | S754_infinity _ | S754_nan => false
  end.

(** The truth value of a float in C: everything but the zeros. *)
Definition is_nonzero (a : float) : bool :=
  match a with
  | S754_zero _ => false
  | _ => true
  end.

(** [0.0], and the [int] [0] where it meets a float. *)
Definition fzero : float := S754_zero false.

(** [float(n)] for an [int]: the nearest float, ties to even (an [int]
    beyond the float range, which the interpreter refuses to convert, is
    not modelled). *)
Definition float_of_Z (n : Z) : float := binary_normalize prec emax n 0 false.

(** The float nearest to [n / d]: what the decimal literal or the JSON
    number [n / d] denotes for [d] a power of ten. *)
Definition float_of_ratio (n : Z) (d : positive) : float :=
  match n with
  | Z0 => fzero
  | Zpos p => fdiv (S754_finite false p 0) (S754_finite false d 0)
  | Zneg p => fdiv (S754_finite true p 0) (S754_finite false d 0)
  end.

(** An amount given in hundredths: [cents 118007] is [1180.07]. *)
Definition cents (k : Z) : float := float_of_ratio k 100.

(** The integer nearest to [n / d], ties to even, for [0 <= n] and [0 < d]. *)
Definition half_even_div (n d : Z) : Z :=
  let q := n / d in
  match (2 * (n mod d) ?= d) with
  | Lt => q
  | Gt => q + 1
  | Eq => if Z.even q then q else q + 1
  end.

(** The integer nearest to [100 * m * 2^e], ties to even. *)
Definition hundredths (m : positive) (e : Z) : Z :=
  match e with
  | Zneg p => half_even_div (100 * Zpos m) (2 ^ Zpos p)
  | _ => 100 * Zpos m * 2 ^ e
  end.

(** [round(x, 2)]: the exact value of [x] is rounded to hundredths, ties to
    even, and the float nearest to that decimal is returned; a result of
    zero keeps the sign of [x]; infinities and NaN are returned as they
    are. *)
Definition round2 (x : float) : float :=
  match x with
  | S754_finite s m e =>
      match hundredths m e with
      | Zpos k => fdiv (S754_finite s k 0) (S754_finite false 100 0)
      | _ => S754_zero s
      end
  | _ => x
  end.

(** [int(x)]: truncation toward zero; [None] for the [OverflowError] on an
    infinity and the [ValueError] on a NaN. *)
Definition py_int (x : float) : option Z :=
  match x with
  | S754_zero _ => Some 0
  | S754_finite s m e =>
      let magnitude :=
        match e with
        | Zneg p => Zpos m / 2 ^ Zpos p
        | _ => Zpos m * 2 ^ e
        end in
      Some (if s then - magnitude else magnitude)
  | S754_infinity _ | S754_nan => None
  end.

(** The float loop of [sum] from CPython 3.12 on: [f_result] with the
    compensation [c], which is added at the end when it is finite and not
    zero. *)
Fixpoint compensated_sum (f_result c : float) (xs : list float) : float :=
  match xs with
  | [] => if is_nonzero c && is_finite c then fadd f_result c else f_result
  | x :: rest =>
      let t := fadd f_result x in
      let c' :=
        if fle (fabs x) (fabs f_result)
        then fadd c (fadd (fsub f_result t) x)
        else fadd c (fadd (fsub x t) f_result) in
      compensated_sum t c' rest
  end.

(** [sum(xs)] of floats from the [int] [0]: the first item is added to [0],
    the others in the float loop. *)
Definition py_sum (compensated : bool) (xs : list float) : float :=
  match xs with
  | [] => fzero
  | x :: rest =>
      let first := fadd fzero x in
      if compensated then compensated_sum first fzero rest
      else fold_left fadd rest first
  end.

(** ** Models ([pydantic] classes) and stored documents *)

Module GlassItem.
Record t := {
  product_id : string;
  product_name : string;
  thickness : float;
  width : float;
  height : float;
  quantity : Z;
  unit_price : float;
  total_price : float;
  edging : option string;
  tempering : bool;
  lamination : bool;
  notes : option string
}.
End GlassItem.

Module DeliveryAddress.
Record t := {
  full_name : string;
  phone : string;
  address_line1 : string;
  address_line2 : option string;
  city : string;
  state : string;
  pincode : string;
  landmark : option string
}.

(** The constructor call: a required [str] field given [None] is a
    validation error. *)
Definition make (full_name phone address_line1 address_line2
                 city state pincode landmark : option string) : option t :=
  match full_name, phone, address_line1, city, state, pincode with
  | Some n, Some p, Some l1, Some c, Some s, Some pc =>
      Some {| full_name := n; phone := p; address_line1 := l1;
              address_line2 := address_line2; city := c; state := s;
              pincode := pc; landmark := landmark |}
  | _, _, _, _, _, _ => None
  end.
End DeliveryAddress.

Module OrderCreate.
Record t := {
  customer_profile_id : option string;
  customer_name : option string;
  customer_email : option string;
  customer_phone : option string;
  glass_items : list GlassItem.t;
  delivery_address : option DeliveryAddress.t;
  shipping_address_id : option string;
  delivery_type : string;
  notes : option string;
  advance_percent : option Z;
  is_credit_customer : bool;
  gst_number : option string;
  company_name : option string;
  place_of_supply : option string;
  billing_address : option dict
}.
End OrderCreate.

Module RemainingPaymentVerify.
Record t := {
  razorpay_order_id : string;
  razorpay_payment_id : string;
  razorpay_signature : string
}.
End RemainingPaymentVerify.

(** The body of [mark-cash-received]. *)
Module CashData.
Record t := {
  payment_type : option string;
  amount : option float
}.
End CashData.

(** The authenticated user document returned by [get_current_user]. *)
Module User.
Record t := {
  id : option string;
  role : option string;
  name : option string
}.
End User.

(** A document of [db.customer_profiles]; an absent key is [None]. *)
Module Profile.
Record t := {
  id : string;
  status : string;
  display_name : option string;
  email : option string;
  mobile : option string;
  company_name : option string;
  gstin : option string;
  billing_address : option dict;
  credit_type : option string;
  credit_limit : option float;
  credit_days : option Z;
  place_of_supply : option string;
  invoice_type : option string;
  shipping_addresses : option (list dict)
}.
End Profile.

(** The [advance_settings] document of [db.settings]. *)
Module Settings.
Record t := {
  normal_customer_min : option Z;
  normal_customer_options : option (list Z);
  credit_customer_min : option Z;
  credit_customer_options : option (list Z);
  admin_override_allowed : option bool;
  max_credit_limit : option float
}.
End Settings.

(** A document of [db.orders].  Keys the endpoints read through [.get] or
    write only after creation are optional. *)
Module Order.
Record t := {
  id : string;
  order_number : option string;
  customer_id : option string;
  user_id : option string;
  customer_profile_id : option string;
  customer_name : option string;
  customer_email : option string;
  customer_phone : option string;
  company_name : option string;
  gst_number : option string;
  invoice_type : string;
  place_of_supply : option string;
  billing_address : option dict;
  glass_items : list GlassItem.t;
  total_sqft : float;
  subtotal : float;
  tax_rate : float;
  tax_amount : float;
  total_price : float;
  advance_percent : Z;
  advance_amount : option float;
  remaining_amount : option float;
  is_credit_customer : bool;
  credit_limit : float;
  credit_days : Z;
  payment_status : string;
  razorpay_order_id : option string;
  razorpay_payment_id : option string;
  remaining_razorpay_order_id : option string;
  remaining_razorpay_payment_id : option string;
  status : string;
  production_stage : option string;
  delivery_address : option DeliveryAddress.t;
  delivery_type : string;
  notes : option string;
  created_at : string;
  updated_at : string;
  advance_paid_at : option string;
  remaining_paid_at : option string;
  advance_payment_method : option string;
  remaining_payment_method : option string
}.
End Order.

(** The argument of [{"$set": ...}]: the keys present in the update. *)
Module OrderUpdate.
Record t := {
  razorpay_payment_id : option (option string);
  remaining_razorpay_order_id : option string;
  remaining_razorpay_payment_id : option string;
  remaining_amount : option float;
  payment_status : option string;
  status : option string;
  updated_at : option string;
  advance_paid_at : option string;
  remaining_paid_at : option string;
  advance_payment_method : option string;
  remaining_payment_method : option string
}.
End OrderUpdate.

(** A document of [db.cash_payments]. *)
Module CashPayment.
Record t := {
  id : string;
  order_id : string;
  order_number : option string;
  amount : option float;
  payment_type : string;
  received_by : option string;
  received_at : string
}.
End CashPayment.

(** The keyword arguments of one [auto_post_to_ledger_orders] call. *)
Module LedgerPost.
Record t := {
  entry_type : string;
  reference_id : string;
  reference_number : string;
  party_type : string;
  party_id : option string;
  party_name : string;
  amount : float;
  gst_amount : float;
  description : string;
  transaction_date : string;
  created_by : string
}.
End LedgerPost.

(** The argument of the gateway's [order.create]. *)
Module GatewayOrder.
Record t := {
  amount : Z;
  currency : string;
  receipt : string;
  notes_order_id : string;
  notes_type : string
}.
End GatewayOrder.

(** ** Environment of a request *)

Record datetime := {
  dt_year : nat;
  dt_month : nat;
  dt_day : nat;
  dt_isoformat : string
}.

(** Module-level configuration read from the process environment, and
    whether the interpreter's [sum] is compensated. *)
Record config := {
  RAZORPAY_KEY_ID : string;
  RAZORPAY_KEY_SECRET : string;
  sum_is_compensated : bool
}.

(** [razorpay_client] is created only when both settings are non-empty. *)
Definition razorpay_client (cfg : config) : bool :=
  truthy (Some (RAZORPAY_KEY_ID cfg)) && truthy (Some (RAZORPAY_KEY_SECRET cfg)).

Record request_env := {
  now : datetime;
  uuid4 : string;
  (** [razorpay_client.order.create]; [None] when the call raises. *)
  gateway_order_create : GatewayOrder.t -> option string
}.

Record store := {
  orders : list Order.t;
  customer_profiles : list Profile.t;
  settings : option Settings.t;
  cash_payments : list CashPayment.t
}.

(** Message templates of the [detail] of the raised [HTTPException]s. *)
Inductive detail :=
| ProfileNotFound        (* "Customer profile not found or inactive" *)
| CustomerNameRequired   (* "Customer name is required" *)
| CustomerPhoneRequired  (* "Customer phone is required" *)
| InvalidAdvancePercentage (requested : Z)
                         (* "Invalid advance percentage: {requested_percent}%" *)
| MinimumAdvanceRequired (min_percent : Z)
                         (* "Minimum advance required is {min_percent}%" *)
| AdvanceMustBeOneOf (allowed : list Z)
                         (* "Advance must be one of: {allowed_options}%" *)
| OrderExceedsCreditLimit (outstanding limit : float)
                         (* "Order exceeds credit limit. Current outstanding: ..., Limit: ..." *)
| OrderNotFound          (* "Order not found" *)
| PaymentVerificationFailed (* "Payment verification failed" *)
| NoRemainingAmount      (* "No remaining amount to pay" *)
| FailedToCreatePayment  (* "Failed to create payment: {str(e)}" *)
| AdminAccessRequired    (* "Admin access required" *)
| NoDetail.              (* detail=None *)

Inductive exn :=
| HTTPException (status_code : Z) (d : detail)
| ValidationError.

Inductive outcome (A : Type) :=
| Returned (a : A)
| Raised (e : exn).

Arguments Returned {A} a.
Arguments Raised {A} e.

Definition bind {A B : Type} (m : outcome A) (k : A -> outcome B) : outcome B :=
  match m with
  | Returned a => k a
  | Raised e => Raised e
  end.

Notation "x <- m ;; k" := (bind m (fun x => k))
  (at level 61, m at next level, right associativity).

(** [if cond: raise e]. *)
Definition raise_if (cond : bool) (e : exn) : outcome unit :=
  if cond then Raised e else Returned tt.

(** ** Helpers *)

(** [strftime('%y%m%d')] and [strftime('%Y-%m-%d')]. *)
Definition strftime_y2md (d : datetime) : string :=
  (zfill 2 (py_str (dt_year d mod 100)) ++ zfill 2 (py_str (dt_month d))
   ++ zfill 2 (py_str (dt_day d)))%string.

Definition strftime_Y4md (d : datetime) : string :=
  (zfill 4 (py_str (dt_year d)) ++ "-" ++ zfill 2 (py_str (dt_month d))
   ++ "-" ++ zfill 2 (py_str (dt_day d)))%string.

Definition order_prefix (today : datetime) : string :=
  ("LG" ++ strftime_y2md today)%string.

(** The filter [{"order_number": {"$regex": "^<prefix>"}}]. *)
Definition order_number_matches (prefix : string) (o : Order.t) : bool :=
  match Order.order_number o with
  | Some n => String.prefix prefix n
  | None => false
  end.

Definition count_documents (f : Order.t -> bool) (db : store) : nat :=
  List.length (filter f (orders db)).

Definition generate_order_number (env : request_env) (db : store) : string :=
  let today := now env in
  let prefix := order_prefix today in
  let count := count_documents (order_number_matches prefix) db in
  (prefix ++ zfill 4 (py_str (count + 1)))%string.

Definition default_settings : Settings.t :=
  {| Settings.normal_customer_min := Some 50%Z;
     Settings.normal_customer_options := Some [50; 75; 100]%Z;
     Settings.credit_customer_min := Some 0%Z;
     Settings.credit_customer_options := Some [0; 25; 50; 75; 100]%Z;
     Settings.admin_override_allowed := Some true;
     Settings.max_credit_limit := Some (float_of_Z 100000) |}.

Definition get_advance_settings (db : store) : Settings.t :=
  match settings db with
  | Some s => s
  | None => default_settings
  end.

Definition get_default {A : Type} (v : option A) (dflt : A) : A :=
  match v with
  | Some x => x
  | None => dflt
  end.

Definition in_strings (s : string) (l : list string) : bool :=
  existsb (String.eqb s) l.

Definition in_ints (n : Z) (l : list Z) : bool :=
  existsb (Z.eqb n) l.

Definition validate_advance_percent (db : store) (total_amount : float)
    (requested_percent : Z) (is_credit : bool) (user_role : string)
  : bool * option detail :=
  let settings := get_advance_settings db in
  let min_percent :=
    if is_credit then get_default (Settings.credit_customer_min settings) 0%Z
    else get_default (Settings.normal_customer_min settings) 50%Z in
  let allowed_options :=
    if is_credit
    then get_default (Settings.credit_customer_options settings) [0; 25; 50; 75; 100]%Z
    else get_default (Settings.normal_customer_options settings) [50; 75; 100]%Z in
  if in_strings user_role ["admin"; "super_admin"; "owner"]
     && get_default (Settings.admin_override_allowed settings) true
  then
    if (requested_percent <? 0)%Z || (requested_percent >? 100)%Z
    then (false, Some (InvalidAdvancePercentage requested_percent))
    else (true, None)
  else if (requested_percent <? min_percent)%Z
  then (false, Some (MinimumAdvanceRequired min_percent))
  else if negb (in_ints requested_percent allowed_options)
  then (false, Some (AdvanceMustBeOneOf allowed_options))
  else (true, None).

(** ** [create_order] *)

(** The customer-related local variables of [create_order]. *)
Record customer_vars := {
  v_customer_name : option string;
  v_customer_email : option string;
  v_customer_phone : option string;
  v_company_name : option string;
  v_gst_number : option string;
  v_billing_address : option dict;
  v_delivery_address : option DeliveryAddress.t;
  v_is_credit_customer : bool;
  v_credit_limit : float;
  v_credit_days : Z;
  v_place_of_supply : option string;
  v_invoice_type : string
}.

Definition truthy_dict (d : option dict) : bool :=
  match d with
  | Some (_ :: _) => true
  | _ => false
  end.

Definition opt_string_eqb (a b : option string) : bool :=
  match a, b with
  | Some x, Some y => String.eqb x y
  | None, None => true
  | _, _ => false
  end.

(** The initial values, taken from the request. *)
Definition request_vars (order_data : OrderCreate.t) : customer_vars :=
  {| v_customer_name := OrderCreate.customer_name order_data;
     v_customer_email := OrderCreate.customer_email order_data;
     v_customer_phone := OrderCreate.customer_phone order_data;
     v_company_name := OrderCreate.company_name order_data;
     v_gst_number := OrderCreate.gst_number order_data;
     v_billing_address := OrderCreate.billing_address order_data;
     v_delivery_address := OrderCreate.delivery_address order_data;
     v_is_credit_customer := OrderCreate.is_credit_customer order_data;
     v_credit_limit := fzero;
     v_credit_days := 0;
     v_place_of_supply := OrderCreate.place_of_supply order_data;
     v_invoice_type := "B2C" |}.

Definition find_profile (db : store) (profile_id : string) : option Profile.t :=
  find (fun p => String.eqb (Profile.id p) profile_id
                 && String.eqb (Profile.status p) "active")
       (customer_profiles db).

(** The shipping-address loop: the first address with the requested id. *)
Definition shipping_delivery_address (order_data : OrderCreate.t)
    (profile : Profile.t) (customer_name customer_phone : option string)
  : outcome (option DeliveryAddress.t) :=
  match OrderCreate.delivery_address order_data with
  | Some a => Returned (Some a)
  | None =>
      if truthy (OrderCreate.shipping_address_id order_data) then
        match find (fun addr => opt_string_eqb (dict_get addr "id")
                                  (OrderCreate.shipping_address_id order_data))
                   (get_default (Profile.shipping_addresses profile) []) with
        | Some addr =>
            match DeliveryAddress.make
                    (py_or (dict_get addr "contact_person") customer_name)
                    (py_or (dict_get addr "contact_phone") customer_phone)
                    (dict_get_default addr "address_line1" "")
                    (dict_get addr "address_line2")
                    (dict_get_default addr "city" "")
                    (dict_get_default addr "state" "")
                    (dict_get_default addr "pin_code" "")
                    (dict_get addr "site_name") with
            | Some a => Returned (Some a)
            | None => Raised ValidationError
            end
        | None => Returned None
        end
      else Returned None
  end.

(** Billing address used as delivery address when none was resolved. *)
Definition billing_delivery_address (delivery_address : option DeliveryAddress.t)
    (billing_address : option dict) (customer_name customer_phone : option string)
  : outcome (option DeliveryAddress.t) :=
  match delivery_address, billing_address with
  | None, Some ((_ :: _) as b) =>
      match DeliveryAddress.make customer_name customer_phone
              (dict_get_default b "address_line1" "")
              (dict_get b "address_line2")
              (dict_get_default b "city" "")
              (dict_get_default b "state" "")
              (dict_get_default b "pin_code" "")
              None with
      | Some a => Returned (Some a)
      | None => Raised ValidationError
      end
  | _, _ => Returned delivery_address
  end.

(** Auto-population from the Customer Master (source lines 181-230). *)
Definition populate_from_profile (order_data : OrderCreate.t) (profile : Profile.t)
  : outcome customer_vars :=
  let customer_name :=
    py_or (Profile.display_name profile) (OrderCreate.customer_name order_data) in
  let customer_phone :=
    py_or (Profile.mobile profile) (OrderCreate.customer_phone order_data) in
  let billing_address :=
    if truthy_dict (Profile.billing_address profile)
    then Profile.billing_address profile
    else OrderCreate.billing_address order_data in
  shipping <- shipping_delivery_address order_data profile customer_name customer_phone ;;
  delivery <- billing_delivery_address shipping billing_address customer_name customer_phone ;;
  Returned
    {| v_customer_name := customer_name;
       v_customer_email :=
         py_or (Profile.email profile) (OrderCreate.customer_email order_data);
       v_customer_phone := customer_phone;
       v_company_name :=
         py_or (Profile.company_name profile) (OrderCreate.company_name order_data);
       v_gst_number :=
         py_or (Profile.gstin profile) (OrderCreate.gst_number order_data);
       v_billing_address := billing_address;
       v_delivery_address := delivery;
       v_is_credit_customer :=
         opt_string_eqb (Profile.credit_type profile) (Some "credit_allowed");
       v_credit_limit := get_default (Profile.credit_limit profile) fzero;
       v_credit_days := get_default (Profile.credit_days profile) 0%Z;
       v_place_of_supply :=
         py_or (Profile.place_of_supply profile) (OrderCreate.place_of_supply order_data);
       v_invoice_type := get_default (Profile.invoice_type profile) "B2C" |}.

(** Totals (source lines 238-245). *)
Definition tax_rate : float := float_of_ratio 18 100.

Definition calc_subtotal (cfg : config) (items : list GlassItem.t) : float :=
  py_sum (sum_is_compensated cfg) (map GlassItem.total_price items).

Definition calc_total_sqft (cfg : config) (items : list GlassItem.t) : float :=
  py_sum (sum_is_compensated cfg)
    (map (fun item =>
            fdiv (fmul (fmul (GlassItem.width item) (GlassItem.height item))
                       (float_of_Z (GlassItem.quantity item)))
                 (float_of_Z 144))
         items).

Definition calc_tax_amount (subtotal : float) : float :=
  round2 (fmul subtotal tax_rate).

Definition calc_total_price (subtotal tax_amount : float) : float :=
  round2 (fadd subtotal tax_amount).

(** Current outstanding of a customer (source lines 269-276): at most 1000
    unsettled orders are read. *)
Definition unsettled_of (profile_id : option string) (o : Order.t) : bool :=
  opt_string_eqb (Order.customer_profile_id o) profile_id
  && negb (String.eqb (Order.payment_status o) "completed").

Definition existing_orders (db : store) (profile_id : option string) : list Order.t :=
  firstn 1000 (filter (unsettled_of profile_id) (orders db)).

Definition outstanding_of (os : list Order.t) : float :=
  fold_left (fun acc o => fadd acc (get_default (Order.remaining_amount o) fzero))
            os fzero.

Definition calc_advance_amount (total_price : float) (advance_percent : Z) : float :=
  round2 (fdiv (fmul total_price (float_of_Z advance_percent)) (float_of_Z 100)).

Definition calc_remaining_amount (total_price advance_amount : float) : float :=
  round2 (fsub total_price advance_amount).

Module CreateOrderResponse.
Record t := {
  order : Order.t;
  razorpay_order_id : option string;
  razorpay_key : string;
  customer_profile : option Profile.t
}.
End CreateOrderResponse.

(** [razorpay_client.order.create] on [int(amount * 100)]: the gateway's
    order id, or [None] when [int] or the call raises. *)
Definition create_gateway_order (env : request_env) (amount : float)
    (receipt order_id notes_type : string) : option string :=
  match py_int (fmul amount (float_of_Z 100)) with
  | Some paise =>
      gateway_order_create env
        {| GatewayOrder.amount := paise;
           GatewayOrder.currency := "INR";
           GatewayOrder.receipt := receipt;
           GatewayOrder.notes_order_id := order_id;
           GatewayOrder.notes_type := notes_type |}
  | None => None
  end.

(** [advance_percent] after the default for a missing value. *)
Definition chosen_advance_percent (order_data : OrderCreate.t) (is_credit_customer : bool)
  : Z :=
  match OrderCreate.advance_percent order_data with
  | Some p => p
  | None => if is_credit_customer then 0%Z else 50%Z
  end.

Definition order_total_price (cfg : config) (order_data : OrderCreate.t) : float :=
  let subtotal := calc_subtotal cfg (OrderCreate.glass_items order_data) in
  calc_total_price subtotal (calc_tax_amount subtotal).

(** The document inserted by [create_order] (source lines 284-341). *)
Definition new_order (cfg : config) (env : request_env) (db : store)
    (order_data : OrderCreate.t) (current_user : User.t) (vars : customer_vars)
  : Order.t :=
  let items := OrderCreate.glass_items order_data in
  let subtotal := calc_subtotal cfg items in
  let total_sqft := calc_total_sqft cfg items in
  let tax_amount := calc_tax_amount subtotal in
  let total_price := calc_total_price subtotal tax_amount in
  let advance_percent := chosen_advance_percent order_data (v_is_credit_customer vars) in
  let advance_amount := calc_advance_amount total_price advance_percent in
  let remaining_amount := calc_remaining_amount total_price advance_amount in
  let order_id := uuid4 env in
  let order_number := generate_order_number env db in
  let razorpay_order_id :=
    if fgt advance_amount fzero && razorpay_client cfg
    then create_gateway_order env advance_amount order_number order_id "advance"
    else None in
  {| Order.id := order_id;
     Order.order_number := Some order_number;
     Order.customer_id := User.id current_user;
     Order.user_id := None;
     Order.customer_profile_id := OrderCreate.customer_profile_id order_data;
     Order.customer_name := v_customer_name vars;
     Order.customer_email := v_customer_email vars;
     Order.customer_phone := v_customer_phone vars;
     Order.company_name := v_company_name vars;
     Order.gst_number := v_gst_number vars;
     Order.invoice_type := v_invoice_type vars;
     Order.place_of_supply := v_place_of_supply vars;
     Order.billing_address := v_billing_address vars;
     Order.glass_items := items;
     Order.total_sqft := round2 total_sqft;
     Order.subtotal := subtotal;
     Order.tax_rate := tax_rate;
     Order.tax_amount := tax_amount;
     Order.total_price := total_price;
     Order.advance_percent := advance_percent;
     Order.advance_amount := Some advance_amount;
     Order.remaining_amount := Some remaining_amount;
     Order.is_credit_customer := v_is_credit_customer vars;
     Order.credit_limit := v_credit_limit vars;
     Order.credit_days := v_credit_days vars;
     Order.payment_status := "pending";
     Order.razorpay_order_id := razorpay_order_id;
     Order.razorpay_payment_id := None;
     Order.remaining_razorpay_order_id := None;
     Order.remaining_razorpay_payment_id := None;
     Order.status := "pending";
     Order.production_stage := None;
     Order.delivery_address := v_delivery_address vars;
     Order.delivery_type := OrderCreate.delivery_type order_data;
     Order.notes := OrderCreate.notes order_data;
     Order.created_at := dt_isoformat (now env);
     Order.updated_at := dt_isoformat (now env);
     Order.advance_paid_at := None;
     Order.remaining_paid_at := None;
     Order.advance_payment_method := None;
     Order.remaining_payment_method := None |}.

(** Profile lookup (source lines 182-188). *)
Definition lookup_profile (db : store) (order_data : OrderCreate.t)
  : outcome (option Profile.t) :=
  if truthy (OrderCreate.customer_profile_id order_data) then
    match find_profile db (py_fmt (OrderCreate.customer_profile_id order_data)) with
    | Some p => Returned (Some p)
    | None => Raised (HTTPException 404 ProfileNotFound)
    end
  else Returned None.

Definition resolve_vars (order_data : OrderCreate.t) (customer_profile : option Profile.t)
  : outcome customer_vars :=
  match customer_profile with
  | Some p => populate_from_profile order_data p
  | None => Returned (request_vars order_data)
  end.

(** The advance check (source lines 256-264). *)
Definition check_advance (cfg : config) (db : store) (order_data : OrderCreate.t)
    (current_user : User.t) (vars : customer_vars) : outcome unit :=
  match validate_advance_percent db (order_total_price cfg order_data)
          (chosen_advance_percent order_data (v_is_credit_customer vars))
          (v_is_credit_customer vars)
          (get_default (User.role current_user) "customer") with
  | (true, _) => Returned tt
  | (false, Some error) => Raised (HTTPException 400 error)
  | (false, None) => Raised (HTTPException 400 NoDetail)
  end.

(** The credit-limit check (source lines 267-282). *)
Definition check_credit_limit (cfg : config) (db : store) (order_data : OrderCreate.t)
    (customer_profile : option Profile.t) (vars : customer_vars) : outcome unit :=
  match customer_profile with
  | Some _ =>
      if v_is_credit_customer vars then
        let outstanding :=
          outstanding_of
            (existing_orders db (OrderCreate.customer_profile_id order_data)) in
        raise_if (fgt (fadd outstanding (order_total_price cfg order_data))
                      (v_credit_limit vars))
          (HTTPException 400
             (OrderExceedsCreditLimit outstanding (v_credit_limit vars)))
      else Returned tt
  | None => Returned tt
  end.

(** Everything [create_order] does before [insert_one]: the order document
    and the profile, or the exception raised. *)
Definition build_order (cfg : config) (env : request_env) (db : store)
    (order_data : OrderCreate.t) (current_user : User.t)
  : outcome (Order.t * option Profile.t) :=
  customer_profile <- lookup_profile db order_data ;;
  vars <- resolve_vars order_data customer_profile ;;
  _ <- raise_if (negb (truthy (v_customer_name vars)))
         (HTTPException 400 CustomerNameRequired) ;;
  _ <- raise_if (negb (truthy (v_customer_phone vars)))
         (HTTPException 400 CustomerPhoneRequired) ;;
  _ <- check_advance cfg db order_data current_user vars ;;
  _ <- check_credit_limit cfg db order_data customer_profile vars ;;
  Returned (new_order cfg env db order_data current_user vars, customer_profile).

Definition insert_order (o : Order.t) (db : store) : store :=
  {| orders := orders db ++ [o];
     customer_profiles := customer_profiles db;
     settings := settings db;
     cash_payments := cash_payments db |}.

(** The [sales_invoice] posting made after the insert. *)
Definition sales_invoice_post (env : request_env) (order_data : OrderCreate.t)
    (o : Order.t) : LedgerPost.t :=
  {| LedgerPost.entry_type := "sales_invoice";
     LedgerPost.reference_id := Order.id o;
     LedgerPost.reference_number := py_fmt (Order.order_number o);
     LedgerPost.party_type := "customer";
     LedgerPost.party_id :=
       py_or (OrderCreate.customer_profile_id order_data) (Order.customer_id o);
     LedgerPost.party_name := py_fmt (Order.customer_name o);
     LedgerPost.amount := Order.subtotal o;
     LedgerPost.gst_amount := Order.tax_amount o;
     LedgerPost.description := ("Sales Order " ++ py_fmt (Order.order_number o))%string;
     LedgerPost.transaction_date := strftime_Y4md (now env);
     LedgerPost.created_by := "system" |}.

Definition create_order (cfg : config) (env : request_env) (db : store)
    (order_data : OrderCreate.t) (current_user : User.t)
  : outcome CreateOrderResponse.t * store * list LedgerPost.t :=
  match build_order cfg env db order_data current_user with
  | Raised e => (Raised e, db, [])
  | Returned (o, customer_profile) =>
      (Returned {| CreateOrderResponse.order := o;
                   CreateOrderResponse.razorpay_order_id := Order.razorpay_order_id o;
                   CreateOrderResponse.razorpay_key := RAZORPAY_KEY_ID cfg;
                   CreateOrderResponse.customer_profile := customer_profile |},
       insert_order o db,
       [sales_invoice_post env order_data o])
  end.

(** ** Payment endpoints *)

Definition find_one_order (db : store) (order_id : string) : option Order.t :=
  find (fun o => String.eqb (Order.id o) order_id) (orders db).

Definition set_field {A : Type} (new : option A) (old : A) : A :=
  match new with
  | Some v => v
  | None => old
  end.

Definition set_opt_field {A : Type} (new : option A) (old : option A) : option A :=
  match new with
  | Some v => Some v
  | None => old
  end.

(** [$set] on one order document. *)
Definition apply_set (u : OrderUpdate.t) (o : Order.t) : Order.t :=
  {| Order.id := Order.id o;
     Order.order_number := Order.order_number o;
     Order.customer_id := Order.customer_id o;
     Order.user_id := Order.user_id o;
     Order.customer_profile_id := Order.customer_profile_id o;
     Order.customer_name := Order.customer_name o;
     Order.customer_email := Order.customer_email o;
     Order.customer_phone := Order.customer_phone o;
     Order.company_name := Order.company_name o;
     Order.gst_number := Order.gst_number o;
     Order.invoice_type := Order.invoice_type o;
     Order.place_of_supply := Order.place_of_supply o;
     Order.billing_address := Order.billing_address o;
     Order.glass_items := Order.glass_items o;
     Order.total_sqft := Order.total_sqft o;
     Order.subtotal := Order.subtotal o;
     Order.tax_rate := Order.tax_rate o;
     Order.tax_amount := Order.tax_amount o;
     Order.total_price := Order.total_price o;
     Order.advance_percent := Order.advance_percent o;
     Order.advance_amount := Order.advance_amount o;
     Order.remaining_amount :=
       set_opt_field (OrderUpdate.remaining_amount u) (Order.remaining_amount o);
     Order.is_credit_customer := Order.is_credit_customer o;
     Order.credit_limit := Order.credit_limit o;
     Order.credit_days := Order.credit_days o;
     Order.payment_status :=
       set_field (OrderUpdate.payment_status u) (Order.payment_status o);
     Order.razorpay_order_id := Order.razorpay_order_id o;
     Order.razorpay_payment_id :=
       set_field (OrderUpdate.razorpay_payment_id u) (Order.razorpay_payment_id o);
     Order.remaining_razorpay_order_id :=
       set_opt_field (OrderUpdate.remaining_razorpay_order_id u)
         (Order.remaining_razorpay_order_id o);
     Order.remaining_razorpay_payment_id :=
       set_opt_field (OrderUpdate.remaining_razorpay_payment_id u)
         (Order.remaining_razorpay_payment_id o);
     Order.status := set_field (OrderUpdate.status u) (Order.status o);
     Order.production_stage := Order.production_stage o;
     Order.delivery_address := Order.delivery_address o;
     Order.delivery_type := Order.delivery_type o;
     Order.notes := Order.notes o;
     Order.created_at := Order.created_at o;
     Order.updated_at := set_field (OrderUpdate.updated_at u) (Order.updated_at o);
     Order.advance_paid_at :=
       set_opt_field (OrderUpdate.advance_paid_at u) (Order.advance_paid_at o);
     Order.remaining_paid_at :=
       set_opt_field (OrderUpdate.remaining_paid_at u) (Order.remaining_paid_at o);
     Order.advance_payment_method :=
       set_opt_field (OrderUpdate.advance_payment_method u)
         (Order.advance_payment_method o);
     Order.remaining_payment_method :=
       set_opt_field (OrderUpdate.remaining_payment_method u)
         (Order.remaining_payment_method o) |}.

(** [update_one({"id": order_id}, {"$set": u})] on the collection. *)
Fixpoint update_one (order_id : string) (u : OrderUpdate.t) (os : list Order.t)
  : list Order.t :=
  match os with
  | [] => []
  | o :: rest =>
      if String.eqb (Order.id o) order_id
      then apply_set u o :: rest
      else o :: update_one order_id u rest
  end.

Definition update_order (order_id : string) (u : OrderUpdate.t) (db : store) : store :=
  {| orders := update_one order_id u (orders db);
     customer_profiles := customer_profiles db;
     settings := settings db;
     cash_payments := cash_payments db |}.

Definition no_update : OrderUpdate.t :=
  {| OrderUpdate.razorpay_payment_id := None;
     OrderUpdate.remaining_razorpay_order_id := None;
     OrderUpdate.remaining_razorpay_payment_id := None;
     OrderUpdate.remaining_amount := None;
     OrderUpdate.payment_status := None;
     OrderUpdate.status := None;
     OrderUpdate.updated_at := None;
     OrderUpdate.advance_paid_at := None;
     OrderUpdate.remaining_paid_at := None;
     OrderUpdate.advance_payment_method := None;
     OrderUpdate.remaining_payment_method := None |}.

(** The signature check shared by both verification endpoints: skipped when
    [razorpay_client] is [None]. *)
Definition expected_signature (cfg : config)
    (razorpay_order_id razorpay_payment_id : option string) : string :=
  hmac_sha256_hex (RAZORPAY_KEY_SECRET cfg)
    (py_fmt razorpay_order_id ++ "|" ++ py_fmt razorpay_payment_id)%string.

Definition signature_rejected (cfg : config)
    (razorpay_order_id razorpay_payment_id razorpay_signature : option string) : bool :=
  razorpay_client cfg
  && negb (opt_string_eqb
             (Some (expected_signature cfg razorpay_order_id razorpay_payment_id))
             razorpay_signature).

Module PaymentResponse.
Record t := {
  message : string;
  order_id : string;
  payment_status : string
}.
End PaymentResponse.

(** [order.get("remaining_amount", 0) > 0]. *)
Definition advance_payment_status (order : Order.t) : string :=
  if fgt (get_default (Order.remaining_amount order) fzero) fzero
  then "partial" else "completed".

Definition verify_payment_update (env : request_env) (order : Order.t)
    (razorpay_payment_id : option string) : OrderUpdate.t :=
  let payment_status := advance_payment_status order in
  {| OrderUpdate.razorpay_payment_id := Some razorpay_payment_id;
     OrderUpdate.remaining_razorpay_order_id := None;
     OrderUpdate.remaining_razorpay_payment_id := None;
     OrderUpdate.remaining_amount := None;
     OrderUpdate.payment_status := Some payment_status;
     OrderUpdate.status :=
       Some (if in_strings payment_status ["partial"; "completed"]
             then "processing" else "pending");
     OrderUpdate.updated_at := Some (dt_isoformat (now env));
     OrderUpdate.advance_paid_at := Some (dt_isoformat (now env));
     OrderUpdate.remaining_paid_at := None;
     OrderUpdate.advance_payment_method := None;
     OrderUpdate.remaining_payment_method := None |}.

(** The [payment_received] posting of the advance leg. *)
Definition advance_payment_post (env : request_env) (order_id : string)
    (order : Order.t) : LedgerPost.t :=
  {| LedgerPost.entry_type := "payment_received";
     LedgerPost.reference_id := (order_id ++ "-advance")%string;
     LedgerPost.reference_number :=
       ("RCP-" ++ py_fmt (Order.order_number order) ++ "-ADV")%string;
     LedgerPost.party_type := "customer";
     LedgerPost.party_id := Some (get_default (Order.user_id order) "");
     LedgerPost.party_name := get_default (Order.customer_name order) "";
     LedgerPost.amount := get_default (Order.advance_amount order) fzero;
     LedgerPost.gst_amount := fzero;
     LedgerPost.description :=
       ("Advance Payment for Order " ++ py_fmt (Order.order_number order))%string;
     LedgerPost.transaction_date := strftime_Y4md (now env);
     LedgerPost.created_by := "system" |}.

Definition verify_payment (cfg : config) (env : request_env) (db : store)
    (order_id : string) (payment_data : dict) (current_user : User.t)
  : outcome PaymentResponse.t * store * list LedgerPost.t :=
  match find_one_order db order_id with
  | None => (Raised (HTTPException 404 OrderNotFound), db, [])
  | Some order =>
      let razorpay_payment_id := dict_get payment_data "razorpay_payment_id" in
      let razorpay_signature := dict_get payment_data "razorpay_signature" in
      let razorpay_order_id := dict_get payment_data "razorpay_order_id" in
      if signature_rejected cfg razorpay_order_id razorpay_payment_id razorpay_signature
      then (Raised (HTTPException 400 PaymentVerificationFailed), db, [])
      else
        (Returned {| PaymentResponse.message := "Payment verified successfully";
                     PaymentResponse.order_id := order_id;
                     PaymentResponse.payment_status := advance_payment_status order |},
         update_order order_id (verify_payment_update env order razorpay_payment_id) db,
         [advance_payment_post env order_id order])
  end.

Definition verify_remaining_update (env : request_env)
    (payment_data : RemainingPaymentVerify.t) : OrderUpdate.t :=
  {| OrderUpdate.razorpay_payment_id := None;
     OrderUpdate.remaining_razorpay_order_id := None;
     OrderUpdate.remaining_razorpay_payment_id :=
       Some (RemainingPaymentVerify.razorpay_payment_id payment_data);
     OrderUpdate.remaining_amount := Some fzero;
     OrderUpdate.payment_status := Some "completed";
     OrderUpdate.status := None;
     OrderUpdate.updated_at := Some (dt_isoformat (now env));
     OrderUpdate.advance_paid_at := None;
     OrderUpdate.remaining_paid_at := Some (dt_isoformat (now env));
     OrderUpdate.advance_payment_method := None;
     OrderUpdate.remaining_payment_method := None |}.

Definition verify_remaining_payment (cfg : config) (env : request_env) (db : store)
    (order_id : string) (payment_data : RemainingPaymentVerify.t)
    (current_user : User.t)
  : outcome PaymentResponse.t * store * list LedgerPost.t :=
  match find_one_order db order_id with
  | None => (Raised (HTTPException 404 OrderNotFound), db, [])
  | Some order =>
      if signature_rejected cfg
           (Some (RemainingPaymentVerify.razorpay_order_id payment_data))
           (Some (RemainingPaymentVerify.razorpay_payment_id payment_data))
           (Some (RemainingPaymentVerify.razorpay_signature payment_data))
      then (Raised (HTTPException 400 PaymentVerificationFailed), db, [])
      else
        (Returned {| PaymentResponse.message := "Remaining payment verified successfully";
                     PaymentResponse.order_id := order_id;
                     PaymentResponse.payment_status := "completed" |},
         update_order order_id (verify_remaining_update env payment_data) db,
         [])
  end.

Module InitiateResponse.
Record t := {
  razorpay_order_id : option string;
  razorpay_key : string;
  amount : float;
  order_number : option string
}.
End InitiateResponse.

Definition initiate_remaining_update (razorpay_order_id : string) : OrderUpdate.t :=
  {| OrderUpdate.razorpay_payment_id := None;
     OrderUpdate.remaining_razorpay_order_id := Some razorpay_order_id;
     OrderUpdate.remaining_razorpay_payment_id := None;
     OrderUpdate.remaining_amount := None;
     OrderUpdate.payment_status := None;
     OrderUpdate.status := None;
     OrderUpdate.updated_at := None;
     OrderUpdate.advance_paid_at := None;
     OrderUpdate.remaining_paid_at := None;
     OrderUpdate.advance_payment_method := None;
     OrderUpdate.remaining_payment_method := None |}.

Definition initiate_remaining_payment (cfg : config) (env : request_env) (db : store)
    (order_id : string) (current_user : User.t)
  : outcome InitiateResponse.t * store * list LedgerPost.t :=
  match find_one_order db order_id with
  | None => (Raised (HTTPException 404 OrderNotFound), db, [])
  | Some order =>
      let remaining := get_default (Order.remaining_amount order) fzero in
      if fle remaining fzero
      then (Raised (HTTPException 400 NoRemainingAmount), db, [])
      else if razorpay_client cfg then
        match create_gateway_order env remaining
                (py_fmt (Order.order_number order) ++ "-REM")%string
                order_id "remaining" with
        | Some rz_id =>
            (Returned {| InitiateResponse.razorpay_order_id := Some rz_id;
                         InitiateResponse.razorpay_key := RAZORPAY_KEY_ID cfg;
                         InitiateResponse.amount := remaining;
                         InitiateResponse.order_number := Order.order_number order |},
             update_order order_id (initiate_remaining_update rz_id) db,
             [])
        | None => (Raised (HTTPException 500 FailedToCreatePayment), db, [])
        end
      else
        (Returned {| InitiateResponse.razorpay_order_id := None;
                     InitiateResponse.razorpay_key := RAZORPAY_KEY_ID cfg;
                     InitiateResponse.amount := remaining;
                     InitiateResponse.order_number := Order.order_number order |},
         db, [])
  end.

Module CashResponse.
Record t := {
  message : string;
  payment_status : option string
}.
End CashResponse.

(** [update_data] of [mark_cash_received]. *)
Definition cash_update (env : request_env) (order : Order.t) (payment_type : string)
  : OrderUpdate.t :=
  if String.eqb payment_type "advance" then
    {| OrderUpdate.razorpay_payment_id := None;
       OrderUpdate.remaining_razorpay_order_id := None;
       OrderUpdate.remaining_razorpay_payment_id := None;
       OrderUpdate.remaining_amount := None;
       OrderUpdate.payment_status := Some (advance_payment_status order);
       OrderUpdate.status := Some "processing";
       OrderUpdate.updated_at := Some (dt_isoformat (now env));
       OrderUpdate.advance_paid_at := Some (dt_isoformat (now env));
       OrderUpdate.remaining_paid_at := None;
       OrderUpdate.advance_payment_method := Some "cash";
       OrderUpdate.remaining_payment_method := None |}
  else
    {| OrderUpdate.razorpay_payment_id := None;
       OrderUpdate.remaining_razorpay_order_id := None;
       OrderUpdate.remaining_razorpay_payment_id := None;
       OrderUpdate.remaining_amount := Some fzero;
       OrderUpdate.payment_status := Some "completed";
       OrderUpdate.status := None;
       OrderUpdate.updated_at := Some (dt_isoformat (now env));
       OrderUpdate.advance_paid_at := None;
       OrderUpdate.remaining_paid_at := Some (dt_isoformat (now env));
       OrderUpdate.advance_payment_method := None;
       OrderUpdate.remaining_payment_method := Some "cash" |}.

Definition insert_cash_payment (c : CashPayment.t) (db : store) : store :=
  {| orders := orders db;
     customer_profiles := customer_profiles db;
     settings := settings db;
     cash_payments := cash_payments db ++ [c] |}.

Definition mark_cash_received (env : request_env) (db : store)
    (order_id : string) (data : CashData.t) (current_user : User.t)
  : outcome CashResponse.t * store * list LedgerPost.t :=
  if negb (match User.role current_user with
           | Some r => in_strings r ["admin"; "super_admin"; "owner"; "accountant"]
           | None => false
           end)
  then (Raised (HTTPException 403 AdminAccessRequired), db, [])
  else
    match find_one_order db order_id with
    | None => (Raised (HTTPException 404 OrderNotFound), db, [])
    | Some order =>
        let payment_type := get_default (CashData.payment_type data) "advance" in
        let update_data := cash_update env order payment_type in
        (Returned {| CashResponse.message := "Cash payment recorded";
                     CashResponse.payment_status := OrderUpdate.payment_status update_data |},
         insert_cash_payment
           {| CashPayment.id := uuid4 env;
              CashPayment.order_id := order_id;
              CashPayment.order_number := Order.order_number order;
              CashPayment.amount := Some (get_default (CashData.amount data) fzero);
              CashPayment.payment_type := payment_type;
              CashPayment.received_by := User.name current_user;
              CashPayment.received_at := dt_isoformat (now env) |}
           (update_order order_id update_data db),
         [])
    end.

(** ** The router as a transition system *)

(** One request to a state-changing route of [orders_router]. *)
Inductive request :=
| CreateOrder (order_data : OrderCreate.t)
| VerifyPayment (order_id : string) (payment_data : dict)
| InitiateRemainingPayment (order_id : string)
| VerifyRemainingPayment (order_id : string) (payment_data : RemainingPaymentVerify.t)
| MarkCashReceived (order_id : string) (data : CashData.t).

(** The exception an outcome carries, if any. *)
Definition raised {A : Type} (o : outcome A) : option exn :=
  match o with
  | Raised e => Some e
  | Returned _ => None
  end.

Definition effect_of {A : Type} (r : outcome A * store * list LedgerPost.t)
  : option exn * store * list LedgerPost.t :=
  (raised (fst (fst r)), snd (fst r), snd r).

(** The exception raised (if any), the store after the request and the
    ledger postings it produced. *)
Definition serve (cfg : config) (env : request_env) (current_user : User.t)
    (db : store) (req : request) : option exn * store * list LedgerPost.t :=
  match req with
  | CreateOrder order_data =>
      effect_of (create_order cfg env db order_data current_user)
  | VerifyPayment order_id payment_data =>
      effect_of (verify_payment cfg env db order_id payment_data current_user)
  | InitiateRemainingPayment order_id =>
      effect_of (initiate_remaining_payment cfg env db order_id current_user)
  | VerifyRemainingPayment order_id payment_data =>
      effect_of (verify_remaining_payment cfg env db order_id payment_data current_user)
  | MarkCashReceived order_id data =>
      effect_of (mark_cash_received env db order_id data current_user)
  end.

(** The order a request addresses. *)
Definition target (req : request) : option string :=
  match req with
  | CreateOrder _ => None
  | VerifyPayment order_id _ => Some order_id
  | InitiateRemainingPayment order_id => Some order_id
  | VerifyRemainingPayment order_id _ => Some order_id
  | MarkCashReceived order_id _ => Some order_id
  end.

(** A sequence of requests, each with its own clock, ids and caller. *)
Fixpoint serve_all (cfg : config) (calls : list (request_env * User.t * request))
    (db : store) : store :=
  match calls with
  | [] => db
  | (env, current_user, req) :: rest =>
      serve_all cfg rest (snd (fst (serve cfg env current_user db req)))
  end.

(** ** Read-only routes *)

(** The projection [{"_id": 0, "customer_email": 0}]: the document without
    its [customer_email] key. *)
Definition hide_customer_email (o : Order.t) : Order.t :=
  {| Order.id := Order.id o;
     Order.order_number := Order.order_number o;
     Order.customer_id := Order.customer_id o;
     Order.user_id := Order.user_id o;
     Order.customer_profile_id := Order.customer_profile_id o;
     Order.customer_name := Order.customer_name o;
     Order.customer_email := None;
     Order.customer_phone := Order.customer_phone o;
     Order.company_name := Order.company_name o;
     Order.gst_number := Order.gst_number o;
     Order.invoice_type := Order.invoice_type o;
     Order.place_of_supply := Order.place_of_supply o;
     Order.billing_address := Order.billing_address o;
     Order.glass_items := Order.glass_items o;
     Order.total_sqft := Order.total_sqft o;
     Order.subtotal := Order.subtotal o;
     Order.tax_rate := Order.tax_rate o;
     Order.tax_amount := Order.tax_amount o;
     Order.total_price := Order.total_price o;
     Order.advance_percent := Order.advance_percent o;
     Order.advance_amount := Order.advance_amount o;
     Order.remaining_amount := Order.remaining_amount o;
     Order.is_credit_customer := Order.is_credit_customer o;
     Order.credit_limit := Order.credit_limit o;
     Order.credit_days := Order.credit_days o;
     Order.payment_status := Order.payment_status o;
     Order.razorpay_order_id := Order.razorpay_order_id o;
     Order.razorpay_payment_id := Order.razorpay_payment_id o;
     Order.remaining_razorpay_order_id := Order.remaining_razorpay_order_id o;
     Order.remaining_razorpay_payment_id := Order.remaining_razorpay_payment_id o;
     Order.status := Order.status o;
     Order.production_stage := Order.production_stage o;
     Order.delivery_address := Order.delivery_address o;
     Order.delivery_type := Order.delivery_type o;
     Order.notes := Order.notes o;
     Order.created_at := Order.created_at o;
     Order.updated_at := Order.updated_at o;
     Order.advance_paid_at := Order.advance_paid_at o;
     Order.remaining_paid_at := Order.remaining_paid_at o;
     Order.advance_payment_method := Order.advance_payment_method o;
     Order.remaining_payment_method := Order.remaining_payment_method o |}.

(** The filter [{"$or": [{"id": order_id}, {"order_number": order_id}]}]. *)
Definition tracked_by (order_id : string) (o : Order.t) : bool :=
  String.eqb (Order.id o) order_id
  || opt_string_eqb (Order.order_number o) (Some order_id).

(** [track_order]: the public route, by id or by order number. *)
Definition track_order (db : store) (order_id : string) : outcome Order.t :=
  match find (tracked_by order_id) (orders db) with
  | Some o => Returned (hide_customer_email o)
  | None => Raised (HTTPException 404 OrderNotFound)
  end.

(** [.sort("created_at", -1)]: latest first.  Documents with equal keys keep
    their stored order here; the database leaves their order open. *)
Fixpoint insert_latest_first (o : Order.t) (sorted : list Order.t) : list Order.t :=
  match sorted with
  | [] => [o]
  | x :: rest =>
      if String.leb (Order.created_at x) (Order.created_at o)
      then o :: x :: rest
      else x :: insert_latest_first o rest
  end.

Definition sort_latest_first (os : list Order.t) : list Order.t :=
  fold_right insert_latest_first [] os.

(** [get_my_orders]: the caller's orders, latest first, at most 100. *)
Definition get_my_orders (db : store) (current_user : User.t) : list Order.t :=
  firstn 100
    (sort_latest_first
       (filter (fun o => opt_string_eqb (Order.customer_id o) (User.id current_user))
               (orders db))).

(** ** Authentication router ([backend/routers/auth_router.py]) *)

(** A document of [db.users]. *)
Module UserDoc.
Record t := {
  id : string;
  email : string;
  name : option string;
  phone : option string;
  password_hash : option string;
  role : string;
  is_credit_customer : option bool;
  credit_limit : option Z;
  wallet_balance : option Z;
  gst_number : option string;
  company_name : option string;
  referral_code : option string;
  referred_by : option string;
  department : option string;
  created_at : string;
  created_by : option string
}.
End UserDoc.

(** The claims [create_token] signs; [exp] is [exp_days] days after
    [exp_from]. *)
Module TokenPayload.
Record t := {
  user_id : string;
  email : string;
  role : string;
  name : string;
  exp_from : datetime;
  exp_days : nat
}.
End TokenPayload.

(** What [jwt.decode] does with a token: the payload's [user_id] (absent
    when the payload has no such key), or one of its exceptions. *)
Inductive decoded :=
| Payload (user_id : option string)
| ExpiredSignatureError
| DecodeError.

(** The library calls of the router: [str.lower], [str.upper],
    [bcrypt.hashpw] on a password and a salt, [bcrypt.checkpw] ([None] when
    it raises on a malformed hash), [jwt.encode] and [jwt.decode] under a
    secret. *)
Record libraries := {
  str_lower : string -> string;
  str_upper : string -> string;
  hashpw : string -> string -> string;
  checkpw : string -> string -> option bool;
  jwt_encode : string -> TokenPayload.t -> string;
  jwt_decode : string -> string -> decoded
}.

Inductive auth_detail :=
| NotAuthenticated        (* "Not authenticated" *)
| UserNotFound            (* "User not found" *)
| TokenExpired            (* "Token expired" *)
| InvalidToken            (* "Invalid token" *)
| EmailAlreadyRegistered  (* "Email already registered" *)
| InvalidCredentials      (* "Invalid credentials" *)
| AdminRequired           (* "Admin access required" *)
| EmailRequired           (* "Email is required" *)
| EmailAndOtpRequired     (* "Email and OTP are required" *)
| InvalidOtp              (* "Invalid OTP" *)
| OtpExpired              (* "OTP expired" *)
| TokenAndPasswordRequired (* "Token and new password are required" *)
| InvalidResetToken       (* "Invalid or expired reset token" *)
| ResetTokenExpired.      (* "Reset token expired" *)

(** An exception of the router: an [HTTPException], or another exception
    that leaves the route unhandled. *)
Inductive auth_exn :=
| AuthHTTPException (status_code : Z) (d : auth_detail)
| Unhandled.

Inductive auth_outcome (A : Type) :=
| AuthReturned (a : A)
| AuthRaised (e : auth_exn).

Arguments AuthReturned {A} a.
Arguments AuthRaised {A} e.

(** The request environment of the router. *)
Record auth_env := {
  auth_now : datetime;
  auth_uuid4 : string;
  gensalt : string;
  JWT_SECRET : string
}.

Definition create_token (lib : libraries) (env : auth_env)
    (user_id email role name : string) : string :=
  jwt_encode lib (JWT_SECRET env)
    {| TokenPayload.user_id := user_id;
       TokenPayload.email := email;
       TokenPayload.role := role;
       TokenPayload.name := name;
       TokenPayload.exp_from := auth_now env;
       TokenPayload.exp_days := 7 |}.

Definition hash_password (lib : libraries) (env : auth_env) (password : string)
  : string :=
  hashpw lib password (gensalt env).

Definition verify_password (lib : libraries) (password hashed : string)
  : option bool :=
  checkpw lib password hashed.

Definition find_user (users : list UserDoc.t) (f : UserDoc.t -> bool)
  : option UserDoc.t :=
  find f users.

(** The body of the [try] of [get_current_user]. *)
Definition current_user_lookup (lib : libraries) (env : auth_env)
    (token : string) (users : list UserDoc.t) : UserDoc.t + (decoded + auth_exn) :=
  match jwt_decode lib (JWT_SECRET env) token with
  | Payload (Some user_id) =>
      match find_user users (fun u => String.eqb (UserDoc.id u) user_id) with
      | Some user => inl user
      | None => inr (inr (AuthHTTPException 401 UserNotFound))
      end
  | Payload None => inr (inr Unhandled)   (* the KeyError of payload["user_id"] *)
  | ExpiredSignatureError => inr (inl ExpiredSignatureError)
  | DecodeError => inr (inl DecodeError)
  end.

(** [get_current_user]: [except jwt.ExpiredSignatureError], then
    [except Exception], which also catches the [HTTPException] raised inside
    the [try]. *)
Definition get_current_user (lib : libraries) (env : auth_env)
    (credentials : option string) (users : list UserDoc.t)
  : auth_outcome UserDoc.t :=
  match credentials with
  | None => AuthRaised (AuthHTTPException 401 NotAuthenticated)
  | Some token =>
      match current_user_lookup lib env token users with
      | inl user => AuthReturned user
      | inr (inl ExpiredSignatureError) =>
          AuthRaised (AuthHTTPException 401 TokenExpired)
      | inr _ => AuthRaised (AuthHTTPException 401 InvalidToken)
      end
  end.

(** The user document as the [current_user] dict of the order routes. *)
Definition as_current_user (u : UserDoc.t) : User.t :=
  {| User.id := Some (UserDoc.id u);
     User.role := Some (UserDoc.role u);
     User.name := UserDoc.name u |}.

Module UserRegister.
Record t := {
  email : string;
  name : string;
  phone : string;
  password : string;
  role : string
}.
End UserRegister.

Module AuthResponse.
Record t := {
  token : string;
  user_id : string;
  email : string;
  name : option string;
  role : string
}.
End AuthResponse.

Definition register_user (lib : libraries) (env : auth_env)
    (users : list UserDoc.t) (user_data : UserRegister.t)
  : auth_outcome AuthResponse.t * list UserDoc.t :=
  let email := str_lower lib (UserRegister.email user_data) in
  match find_user users (fun u => String.eqb (UserDoc.email u) email) with
  | Some _ => (AuthRaised (AuthHTTPException 400 EmailAlreadyRegistered), users)
  | None =>
      let user_id := auth_uuid4 env in
      let user :=
        {| UserDoc.id := user_id;
           UserDoc.email := email;
           UserDoc.name := Some (UserRegister.name user_data);
           UserDoc.phone := Some (UserRegister.phone user_data);
           UserDoc.password_hash :=
             Some (hash_password lib env (UserRegister.password user_data));
           UserDoc.role :=
             if in_strings (UserRegister.role user_data) ["customer"; "dealer"]
             then UserRegister.role user_data else "customer";
           UserDoc.is_credit_customer := Some false;
           UserDoc.credit_limit := Some 0%Z;
           UserDoc.wallet_balance := Some 0%Z;
           UserDoc.gst_number := None;
           UserDoc.company_name := None;
           UserDoc.referral_code :=
             Some ("LG" ++ str_upper lib (String.substring 0 6 user_id))%string;
           UserDoc.referred_by := None;
           UserDoc.department := None;
           UserDoc.created_at := dt_isoformat (auth_now env);
           UserDoc.created_by := None |} in
      (AuthReturned
         {| AuthResponse.token :=
              create_token lib env user_id email (UserDoc.role user)
                (UserRegister.name user_data);
            AuthResponse.user_id := user_id;
            AuthResponse.email := email;
            AuthResponse.name := UserDoc.name user;
            AuthResponse.role := UserDoc.role user |},
       users ++ [user])
  end.

Definition login_user (lib : libraries) (env : auth_env)
    (users : list UserDoc.t) (email password : string)
  : auth_outcome AuthResponse.t :=
  match find_user users
          (fun u => String.eqb (UserDoc.email u) (str_lower lib email)) with
  | None => AuthRaised (AuthHTTPException 401 InvalidCredentials)
  | Some user =>
      match verify_password lib password
              (get_default (UserDoc.password_hash user) "") with
      | None => AuthRaised Unhandled
      | Some false => AuthRaised (AuthHTTPException 401 InvalidCredentials)
      | Some true =>
          AuthReturned
            {| AuthResponse.token :=
                 create_token lib env (UserDoc.id user) (UserDoc.email user)
                   (UserDoc.role user) (get_default (UserDoc.name user) "");
               AuthResponse.user_id := UserDoc.id user;
               AuthResponse.email := UserDoc.email user;
               AuthResponse.name := UserDoc.name user;
               AuthResponse.role := UserDoc.role user |}
      end
  end.

(** The body of [create-erp-user]; an absent key is [None]. *)
Module ErpUserData.
Record t := {
  email : option string;
  name : option string;
  phone : option string;
  password : option string;
  role : option string;
  department : option string
}.
End ErpUserData.

Definition create_erp_user (lib : libraries) (env : auth_env)
    (users : list UserDoc.t) (user_data : ErpUserData.t) (current_user : User.t)
  : auth_outcome string * list UserDoc.t :=
  if negb (match User.role current_user with
           | Some r => in_strings r ["admin"; "super_admin"; "owner"]
           | None => false
           end)
  then (AuthRaised (AuthHTTPException 403 AdminRequired), users)
  else
    let email := str_lower lib (get_default (ErpUserData.email user_data) "") in
    match find_user users (fun u => String.eqb (UserDoc.email u) email) with
    | Some _ => (AuthRaised (AuthHTTPException 400 EmailAlreadyRegistered), users)
    | None =>
        let user_id := auth_uuid4 env in
        (AuthReturned user_id,
         users ++
         [{| UserDoc.id := user_id;
             UserDoc.email := email;
             UserDoc.name := ErpUserData.name user_data;
             UserDoc.phone := Some (get_default (ErpUserData.phone user_data) "");
             UserDoc.password_hash :=
               Some (hash_password lib env
                       (get_default (ErpUserData.password user_data) "password123"));
             UserDoc.role := get_default (ErpUserData.role user_data) "operator";
             UserDoc.is_credit_customer := None;
             UserDoc.credit_limit := None;
             UserDoc.wallet_balance := None;
             UserDoc.gst_number := None;
             UserDoc.company_name := None;
             UserDoc.referral_code := None;
             UserDoc.referred_by := None;
             UserDoc.department := ErpUserData.department user_data;
             UserDoc.created_at := dt_isoformat (auth_now env);
             UserDoc.created_by := User.id current_user |}])
    end.

(** ** One-time codes and password reset *)

(** A document of [db.otp_codes].  [expires_at] and [created_at] are stored
    as the ISO text of a UTC instant and read back with [fromisoformat]; here
    they are the instant itself, in microseconds. *)
Module OtpCode.
Record t := {
  email : string;
  otp : string;
  purpose : string;
  expires_at : Z;
  verified : bool;
  created_at : Z
}.
End OtpCode.

(** A document of [db.password_reset_tokens]. *)
Module ResetToken.
Record t := {
  email : string;
  token : string;
  expires_at : Z;
  used : bool
}.
End ResetToken.

Record auth_store := {
  users : list UserDoc.t;
  otp_codes : list OtpCode.t;
  password_reset_tokens : list ResetToken.t
}.

(** The environment of a request of these routes: the first and the second
    reading of [datetime.now(timezone.utc)], the result of [generate_otp]
    and what [auth_env] has. *)
Record otp_env := {
  base_env : auth_env;
  utcnow : Z;
  utcnow_again : Z;
  generate_otp : string
}.

Definition minutes (n : Z) : Z := (n * 60 * 1000000)%Z.
Definition hours (n : Z) : Z := (n * 3600 * 1000000)%Z.

(** [update_one] with the filter of the [find_one] before it, or with the
    [_id] of the document that [find_one] returned: the first document that
    matches is changed. *)
Fixpoint update_first {A : Type} (p : A -> bool) (g : A -> A) (l : list A)
  : list A :=
  match l with
  | [] => []
  | x :: rest => if p x then g x :: rest else x :: update_first p g rest
  end.

(** The body of [send-otp] and of [verify-otp]; an absent key is [None]. *)
Module OtpData.
Record t := {
  email : option string;
  purpose : option string;
  otp : option string
}.
End OtpData.

(** [send_otp].  The mail is handed to a background task inside a [try]
    that catches everything; it changes neither the answer nor the
    database. *)
Definition send_otp (lib : libraries) (env : otp_env) (db : auth_store)
    (data : OtpData.t) : auth_outcome string * auth_store :=
  let email := str_lower lib (get_default (OtpData.email data) "") in
  let purpose := get_default (OtpData.purpose data) "verification" in
  if negb (truthy (Some email))
  then (AuthRaised (AuthHTTPException 400 EmailRequired), db)
  else
    let otp := generate_otp env in
    let expires_at := (utcnow env + minutes 10)%Z in
    let kept :=
      filter (fun c => negb (String.eqb (OtpCode.email c) email)) (otp_codes db) in
    (AuthReturned email,
     {| users := users db;
        otp_codes :=
          kept ++ [{| OtpCode.email := email;
                      OtpCode.otp := otp;
                      OtpCode.purpose := purpose;
                      OtpCode.expires_at := expires_at;
                      OtpCode.verified := false;
                      OtpCode.created_at := utcnow_again env |}];
        password_reset_tokens := password_reset_tokens db |}).

Definition otp_matches (email otp : string) (c : OtpCode.t) : bool :=
  String.eqb (OtpCode.email c) email
  && String.eqb (OtpCode.otp c) otp
  && Bool.eqb (OtpCode.verified c) false.

Definition mark_verified (c : OtpCode.t) : OtpCode.t :=
  {| OtpCode.email := OtpCode.email c;
     OtpCode.otp := OtpCode.otp c;
     OtpCode.purpose := OtpCode.purpose c;
     OtpCode.expires_at := OtpCode.expires_at c;
     OtpCode.verified := true;
     OtpCode.created_at := OtpCode.created_at c |}.

(** [verify_otp]; the answer is the [reset_token]. *)
Definition verify_otp (lib : libraries) (env : otp_env) (db : auth_store)
    (data : OtpData.t) : auth_outcome (option string) * auth_store :=
  let email := str_lower lib (get_default (OtpData.email data) "") in
  let otp := get_default (OtpData.otp data) "" in
  if negb (truthy (Some email)) || negb (truthy (Some otp))
  then (AuthRaised (AuthHTTPException 400 EmailAndOtpRequired), db)
  else
    match find (otp_matches email otp) (otp_codes db) with
    | None => (AuthRaised (AuthHTTPException 400 InvalidOtp), db)
    | Some otp_record =>
        if (utcnow env >? OtpCode.expires_at otp_record)%Z
        then (AuthRaised (AuthHTTPException 400 OtpExpired), db)
        else
          let codes :=
            update_first (otp_matches email otp) mark_verified (otp_codes db) in
          if String.eqb (OtpCode.purpose otp_record) "password_reset"
          then
            let reset_token := auth_uuid4 (base_env env) in
            (AuthReturned (Some reset_token),
             {| users := users db;
                otp_codes := codes;
                password_reset_tokens :=
                  password_reset_tokens db
                  ++ [{| ResetToken.email := email;
                         ResetToken.token := reset_token;
                         ResetToken.expires_at := (utcnow_again env + hours 1)%Z;
                         ResetToken.used := false |}] |})
          else
            (AuthReturned None,
             {| users := users db;
                otp_codes := codes;
                password_reset_tokens := password_reset_tokens db |})
    end.

(** The body of [reset-password]. *)
Module ResetData.
Record t := {
  token : option string;
  new_password : option string
}.
End ResetData.

Definition token_matches (token : string) (r : ResetToken.t) : bool :=
  String.eqb (ResetToken.token r) token && Bool.eqb (ResetToken.used r) false.

Definition mark_used (r : ResetToken.t) : ResetToken.t :=
  {| ResetToken.email := ResetToken.email r;
     ResetToken.token := ResetToken.token r;
     ResetToken.expires_at := ResetToken.expires_at r;
     ResetToken.used := true |}.

Definition set_password_hash (hashed : string) (u : UserDoc.t) : UserDoc.t :=
  {| UserDoc.id := UserDoc.id u;
     UserDoc.email := UserDoc.email u;
     UserDoc.name := UserDoc.name u;
     UserDoc.phone := UserDoc.phone u;
     UserDoc.password_hash := Some hashed;
     UserDoc.role := UserDoc.role u;
     UserDoc.is_credit_customer := UserDoc.is_credit_customer u;
     UserDoc.credit_limit := UserDoc.credit_limit u;
     UserDoc.wallet_balance := UserDoc.wallet_balance u;
     UserDoc.gst_number := UserDoc.gst_number u;
     UserDoc.company_name := UserDoc.company_name u;
     UserDoc.referral_code := UserDoc.referral_code u;
     UserDoc.referred_by := UserDoc.referred_by u;
     UserDoc.department := UserDoc.department u;
     UserDoc.created_at := UserDoc.created_at u;
     UserDoc.created_by := UserDoc.created_by u |}.

(** [reset_password]. *)
Definition reset_password (lib : libraries) (env : otp_env) (db : auth_store)
    (data : ResetData.t) : auth_outcome unit * auth_store :=
  if negb (truthy (ResetData.token data))
     || negb (truthy (ResetData.new_password data))
  then (AuthRaised (AuthHTTPException 400 TokenAndPasswordRequired), db)
  else
    let token := get_default (ResetData.token data) "" in
    let new_password := get_default (ResetData.new_password data) "" in
    match find (token_matches token) (password_reset_tokens db) with
    | None => (AuthRaised (AuthHTTPException 400 InvalidResetToken), db)
    | Some reset_record =>
        if (utcnow env >? ResetToken.expires_at reset_record)%Z
        then (AuthRaised (AuthHTTPException 400 ResetTokenExpired), db)
        else
          (AuthReturned tt,
           {| users :=
                update_first
                  (fun u => String.eqb (UserDoc.email u)
                              (ResetToken.email reset_record))
                  (set_password_hash
                     (hash_password lib (base_env env) new_password))
                  (users db);
              otp_codes := otp_codes db;
              password_reset_tokens :=
                update_first (token_matches token) mark_used
                  (password_reset_tokens db) |})
    end.




(** ** Projections of an endpoint's result *)

Definition outcome_of {A : Type} (r : outcome A * store * list LedgerPost.t) : outcome A :=
  fst (fst r).
Definition store_of {A : Type} (r : outcome A * store * list LedgerPost.t) : store :=
  snd (fst r).
Definition posts_of {A : Type} (r : outcome A * store * list LedgerPost.t)
  : list LedgerPost.t :=
  snd r.


(** ** Properties stated about orders and stores *)





(** ** Sample data used by the concrete evaluations *)

Definition cfg_live : config :=
  {| RAZORPAY_KEY_ID := "rzp_test_key"; RAZORPAY_KEY_SECRET := "rzp_secret";
     sum_is_compensated := true |}.

Definition cfg_unset : config :=
  {| RAZORPAY_KEY_ID := ""; RAZORPAY_KEY_SECRET := "";
     sum_is_compensated := false |}.

Definition nov3 : datetime :=
  {| dt_year := 2026; dt_month := 11; dt_day := 3;
     dt_isoformat := "2026-11-03T10:00:00+00:00" |}.

Definition env_nov3 : request_env :=
  {| now := nov3; uuid4 := "ord-1";
     gateway_order_create := fun _ => Some "order_A1" |}.

Definition empty_store : store :=
  {| orders := []; customer_profiles := []; settings := None; cash_payments := [] |}.

Definition walk_in : User.t :=
  {| User.id := Some "user-1"; User.role := Some "customer"; User.name := Some "Asha" |}.

Definition admin_user : User.t :=
  {| User.id := Some "user-9"; User.role := Some "admin"; User.name := Some "Ravi" |}.

(** One pane, 24 x 36, two pieces, with the given line total. *)
Definition pane (line_total : float) : GlassItem.t :=
  {| GlassItem.product_id := "glass-5mm";
     GlassItem.product_name := "Clear float 5mm";
     GlassItem.thickness := float_of_Z 5;
     GlassItem.width := float_of_Z 24;
     GlassItem.height := float_of_Z 36;
     GlassItem.quantity := 2;
     GlassItem.unit_price := fdiv line_total (float_of_Z 2);
     GlassItem.total_price := line_total;
     GlassItem.edging := None;
     GlassItem.tempering := false;
     GlassItem.lamination := false;
     GlassItem.notes := None |}.

Definition request_of (items : list GlassItem.t) (advance_percent : option Z)
  : OrderCreate.t :=
  {| OrderCreate.customer_profile_id := None;
     OrderCreate.customer_name := Some "Asha";
     OrderCreate.customer_email := None;
     OrderCreate.customer_phone := Some "9999999999";
     OrderCreate.glass_items := items;
     OrderCreate.delivery_address := None;
     OrderCreate.shipping_address_id := None;
     OrderCreate.delivery_type := "standard";
     OrderCreate.notes := None;
     OrderCreate.advance_percent := advance_percent;
     OrderCreate.is_credit_customer := false;
     OrderCreate.gst_number := None;
     OrderCreate.company_name := None;
     OrderCreate.place_of_supply := None;
     OrderCreate.billing_address := None |}.

(** The scenario of the specification: subtotal 10000, 50% advance. *)
Definition request_10000 : OrderCreate.t :=
  request_of [pane (float_of_Z 10000)] (Some 50%Z).


Definition store_10000 : store :=
  store_of (create_order cfg_live env_nov3 empty_store request_10000 walk_in).

(** Callbacks signed with the secret of [cfg_live]; the signatures are those
    [hmac.new(b"rzp_secret", msg, hashlib.sha256).hexdigest()] returns. *)
Definition callback_advance : dict :=
  [("razorpay_order_id", "order_A1");
   ("razorpay_payment_id", "pay_001");
   ("razorpay_signature",
    "9707cdaa9a145b68a16799ae4e4da80ec4387969b364b0f0ed02f68e291ada93")].

Definition callback_other_order : dict :=
  [("razorpay_order_id", "order_ZZ");
   ("razorpay_payment_id", "pay_002");
   ("razorpay_signature",
    "6e4b8b8f679c9acdb6a50023b88d3768625581bc748fec8c9cb01221605826fa")].

Definition callback_forged : dict :=
  [("razorpay_order_id", "order_A1");
   ("razorpay_payment_id", "pay_001");
   ("razorpay_signature", "deadbeef")].

Definition callback_remaining : RemainingPaymentVerify.t :=
  {| RemainingPaymentVerify.razorpay_order_id := "order_R1";
     RemainingPaymentVerify.razorpay_payment_id := "pay_r01";
     RemainingPaymentVerify.razorpay_signature :=
       "0440b899ef5f1eb36a5c8ac41c327b745cb02f0a3e24522fa1eb6f1afead1481" |}.

Definition callback_remaining_forged : RemainingPaymentVerify.t :=
  {| RemainingPaymentVerify.razorpay_order_id := "order_R1";
     RemainingPaymentVerify.razorpay_payment_id := "pay_r01";
     RemainingPaymentVerify.razorpay_signature := "deadbeef" |}.

Definition cash_remaining : CashData.t :=
  {| CashData.payment_type := Some "remaining";
     CashData.amount := Some (float_of_Z 5900) |}.

Definition env_nov3_later : request_env :=
  {| now := {| dt_year := 2026; dt_month := 11; dt_day := 3;
               dt_isoformat := "2026-11-03T10:05:00+00:00" |};
     uuid4 := "ord-2";
     gateway_order_create := fun _ => Some "order_B2" |}.

(** The scenario's store after the advance payment was verified. *)
Definition store_paid : store :=
  store_of (verify_payment cfg_live env_nov3 store_10000 "ord-1" callback_advance walk_in).

(** Follows the specification's words: an order of the customer whose
    payment status is not "completed". *)
Definition customers_open_order (profile_id : string) (o : Order.t) : bool :=
  match Order.customer_profile_id o with
  | Some owner => String.eqb owner profile_id
  | None => false
  end
  && negb (String.eqb (Order.payment_status o) "completed").

(** Follows the specification's words: the current outstanding of a customer
    is the sum of [remaining_amount] over that customer's orders with
    [payment_status != completed]; here over the first [n] of them, each
    added to the sum so far, which starts as [acc]. *)
Fixpoint outstanding_over (n : nat) (profile_id : string) (acc : float)
    (os : list Order.t) : float :=
  match n, os with
  | O, _ => acc
  | _, [] => acc
  | S n', o :: rest =>
      if customers_open_order profile_id o
      then
        outstanding_over n' profile_id
          (fadd acc match Order.remaining_amount o with
                    | Some r => r
                    | None => fzero
                    end)
          rest
      else outstanding_over n profile_id acc rest
  end.

(** Over all of the customer's orders. *)
Definition spec_outstanding (db : store) (profile_id : string) : float :=
  outstanding_over (List.length (orders db)) profile_id fzero (orders db).

(** A credit customer and earlier, partly paid orders of that customer. *)
Definition credit_profile (limit : float) : Profile.t :=
  {| Profile.id := "cust-1";
     Profile.status := "active";
     Profile.display_name := Some "Glass Mart";
     Profile.email := None;
     Profile.mobile := Some "9888888888";
     Profile.company_name := Some "Glass Mart Pvt Ltd";
     Profile.gstin := None;
     Profile.billing_address := None;
     Profile.credit_type := Some "credit_allowed";
     Profile.credit_limit := Some limit;
     Profile.credit_days := Some 30%Z;
     Profile.place_of_supply := None;
     Profile.invoice_type := Some "B2B";
     Profile.shipping_addresses := None |}.

Definition stored_order (number : option string) (n : nat) (remaining : float)
  : Order.t :=
  {| Order.id := ("old-" ++ py_str n)%string;
     Order.order_number := number;
     Order.customer_id := Some "user-1";
     Order.user_id := None;
     Order.customer_profile_id := Some "cust-1";
     Order.customer_name := Some "Glass Mart";
     Order.customer_email := None;
     Order.customer_phone := Some "9888888888";
     Order.company_name := None;
     Order.gst_number := None;
     Order.invoice_type := "B2B";
     Order.place_of_supply := None;
     Order.billing_address := None;
     Order.glass_items := [];
     Order.total_sqft := fzero;
     Order.subtotal := remaining;
     Order.tax_rate := tax_rate;
     Order.tax_amount := fzero;
     Order.total_price := remaining;
     Order.advance_percent := 0;
     Order.advance_amount := Some fzero;
     Order.remaining_amount := Some remaining;
     Order.is_credit_customer := true;
     Order.credit_limit := fzero;
     Order.credit_days := 30;
     Order.payment_status := "partial";
     Order.razorpay_order_id := None;
     Order.razorpay_payment_id := None;
     Order.remaining_razorpay_order_id := None;
     Order.remaining_razorpay_payment_id := None;
     Order.status := "processing";
     Order.production_stage := None;
     Order.delivery_address := None;
     Order.delivery_type := "standard";
     Order.notes := None;
     Order.created_at := "2025-10-01T09:00:00+00:00";
     Order.updated_at := "2025-10-01T09:00:00+00:00";
     Order.advance_paid_at := None;
     Order.remaining_paid_at := None;
     Order.advance_payment_method := None;
     Order.remaining_payment_method := None |}.

Definition earlier_order (n : nat) (remaining : float) : Order.t :=
  stored_order (Some ("LG251001" ++ zfill 4 (py_str n))%string) n remaining.

Definition credit_store (limit : float) (earlier : list Order.t) : store :=
  {| orders := earlier;
     customer_profiles := [credit_profile limit];
     settings := None;
     cash_payments := [] |}.

(** An order of subtotal 5000, hence total 5900, for the credit customer. *)
Definition credit_request : OrderCreate.t :=
  {| OrderCreate.customer_profile_id := Some "cust-1";
     OrderCreate.customer_name := None;
     OrderCreate.customer_email := None;
     OrderCreate.customer_phone := None;
     OrderCreate.glass_items := [pane (float_of_Z 5000)];
     OrderCreate.delivery_address := None;
     OrderCreate.shipping_address_id := None;
     OrderCreate.delivery_type := "standard";
     OrderCreate.notes := None;
     OrderCreate.advance_percent := None;
     OrderCreate.is_credit_customer := false;
     OrderCreate.gst_number := None;
     OrderCreate.company_name := None;
     OrderCreate.place_of_supply := None;
     OrderCreate.billing_address := None |}.

(** 1001 unsettled orders of 100 each: 100100 outstanding in all. *)
Definition many_earlier : list Order.t :=
  map (fun n => earlier_order n (float_of_Z 100)) (seq 1 1001).





(** The minimum and the allowed options [validate_advance_percent] selects
    for a customer class, and its test for a privileged caller. *)
Definition class_minimum (s : Settings.t) (is_credit : bool) : Z :=
  if is_credit then get_default (Settings.credit_customer_min s) 0%Z
  else get_default (Settings.normal_customer_min s) 50%Z.

Definition class_options (s : Settings.t) (is_credit : bool) : list Z :=
  if is_credit
  then get_default (Settings.credit_customer_options s) [0; 25; 50; 75; 100]%Z
  else get_default (Settings.normal_customer_options s) [50; 75; 100]%Z.

Definition privileged_override (s : Settings.t) (user_role : string) : bool :=
  in_strings user_role ["admin"; "super_admin"; "owner"]
  && get_default (Settings.admin_override_allowed s) true.

(** Settings whose options for normal customers include a value above 100. *)
Definition settings_with_150 : Settings.t :=
  {| Settings.normal_customer_min := Some 50%Z;
     Settings.normal_customer_options := Some [50; 75; 100; 150]%Z;
     Settings.credit_customer_min := Some 0%Z;
     Settings.credit_customer_options := Some [0; 25; 50; 75; 100]%Z;
     Settings.admin_override_allowed := Some true;
     Settings.max_credit_limit := Some (float_of_Z 100000) |}.

Definition store_with_150 : store :=
  {| orders := []; customer_profiles := [];
     settings := Some settings_with_150; cash_payments := [] |}.

(** ** Order numbers of a day *)

Definition order_number_format (prefix : string) (n : nat) : string :=
  (prefix ++ zfill 4 (py_str n))%string.

(** The orders of the day carry, in insertion order, the numbers a run of
    [generate_order_number] calls issues one after another. *)
Definition issued_serially (prefix : string) (db : store) : Prop :=
  map Order.order_number (filter (order_number_matches prefix) (orders db))
  = map (fun n => Some (order_number_format prefix n))
        (seq 1 (count_documents (order_number_matches prefix) db)).

(** The sequence fields of [n] consecutive numbers, starting from the number
    whose little-endian decimal is [d], each compared with its successor. *)
Fixpoint fields_ascend (n : nat) (d : Decimal.uint) : bool :=
  match n with
  | O => true
  | S n' =>
      let d' := Decimal.Little.succ d in
      match String.compare (zfill 4 (NilEmpty.string_of_uint (Decimal.rev d)))
                           (zfill 4 (NilEmpty.string_of_uint (Decimal.rev d'))) with
      | Lt => fields_ascend n' d'
      | _ => false
      end
  end.

Definition store_of_orders (os : list Order.t) : store :=
  {| orders := os; customer_profiles := []; settings := None; cash_payments := [] |}.

(** A day on which 9999 orders were placed. *)
Definition full_day : store :=
  store_of_orders
    (map (fun n => stored_order (Some (order_number_format "LG261103" n)) n
                   (float_of_Z 100))
         (seq 1 9999)).

(** A day whose only stored order carries sequence number 2. *)
Definition day_with_gap : store :=
  store_of_orders [stored_order (Some "LG2611030002") 2 (float_of_Z 100)].

(** ** Line items *)

(** The request with its line items replaced. *)
Definition with_items (order_data : OrderCreate.t) (items : list GlassItem.t)
  : OrderCreate.t :=
  {| OrderCreate.customer_profile_id := OrderCreate.customer_profile_id order_data;
     OrderCreate.customer_name := OrderCreate.customer_name order_data;
     OrderCreate.customer_email := OrderCreate.customer_email order_data;
     OrderCreate.customer_phone := OrderCreate.customer_phone order_data;
     OrderCreate.glass_items := items;
     OrderCreate.delivery_address := OrderCreate.delivery_address order_data;
     OrderCreate.shipping_address_id := OrderCreate.shipping_address_id order_data;
     OrderCreate.delivery_type := OrderCreate.delivery_type order_data;
     OrderCreate.notes := OrderCreate.notes order_data;
     OrderCreate.advance_percent := OrderCreate.advance_percent order_data;
     OrderCreate.is_credit_customer := OrderCreate.is_credit_customer order_data;
     OrderCreate.gst_number := OrderCreate.gst_number order_data;
     OrderCreate.company_name := OrderCreate.company_name order_data;
     OrderCreate.place_of_supply := OrderCreate.place_of_supply order_data;
     OrderCreate.billing_address := OrderCreate.billing_address order_data |}.

(** A line with quantity 0, a negative width, height 0, and a line total of
    777 against a unit price of 100. *)
Definition bad_pane : GlassItem.t :=
  {| GlassItem.product_id := "glass-5mm";
     GlassItem.product_name := "Clear float 5mm";
     GlassItem.thickness := float_of_Z 5;
     GlassItem.width := float_of_Z (-5);
     GlassItem.height := fzero;
     GlassItem.quantity := 0;
     GlassItem.unit_price := float_of_Z 100;
     GlassItem.total_price := float_of_Z 777;
     GlassItem.edging := None;
     GlassItem.tempering := false;
     GlassItem.lamination := false;
     GlassItem.notes := None |}.

(** The exceptions [create_order] has a [raise] for (the address
    constructor's validation error included). *)
Definition create_order_rejection (e : exn) : Prop :=
  match e with
  | ValidationError => True
  | HTTPException code d =>
      match d with
      | ProfileNotFound => code = 404%Z
      | CustomerNameRequired | CustomerPhoneRequired
      | InvalidAdvancePercentage _ | MinimumAdvanceRequired _
      | AdvanceMustBeOneOf _ | OrderExceedsCreditLimit _ _ => code = 400%Z
      | _ => False
      end
  end.

(** ** Payment status of a stored order *)

(** The payment status agrees with the remaining amount: "partial" only with
    a remainder that compares greater than 0, "completed" only with one that
    does not. *)
Definition payment_consistent (o : Order.t) : Prop :=
  In (Order.payment_status o) ["pending"; "partial"; "completed"]
  /\ (Order.payment_status o = "partial" ->
      fgt (get_default (Order.remaining_amount o) fzero) fzero = true)
  /\ (Order.payment_status o = "completed" ->
      fgt (get_default (Order.remaining_amount o) fzero) fzero = false).

Definition store_consistent (db : store) : Prop :=
  Forall payment_consistent (orders db).

(** Position of a payment status on the way pending, partial, completed. *)
Definition status_rank (s : string) : nat :=
  if String.eqb s "completed" then 2
  else if String.eqb s "partial" then 1
  else 0.

(** The part of an order document no route writes after creation. *)
Definition same_core (o o' : Order.t) : Prop :=
  Order.id o' = Order.id o
  /\ Order.order_number o' = Order.order_number o
  /\ Order.customer_id o' = Order.customer_id o
  /\ Order.customer_profile_id o' = Order.customer_profile_id o
  /\ Order.customer_name o' = Order.customer_name o
  /\ Order.glass_items o' = Order.glass_items o
  /\ Order.subtotal o' = Order.subtotal o
  /\ Order.tax_amount o' = Order.tax_amount o
  /\ Order.total_price o' = Order.total_price o
  /\ Order.advance_percent o' = Order.advance_percent o
  /\ Order.advance_amount o' = Order.advance_amount o
  /\ Order.razorpay_order_id o' = Order.razorpay_order_id o
  /\ Order.delivery_address o' = Order.delivery_address o
  /\ Order.created_at o' = Order.created_at o.

(** The [$set] arguments the routes build for a stored order [o]. *)
Inductive route_update (o : Order.t) : OrderUpdate.t -> Prop :=
| update_by_verify_payment (env : request_env) (payment_id : option string) :
    route_update o (verify_payment_update env o payment_id)
| update_by_initiate (gateway_order_id : string) :
    route_update o (initiate_remaining_update gateway_order_id)
| update_by_verify_remaining (env : request_env) (d : RemainingPaymentVerify.t) :
    route_update o (verify_remaining_update env d)
| update_by_cash (env : request_env) (payment_type : string) :
    route_update o (cash_update env o payment_type).

(** What a request can do to the store: nothing, a [$set] on the order it
    addresses (with a cash record for [mark_cash_received]), or the insert
    of a new order built by [create_order]. *)
Inductive store_change (cfg : config) (env : request_env) (current_user : User.t)
    (db : store) (req : request) : store -> Prop :=
| change_none : store_change cfg env current_user db req db
| change_set (order_id : string) (u : OrderUpdate.t) (o : Order.t) :
    target req = Some order_id ->
    find_one_order db order_id = Some o ->
    route_update o u ->
    store_change cfg env current_user db req (update_order order_id u db)
| change_cash (order_id : string) (u : OrderUpdate.t) (o : Order.t)
    (c : CashPayment.t) :
    target req = Some order_id ->
    find_one_order db order_id = Some o ->
    route_update o u ->
    store_change cfg env current_user db req
      (insert_cash_payment c (update_order order_id u db))
| change_insert (order_data : OrderCreate.t) (vars : customer_vars) :
    req = CreateOrder order_data ->
    store_change cfg env current_user db req
      (insert_order (new_order cfg env db order_data current_user vars) db).

(** A request without a profile id that declares itself a credit customer. *)
Definition self_declared_credit_request : OrderCreate.t :=
  {| OrderCreate.customer_profile_id := None;
     OrderCreate.customer_name := Some "Asha";
     OrderCreate.customer_email := None;
     OrderCreate.customer_phone := Some "9999999999";
     OrderCreate.glass_items := [pane (float_of_Z 500000)];
     OrderCreate.delivery_address := None;
     OrderCreate.shipping_address_id := None;
     OrderCreate.delivery_type := "standard";
     OrderCreate.notes := None;
     OrderCreate.advance_percent := None;
     OrderCreate.is_credit_customer := true;
     OrderCreate.gst_number := None;
     OrderCreate.company_name := None;
     OrderCreate.place_of_supply := None;
     OrderCreate.billing_address := None |}.


(** No stored order is found under the key [k], as an id or as a number. *)
Definition unused_key (db : store) (k : string) : Prop :=
  forall o, In o (orders db) -> Order.id o <> k /\ Order.order_number o <> Some k.

(** Latest first. *)
Definition not_earlier (a b : Order.t) : Prop :=
  String.leb (Order.created_at b) (Order.created_at a) = true.

(** A date whose month and day have at most two digits. *)
Definition two_digit_date (d : datetime) : Prop :=
  (dt_month d < 100)%nat /\ (dt_day d < 100)%nat.

(** The acceptance table of the built-in advance settings. *)
Definition default_policy_accepts (requested_percent : Z) (is_credit : bool)
    (user_role : string) : Prop :=
  if in_strings user_role ["admin"; "super_admin"; "owner"]
  then (0 <= requested_percent <= 100)%Z
  else if is_credit
       then In requested_percent [0; 25; 50; 75; 100]%Z
       else In requested_percent [50; 75; 100]%Z.

(** Stand-ins for the libraries in the concrete evaluations: strings are
    left as they are, a hash is the salt followed by the password, a token
    is the user id. *)
Definition plain_libraries : libraries :=
  {| str_lower := fun s => s;
     str_upper := fun s => s;
     hashpw := fun password salt => (salt ++ "$" ++ password)%string;
     checkpw := fun password hashed =>
                  Some (String.eqb hashed ("salt" ++ "$" ++ password)%string);
     jwt_encode := fun _ payload => TokenPayload.user_id payload;
     jwt_decode := fun _ token => Payload (Some token) |}.

Definition auth_env_nov3 : auth_env :=
  {| auth_now := nov3; auth_uuid4 := "user-42"; gensalt := "salt";
     JWT_SECRET := "your-secret-key-change-in-production" |}.

Definition registration_as_admin : UserRegister.t :=
  {| UserRegister.email := "mallory@example.com";
     UserRegister.name := "Mallory";
     UserRegister.phone := "9777777777";
     UserRegister.password := "hunter2";
     UserRegister.role := "admin" |}.

(** The requests of a password reset on 2026-11-03: the code is sent at
    10:00:00, verified at 10:05:00 and the password is reset at 10:20:00
    (instants in microseconds since the epoch). *)
Definition env_send_otp : otp_env :=
  {| base_env := auth_env_nov3;
     utcnow := 1793700000000000;
     utcnow_again := 1793700000000010;
     generate_otp := "482913" |}.

Definition env_verify_otp : otp_env :=
  {| base_env :=
       {| auth_now := nov3; auth_uuid4 := "reset-7"; gensalt := "salt";
          JWT_SECRET := "your-secret-key-change-in-production" |};
     utcnow := 1793700300000000;
     utcnow_again := 1793700300000010;
     generate_otp := "" |}.

Definition env_reset_password : otp_env :=
  {| base_env := auth_env_nov3;
     utcnow := 1793701200000000;
     utcnow_again := 1793701200000010;
     generate_otp := "" |}.

(** The verification attempted eleven minutes after the code was sent. *)
Definition env_verify_late : otp_env :=
  {| base_env := auth_env_nov3;
     utcnow := 1793700660000000;
     utcnow_again := 1793700660000010;
     generate_otp := "" |}.

(** Mallory is registered; nothing else is stored. *)
Definition auth_store_mallory : auth_store :=
  {| users := snd (register_user plain_libraries auth_env_nov3 [] registration_as_admin);
     otp_codes := [];
     password_reset_tokens := [] |}.

Definition forgot_password : OtpData.t :=
  {| OtpData.email := Some "mallory@example.com";
     OtpData.purpose := Some "password_reset";
     OtpData.otp := None |}.

Definition code_entered : OtpData.t :=
  {| OtpData.email := Some "mallory@example.com";
     OtpData.purpose := None;
     OtpData.otp := Some "482913" |}.

(** ** Known answers for the digest *)

Example sha256_abc :
  hex_of_bytes (SHA256.digest (bytes_of_string "abc"))
  = "ba7816bf8f01cfea414140de5dae2223b00361a396177a9cb410ff61f20015ad".
Proof. vm_compute. reflexivity. Qed.

Example sha256_empty :
  hex_of_bytes (SHA256.digest [])
  = "e3b0c44298fc1c149afbf4c8996fb92427ae41e4649b934ca495991b7852b855".
Proof. vm_compute. reflexivity. Qed.

Example hmac_sha256_fox :
  hmac_sha256_hex "key" "The quick brown fox jumps over the lazy dog"
  = "f7bc83f430538424b13298e6aa6fb143ef4d59a14946175997479dbc2d1a3cd8".
Proof. vm_compute. reflexivity. Qed.

(** ** Floats: agreement with the machine's binary64 *)

Module MachineFloat.
Import PrimFloat FloatOps.
#[local] Set Warnings "-inexact-float".

(** Decimal numbers denote the floats the machine reads them as. *)
Example decimal_numbers :
  cents 18 = Prim2SF 0.18
  /\ cents 100075 = Prim2SF 1000.75
  /\ cents 51219 = Prim2SF 512.19
  /\ cents (-5) = Prim2SF (-0.05)
  /\ float_of_Z 11800 = Prim2SF 11800
  /\ float_of_Z (10 ^ 22) = Prim2SF 1e22
  /\ float_of_Z (10 ^ 308) = Prim2SF 1e308
  /\ float_of_ratio 1 (10 ^ 30) = Prim2SF 1e-30.
Proof. vm_compute. repeat split. Qed.

(** The four operations are the machine's. *)
Example operations :
  fmul (cents 100075) (cents 18) = Prim2SF (1000.75 * 0.18)
  /\ fadd (cents 51219) (float_of_Z 5900) = Prim2SF (512.19 + 5900)
  /\ fsub (cents 1180007) (cents 590003) = Prim2SF (11800.07 - 5900.03)
  /\ fdiv (fmul (cents 118007) (float_of_Z 50)) (float_of_Z 100)
     = Prim2SF (1180.07 * 50 / 100)
  /\ fadd (float_of_Z (10 ^ 308)) (float_of_Z (10 ^ 308)) = Prim2SF infinity
  /\ fsub (Prim2SF infinity) (Prim2SF infinity) = Prim2SF nan.
Proof. vm_compute. repeat split. Qed.

(** [round(x, 2)] at values the interpreter is known for: the float
    [2.675] lies below the decimal and goes down, [0.125] and [0.375] lie
    half way and go to the even hundredth, a small negative number keeps its
    sign, large numbers and infinities stay. *)
Example round2_known_answers :
  round2 (Prim2SF 2.675) = Prim2SF 2.67
  /\ round2 (Prim2SF 0.125) = Prim2SF 0.12
  /\ round2 (Prim2SF 0.375) = Prim2SF 0.38
  /\ round2 (Prim2SF 18.1782) = Prim2SF 18.18
  /\ round2 (Prim2SF (1000.75 * 0.18)) = Prim2SF 180.13
  /\ round2 (Prim2SF (1180.07 * 50 / 100)) = Prim2SF 590.03
  /\ round2 (Prim2SF (-0.001)) = Prim2SF (-0)
  /\ round2 (Prim2SF 1e22) = Prim2SF 1e22
  /\ round2 (Prim2SF infinity) = Prim2SF infinity.
Proof. vm_compute. repeat split. Qed.

(** [int(x)] truncates toward zero. *)
Example py_int_known_answers :
  py_int (Prim2SF (590.05 * 100)) = Some 59004
  /\ py_int (Prim2SF (-2.5)) = Some (-2)
  /\ py_int (Prim2SF 1e22) = Some (10 ^ 22)
  /\ py_int (Prim2SF infinity) = None.
Proof. vm_compute. repeat split. Qed.

(** [sum] of ten times [0.1]: [1.0] with the compensated loop,
    [0.9999999999999999] without. *)
Example py_sum_known_answers :
  py_sum true (repeat (cents 10) 10) = Prim2SF 1
  /\ py_sum false (repeat (cents 10) 10) = Prim2SF 0.9999999999999999
  /\ py_sum true [float_of_Z (10 ^ 308); float_of_Z (10 ^ 308)] = Prim2SF infinity
  /\ py_sum false [float_of_Z (10 ^ 308); float_of_Z (10 ^ 308)] = Prim2SF infinity.
Proof. vm_compute. repeat split. Qed.

End MachineFloat.

(** ** Rounding to hundredths *)




(** ** Comparisons *)

Lemma SFcompare_swap (x y : float) :
  SFcompare y x = option_map CompOpp (SFcompare x y).
Proof.
  destruct x as [sx|sx| |sx mx ex], y as [sy|sy| |sy my ey];
    try (destruct sx); try (destruct sy); try reflexivity;
    simpl; rewrite (Z.compare_antisym ey ex);
    destruct (ey ?= ex)%Z; simpl; try reflexivity;
    rewrite (Pos.compare_cont_antisym mx my Eq); simpl;
    try rewrite CompOpp_involutive; reflexivity.
Qed.

(** Floats that compare equal are not greater than one another. *)
Lemma feq_not_fgt (x y : float) : feq x y = true -> fgt x y = false.
Proof.
  unfold feq, fgt, SFeqb, SFltb. rewrite (SFcompare_swap x y).
  destruct (SFcompare x y) as [[| |]|]; simpl; congruence.
Qed.


(** ** The collection under [update_one] *)

Lemma apply_set_id (u : OrderUpdate.t) (o : Order.t) :
  Order.id (apply_set u o) = Order.id o.
Proof. reflexivity. Qed.

Lemma find_update_one (os : list Order.t) (order_id : string) (u : OrderUpdate.t)
    (o : Order.t) :
  find (fun x => String.eqb (Order.id x) order_id) os = Some o ->
  find (fun x => String.eqb (Order.id x) order_id) (update_one order_id u os)
  = Some (apply_set u o).
Proof.
  induction os as [|x xs IH]; simpl; intros Hf.
  - discriminate.
  - destruct (String.eqb (Order.id x) order_id) eqn:E.
    + inversion Hf; subst. simpl. rewrite E. reflexivity.
    + simpl. rewrite E. apply IH. exact Hf.
Qed.

Lemma find_one_update_order (db : store) (order_id : string) (u : OrderUpdate.t)
    (o : Order.t) :
  find_one_order db order_id = Some o ->
  find_one_order (update_order order_id u db) order_id = Some (apply_set u o).
Proof. unfold find_one_order, update_order; simpl. apply find_update_one. Qed.



(** ** The document of a new order *)

Lemma Returned_inj {A : Type} (a b : A) : Returned a = Returned b -> a = b.
Proof. intros H. injection H as H. exact H. Qed.

Lemma build_order_returned cfg env db order_data current_user o cp :
  build_order cfg env db order_data current_user = Returned (o, cp) ->
  exists vars, o = new_order cfg env db order_data current_user vars.
Proof.
  unfold build_order, bind.
  destruct (lookup_profile db order_data) as [p|]; [|discriminate].
  destruct (resolve_vars order_data p) as [vars|]; [|discriminate].
  destruct (raise_if _ _); [|discriminate].
  destruct (raise_if _ _); [|discriminate].
  destruct (check_advance _ _ _ _ _); [|discriminate].
  destruct (check_credit_limit _ _ _ _ _); [|discriminate].
  intros H; inversion H; subst. exists vars. reflexivity.
Qed.

(** ** Signature check *)

Lemma opt_string_eqb_eq (a b : option string) :
  opt_string_eqb a b = true <-> a = b.
Proof.
  destruct a as [x|], b as [y|]; simpl; split; intros H;
    try discriminate; try reflexivity.
  - apply String.eqb_eq in H. congruence.
  - inversion H; subst. apply String.eqb_refl.
Qed.

Lemma signature_rejected_bad (cfg : config) (oid pid sig : option string) :
  razorpay_client cfg = true ->
  sig <> Some (expected_signature cfg oid pid) ->
  signature_rejected cfg oid pid sig = true.
Proof.
  intros Hc Hbad. unfold signature_rejected. rewrite Hc.
  destruct (opt_string_eqb (Some (expected_signature cfg oid pid)) sig) eqn:E;
    [|reflexivity].
  apply opt_string_eqb_eq in E. congruence.
Qed.

Lemma signature_rejected_good (cfg : config) (oid pid : option string) :
  signature_rejected cfg oid pid (Some (expected_signature cfg oid pid)) = false.
Proof.
  unfold signature_rejected.
  assert (E : opt_string_eqb (Some (expected_signature cfg oid pid))
                (Some (expected_signature cfg oid pid)) = true)
    by (apply opt_string_eqb_eq; reflexivity).
  rewrite E. apply andb_false_r.
Qed.

Lemma verify_payment_accepted cfg env db order_id payment_data current_user o :
  find_one_order db order_id = Some o ->
  signature_rejected cfg (dict_get payment_data "razorpay_order_id")
    (dict_get payment_data "razorpay_payment_id")
    (dict_get payment_data "razorpay_signature") = false ->
  verify_payment cfg env db order_id payment_data current_user
  = (Returned {| PaymentResponse.message := "Payment verified successfully";
                 PaymentResponse.order_id := order_id;
                 PaymentResponse.payment_status := advance_payment_status o |},
     update_order order_id
       (verify_payment_update env o (dict_get payment_data "razorpay_payment_id")) db,
     [advance_payment_post env order_id o]).
Proof.
  intros Hf Hs. unfold verify_payment. rewrite Hf, Hs. reflexivity.
Qed.

Lemma verify_remaining_accepted cfg env db order_id payment_data current_user o :
  find_one_order db order_id = Some o ->
  signature_rejected cfg
    (Some (RemainingPaymentVerify.razorpay_order_id payment_data))
    (Some (RemainingPaymentVerify.razorpay_payment_id payment_data))
    (Some (RemainingPaymentVerify.razorpay_signature payment_data)) = false ->
  verify_remaining_payment cfg env db order_id payment_data current_user
  = (Returned {| PaymentResponse.message := "Remaining payment verified successfully";
                 PaymentResponse.order_id := order_id;
                 PaymentResponse.payment_status := "completed" |},
     update_order order_id (verify_remaining_update env payment_data) db,
     []).
Proof.
  intros Hf Hs. unfold verify_remaining_payment. rewrite Hf, Hs. reflexivity.
Qed.

Lemma advance_payment_status_cases (o : Order.t) :
  advance_payment_status o = "partial" \/ advance_payment_status o = "completed".
Proof.
  unfold advance_payment_status. destruct (fgt _ _); [left|right]; reflexivity.
Qed.

Lemma verify_payment_update_status env o pid :
  OrderUpdate.status (verify_payment_update env o pid) = Some "processing".
Proof.
  unfold verify_payment_update; simpl.
  destruct (advance_payment_status_cases o) as [-> | ->]; reflexivity.
Qed.

Lemma verify_payment_update_fields env (o x : Order.t) (pid : option string) :
  let o' := apply_set (verify_payment_update env o pid) x in
  Order.razorpay_payment_id o' = pid
  /\ Order.payment_status o' = advance_payment_status o
  /\ Order.status o' = "processing"
  /\ Order.remaining_amount o' = Order.remaining_amount x
  /\ Order.advance_paid_at o' = Some (dt_isoformat (now env))
  /\ Order.updated_at o' = dt_isoformat (now env)
  /\ Order.razorpay_order_id o' = Order.razorpay_order_id x
  /\ Order.advance_amount o' = Order.advance_amount x.
Proof.
  unfold apply_set, verify_payment_update, advance_payment_status; simpl.
  destruct (fgt _ _); simpl; repeat split.
Qed.

Lemma advance_payment_status_after_set env (o x : Order.t) (pid : option string) :
  advance_payment_status (apply_set (verify_payment_update env o pid) x)
  = advance_payment_status x.
Proof. reflexivity. Qed.

(** ** Steps of [create_order] *)

Lemma py_or_truthy (a b : option string) :
  truthy (py_or a b) = true -> exists s, py_or a b = Some s.
Proof.
  destruct (py_or a b) as [s|]; simpl; intros H; [eauto | discriminate].
Qed.

Lemma py_or_keeps_truthy (a b : option string) :
  truthy b = true -> exists s, py_or a b = Some s.
Proof.
  intros Hb. unfold py_or. destruct (truthy a) eqn:Ea.
  - destruct a as [s|]; [eauto | discriminate].
  - destruct b as [s|]; [eauto | discriminate].
Qed.

Lemma dict_get_default_some (d : dict) (k dflt : string) :
  exists s, dict_get_default d k dflt = Some s.
Proof. unfold dict_get_default. destruct (dict_get d k); eauto. Qed.

Lemma make_address_total (n p l1 l2 c s pc lm : option string) :
  (exists x, n = Some x) -> (exists x, p = Some x) ->
  (exists x, l1 = Some x) -> (exists x, c = Some x) ->
  (exists x, s = Some x) -> (exists x, pc = Some x) ->
  exists a, DeliveryAddress.make n p l1 l2 c s pc lm = Some a.
Proof.
  intros [? ->] [? ->] [? ->] [? ->] [? ->] [? ->]. simpl. eauto.
Qed.

(** With a name and a phone at hand no address construction can fail. *)
Lemma populate_from_profile_returns (order_data : OrderCreate.t) (p : Profile.t) :
  truthy (py_or (Profile.display_name p) (OrderCreate.customer_name order_data)) = true ->
  truthy (py_or (Profile.mobile p) (OrderCreate.customer_phone order_data)) = true ->
  exists vars,
    populate_from_profile order_data p = Returned vars
    /\ v_customer_name vars
       = py_or (Profile.display_name p) (OrderCreate.customer_name order_data)
    /\ v_customer_phone vars
       = py_or (Profile.mobile p) (OrderCreate.customer_phone order_data)
    /\ v_is_credit_customer vars
       = opt_string_eqb (Profile.credit_type p) (Some "credit_allowed")
    /\ v_credit_limit vars = get_default (Profile.credit_limit p) fzero.
Proof.
  intros Hn Hp. unfold populate_from_profile.
  set (name := py_or (Profile.display_name p) (OrderCreate.customer_name order_data)) in *.
  set (phone := py_or (Profile.mobile p) (OrderCreate.customer_phone order_data)) in *.
  assert (Hship : exists d, shipping_delivery_address order_data p name phone
                            = Returned d).
  { unfold shipping_delivery_address.
    destruct (OrderCreate.delivery_address order_data); [eauto|].
    destruct (truthy (OrderCreate.shipping_address_id order_data)); [|eauto].
    destruct (find _ _) as [addr|]; [|eauto].
    assert (Hm : exists a,
               DeliveryAddress.make
                 (py_or (dict_get addr "contact_person") name)
                 (py_or (dict_get addr "contact_phone") phone)
                 (dict_get_default addr "address_line1" "")
                 (dict_get addr "address_line2")
                 (dict_get_default addr "city" "")
                 (dict_get_default addr "state" "")
                 (dict_get_default addr "pin_code" "")
                 (dict_get addr "site_name") = Some a)
      by (apply make_address_total;
          first [ apply py_or_keeps_truthy; assumption
                | apply dict_get_default_some ]).
    destruct Hm as [a Ha]. rewrite Ha. eauto. }
  destruct Hship as [d Hd]. rewrite Hd. simpl.
  assert (Hbill : forall b, exists d', billing_delivery_address d b name phone
                                       = Returned d').
  { intros b. unfold billing_delivery_address.
    destruct d; [eauto|]. destruct b as [[|kv b]|]; [eauto| |eauto].
    assert (Hm : exists a,
               DeliveryAddress.make name phone
                 (dict_get_default (kv :: b) "address_line1" "")
                 (dict_get (kv :: b) "address_line2")
                 (dict_get_default (kv :: b) "city" "")
                 (dict_get_default (kv :: b) "state" "")
                 (dict_get_default (kv :: b) "pin_code" "")
                 None = Some a)
      by (apply make_address_total;
          first [ apply py_or_truthy; assumption
                | apply dict_get_default_some ]).
    destruct Hm as [a Ha]. rewrite Ha. eauto. }
  match goal with
  | |- context [billing_delivery_address d ?b name phone] =>
      destruct (Hbill b) as [d' Hd']; rewrite Hd'
  end.
  simpl. eexists. split; [reflexivity|]. simpl. repeat split.
Qed.

(** ** The outstanding of a customer *)

Lemma unsettled_of_open (profile_id : string) (o : Order.t) :
  unsettled_of (Some profile_id) o = customers_open_order profile_id o.
Proof.
  unfold unsettled_of, customers_open_order, opt_string_eqb.
  destruct (Order.customer_profile_id o); reflexivity.
Qed.

(** What [create_order] adds up is the sum over the first [n] open orders
    of the customer. *)
Lemma outstanding_of_firstn (profile_id : string) (os : list Order.t) (n : nat)
    (acc : float) :
  fold_left (fun acc o => fadd acc (get_default (Order.remaining_amount o) fzero))
    (firstn n (filter (unsettled_of (Some profile_id)) os)) acc
  = outstanding_over n profile_id acc os.
Proof.
  revert n acc. induction os as [|o os IH]; intros n acc.
  - simpl. rewrite firstn_nil. destruct n; reflexivity.
  - destruct n as [|n'].
    + reflexivity.
    + cbn [filter outstanding_over]. rewrite unsettled_of_open.
      destruct (customers_open_order profile_id o).
      * cbn [firstn fold_left]. rewrite IH.
        destruct (Order.remaining_amount o); reflexivity.
      * apply IH.
Qed.

Lemma existing_orders_outstanding (db : store) (profile_id : string) :
  outstanding_of (existing_orders db (Some profile_id))
  = outstanding_over 1000 profile_id fzero (orders db).
Proof. unfold outstanding_of, existing_orders. apply outstanding_of_firstn. Qed.

(** A bound that no fewer open orders reach does not matter. *)
Lemma outstanding_over_enough (profile_id : string) (os : list Order.t) :
  forall (n m : nat) (acc : float),
    (List.length (filter (customers_open_order profile_id) os) <= n)%nat ->
    (List.length (filter (customers_open_order profile_id) os) <= m)%nat ->
    outstanding_over n profile_id acc os = outstanding_over m profile_id acc os.
Proof.
  induction os as [|o os IH]; intros n m acc Hn Hm.
  - destruct n, m; reflexivity.
  - cbn [filter] in Hn, Hm.
    destruct (customers_open_order profile_id o) eqn:E.
    + cbn [List.length] in Hn, Hm.
      destruct n as [|n']; [lia|]. destruct m as [|m']; [lia|].
      cbn [outstanding_over]. rewrite E. apply IH; lia.
    + destruct n as [|n'], m as [|m']; cbn [outstanding_over]; rewrite ?E.
      * reflexivity.
      * rewrite <- (IH 0%nat (S m') acc Hn Hm). destruct os; reflexivity.
      * rewrite (IH (S n') 0%nat acc Hn Hm). destruct os; reflexivity.
      * apply IH; assumption.
Qed.

Lemma outstanding_over_all (db : store) (profile_id : string) (n : nat) :
  (List.length (filter (customers_open_order profile_id) (orders db)) <= n)%nat ->
  outstanding_over n profile_id fzero (orders db) = spec_outstanding db profile_id.
Proof.
  intros Hn. unfold spec_outstanding. apply outstanding_over_enough; [exact Hn|].
  apply filter_length_le.
Qed.

(** ** Membership tests *)

Lemma in_ints_In (n : Z) (l : list Z) : in_ints n l = true <-> In n l.
Proof.
  unfold in_ints. rewrite existsb_exists. split.
  - intros [x [Hin Hx]]. apply Z.eqb_eq in Hx. subst. exact Hin.
  - intros Hin. exists n. split; [exact Hin | apply Z.eqb_refl].
Qed.

(** ** Decimal strings and the lexical order *)

Lemma zeros_string_of_uint (k : nat) (d : Decimal.uint) :
  (string_of_list_ascii (repeat "0"%char k) ++ NilEmpty.string_of_uint d)%string
  = NilEmpty.string_of_uint (Nat.iter k Decimal.D0 d).
Proof.
  induction k as [|k IH]; simpl.
  - reflexivity.
  - rewrite IH. reflexivity.
Qed.

Lemma of_uint_leading_zeros (k : nat) (d : Decimal.uint) :
  Nat.of_uint (Nat.iter k Decimal.D0 d) = Nat.of_uint d.
Proof.
  induction k as [|k IH]; simpl.
  - reflexivity.
  - rewrite <- IH. reflexivity.
Qed.

Lemma string_of_uint_inj (d d' : Decimal.uint) :
  NilEmpty.string_of_uint d = NilEmpty.string_of_uint d' -> d = d'.
Proof.
  intros H.
  assert (E : Some d = Some d').
  { rewrite <- (NilEmpty.usu d), <- (NilEmpty.usu d'), H. reflexivity. }
  inversion E. reflexivity.
Qed.

Lemma zfill_py_str_inj (w n m : nat) :
  zfill w (py_str n) = zfill w (py_str m) -> n = m.
Proof.
  unfold zfill, py_str. rewrite !zeros_string_of_uint. intros H.
  apply string_of_uint_inj in H.
  apply (f_equal Nat.of_uint) in H.
  rewrite !of_uint_leading_zeros in H.
  rewrite !DecimalNat.Unsigned.of_to in H. exact H.
Qed.

Lemma append_inj_l (p a b : string) : (p ++ a = p ++ b)%string -> a = b.
Proof.
  induction p as [|c p IH]; simpl; intros H.
  - exact H.
  - inversion H. auto.
Qed.

Lemma prefix_append (p s : string) : String.prefix p (p ++ s) = true.
Proof.
  induction p as [|c p IH]; simpl.
  - destruct s; reflexivity.
  - destruct (ascii_dec c c) as [_|N]; [exact IH | contradiction N; reflexivity].
Qed.

Lemma ascii_compare_refl (c : ascii) : Ascii.compare c c = Eq.
Proof. unfold Ascii.compare. apply N.compare_refl. Qed.

Lemma compare_append (p a b : string) :
  String.compare (p ++ a) (p ++ b) = String.compare a b.
Proof.
  induction p as [|c p IH]; simpl.
  - reflexivity.
  - rewrite ascii_compare_refl. exact IH.
Qed.

Lemma compare_lt_trans (a b c : string) :
  String.compare a b = Lt -> String.compare b c = Lt -> String.compare a c = Lt.
Proof.
  revert b c. induction a as [|x a IH]; intros [|y b] [|z c]; simpl;
    try discriminate; try reflexivity.
  destruct (Ascii.compare x y) eqn:Exy; try discriminate;
    destruct (Ascii.compare y z) eqn:Eyz; try discriminate; intros Hab Hbc.
  - apply Ascii.compare_eq_iff in Exy, Eyz. subst.
    rewrite ascii_compare_refl. eapply IH; eassumption.
  - apply Ascii.compare_eq_iff in Exy. subst. rewrite Eyz. reflexivity.
  - apply Ascii.compare_eq_iff in Eyz. subst. rewrite Exy. reflexivity.
  - unfold Ascii.compare in *.
    rewrite N.compare_lt_iff in Exy, Eyz.
    assert (Hxz : (N_of_ascii x < N_of_ascii z)%N) by (eapply N.lt_trans; eassumption).
    apply N.compare_lt_iff in Hxz. rewrite Hxz. reflexivity.
Qed.

(** Consecutive four-digit sequence fields are in lexical order, up to 9999. *)
Lemma fields_ascend_9999 : fields_ascend 9999 Decimal.zero = true.
Proof. vm_compute. reflexivity. Qed.

Lemma py_str_to_lu (n : nat) :
  py_str n = NilEmpty.string_of_uint (Decimal.rev (DecimalNat.Unsigned.to_lu n)).
Proof. unfold py_str. rewrite DecimalNat.Unsigned.to_uint_alt. reflexivity. Qed.

Lemma fields_ascend_step (n j i : nat) :
  fields_ascend n (DecimalNat.Unsigned.to_lu j) = true ->
  (i < n)%nat ->
  String.compare (zfill 4 (py_str (j + i))) (zfill 4 (py_str (S (j + i)))) = Lt.
Proof.
  revert j i. induction n as [|n IH]; intros j i Hall Hi; [lia|].
  cbn [fields_ascend] in Hall.
  destruct (String.compare
              (zfill 4 (NilEmpty.string_of_uint
                          (Decimal.rev (DecimalNat.Unsigned.to_lu j))))
              (zfill 4 (NilEmpty.string_of_uint
                          (Decimal.rev
                             (Decimal.Little.succ (DecimalNat.Unsigned.to_lu j))))))
    eqn:Ecmp; try discriminate.
  destruct i as [|i].
  - rewrite Nat.add_0_r, !py_str_to_lu. exact Ecmp.
  - replace (j + S i)%nat with (S j + i)%nat by lia.
    apply IH; [exact Hall | lia].
Qed.

Lemma zfill4_step (n : nat) :
  (S n <= 9999)%nat ->
  String.compare (zfill 4 (py_str n)) (zfill 4 (py_str (S n))) = Lt.
Proof.
  intros Hn.
  apply (fields_ascend_step 9999 0 n fields_ascend_9999). lia.
Qed.

Lemma zfill4_lt (j m : nat) :
  (j < m)%nat -> (m <= 9999)%nat ->
  String.compare (zfill 4 (py_str j)) (zfill 4 (py_str m)) = Lt.
Proof.
  intros Hjm. induction Hjm as [|m Hjm IH]; intros Hm.
  - apply zfill4_step. exact Hm.
  - eapply compare_lt_trans.
    + apply IH. lia.
    + apply zfill4_step. exact Hm.
Qed.

(** ** Orders of a day *)

Lemma order_number_format_inj (prefix : string) (n m : nat) :
  order_number_format prefix n = order_number_format prefix m -> n = m.
Proof.
  unfold order_number_format. intros H.
  apply append_inj_l in H. eapply zfill_py_str_inj. exact H.
Qed.

Lemma issued_serially_numbers (prefix : string) (db : store) (o : Order.t) :
  issued_serially prefix db ->
  In o (orders db) -> order_number_matches prefix o = true ->
  exists j,
    Order.order_number o = Some (order_number_format prefix j)
    /\ (1 <= j <= count_documents (order_number_matches prefix) db)%nat.
Proof.
  intros Hser Hin Hm.
  assert (Hf : In o (filter (order_number_matches prefix) (orders db)))
    by (apply filter_In; split; assumption).
  apply (in_map Order.order_number) in Hf.
  rewrite Hser in Hf. apply in_map_iff in Hf.
  destruct Hf as [j [Hj Hseq]]. apply in_seq in Hseq.
  exists j. split; [symmetry; exact Hj | lia].
Qed.

Lemma generate_order_number_format (env : request_env) (db : store) :
  generate_order_number env db
  = order_number_format (order_prefix (now env))
      (count_documents (order_number_matches (order_prefix (now env))) db + 1).
Proof. reflexivity. Qed.

Lemma new_order_number cfg env db order_data current_user vars :
  Order.order_number (new_order cfg env db order_data current_user vars)
  = Some (generate_order_number env db).
Proof. reflexivity. Qed.

Lemma issued_serially_insert (prefix : string) (db : store) (o : Order.t) :
  issued_serially prefix db ->
  Order.order_number o
  = Some (order_number_format prefix
            (count_documents (order_number_matches prefix) db + 1)) ->
  issued_serially prefix (insert_order o db).
Proof.
  unfold issued_serially, count_documents, insert_order; simpl.
  intros Hser Ho.
  assert (Hm : order_number_matches prefix o = true).
  { unfold order_number_matches. rewrite Ho. apply prefix_append. }
  rewrite filter_app; simpl. rewrite Hm.
  rewrite length_app; simpl.
  rewrite Nat.add_1_r, seq_S, !map_app; simpl.
  rewrite Hser, Ho. rewrite Nat.add_1_r. reflexivity.
Qed.

(** A store holding exactly the orders numbered 1 to [m] of one day. *)
Lemma serial_orders_match (prefix : string) (r : float) (l : list nat) :
  filter (order_number_matches prefix)
    (map (fun n => stored_order (Some (order_number_format prefix n)) n r) l)
  = map (fun n => stored_order (Some (order_number_format prefix n)) n r) l.
Proof.
  induction l as [|n l IH]; simpl; [reflexivity|].
  unfold order_number_matches at 1; simpl.
  unfold order_number_format at 1. rewrite prefix_append. rewrite IH. reflexivity.
Qed.

Lemma serial_store_count (prefix : string) (r : float) (m : nat) :
  count_documents (order_number_matches prefix)
    (store_of_orders
       (map (fun n => stored_order (Some (order_number_format prefix n)) n r)
            (seq 1 m)))
  = m.
Proof.
  unfold count_documents, store_of_orders; cbn [orders].
  rewrite serial_orders_match, length_map, length_seq. reflexivity.
Qed.

Lemma serial_store_issued (prefix : string) (r : float) (m : nat) :
  issued_serially prefix
    (store_of_orders
       (map (fun n => stored_order (Some (order_number_format prefix n)) n r)
            (seq 1 m))).
Proof.
  unfold issued_serially. rewrite serial_store_count.
  unfold store_of_orders; cbn [orders].
  rewrite serial_orders_match, map_map. reflexivity.
Qed.

Lemma serial_store_last (prefix : string) (r : float) (m : nat) (d : Order.t) :
  last (map (fun n => stored_order (Some (order_number_format prefix n)) n r)
            (seq 1 (S m))) d
  = stored_order (Some (order_number_format prefix (S m))) (S m) r.
Proof.
  rewrite seq_S, map_app. cbn [map]. rewrite last_last. reflexivity.
Qed.

(** ** Requests that differ in their line items *)

Lemma order_total_price_with_items (cfg : config) (order_data : OrderCreate.t)
    (items : list GlassItem.t) :
  map GlassItem.total_price items
  = map GlassItem.total_price (OrderCreate.glass_items order_data) ->
  order_total_price cfg (with_items order_data items)
  = order_total_price cfg order_data.
Proof.
  intros H. unfold order_total_price, calc_subtotal; simpl. rewrite H. reflexivity.
Qed.

Lemma resolve_vars_with_items order_data items cp :
  resolve_vars (with_items order_data items) cp = resolve_vars order_data cp.
Proof. destruct cp; reflexivity. Qed.

Lemma check_advance_with_items cfg db order_data items current_user vars :
  map GlassItem.total_price items
  = map GlassItem.total_price (OrderCreate.glass_items order_data) ->
  check_advance cfg db (with_items order_data items) current_user vars
  = check_advance cfg db order_data current_user vars.
Proof.
  intros H. unfold check_advance.
  rewrite (order_total_price_with_items _ _ _ H). reflexivity.
Qed.

Lemma check_credit_limit_with_items cfg db order_data items cp vars :
  map GlassItem.total_price items
  = map GlassItem.total_price (OrderCreate.glass_items order_data) ->
  check_credit_limit cfg db (with_items order_data items) cp vars
  = check_credit_limit cfg db order_data cp vars.
Proof.
  intros H. unfold check_credit_limit.
  rewrite (order_total_price_with_items _ _ _ H). reflexivity.
Qed.

(** [build_order] on a request and on the request with other items of the
    same line totals: the same exception, or a document each. *)
Lemma build_order_with_items cfg env db order_data items current_user :
  map GlassItem.total_price items
  = map GlassItem.total_price (OrderCreate.glass_items order_data) ->
  match build_order cfg env db order_data current_user,
        build_order cfg env db (with_items order_data items) current_user with
  | Raised e, Raised e' => e = e'
  | Returned _, Returned _ => True
  | _, _ => False
  end.
Proof.
  intros H. unfold build_order, bind.
  change (lookup_profile db (with_items order_data items))
    with (lookup_profile db order_data).
  destruct (lookup_profile db order_data) as [cp|e]; [|reflexivity].
  rewrite resolve_vars_with_items.
  destruct (resolve_vars order_data cp) as [vars|e]; [|reflexivity].
  destruct (raise_if (negb (truthy (v_customer_name vars))) _); [|reflexivity].
  destruct (raise_if (negb (truthy (v_customer_phone vars))) _); [|reflexivity].
  rewrite (check_advance_with_items _ _ _ _ _ _ H).
  destruct (check_advance cfg db order_data current_user vars); [|reflexivity].
  rewrite (check_credit_limit_with_items _ _ _ _ _ _ H).
  destruct (check_credit_limit cfg db order_data cp vars); [|reflexivity].
  exact I.
Qed.

Lemma validate_advance_percent_reason db total p is_credit role :
  match validate_advance_percent db total p is_credit role with
  | (true, _) => True
  | (false, Some (InvalidAdvancePercentage _))
  | (false, Some (MinimumAdvanceRequired _))
  | (false, Some (AdvanceMustBeOneOf _)) => True
  | (false, _) => False
  end.
Proof.
  unfold validate_advance_percent.
  destruct (_ && _).
  - destruct (_ || _); exact I.
  - destruct (_ <? _)%Z; [exact I|]. destruct (negb _); exact I.
Qed.

Lemma shipping_delivery_address_raises order_data p n ph e :
  shipping_delivery_address order_data p n ph = Raised e -> e = ValidationError.
Proof.
  unfold shipping_delivery_address.
  destruct (OrderCreate.delivery_address order_data); [discriminate|].
  destruct (truthy _); [|discriminate].
  destruct (find _ _); [|discriminate].
  destruct (DeliveryAddress.make _ _ _ _ _ _ _ _); [discriminate|].
  intros H; inversion H; reflexivity.
Qed.

Lemma billing_delivery_address_raises d b n ph e :
  billing_delivery_address d b n ph = Raised e -> e = ValidationError.
Proof.
  unfold billing_delivery_address.
  destruct d; [discriminate|]. destruct b as [[|kv b]|]; try discriminate.
  destruct (DeliveryAddress.make _ _ _ _ _ _ _ _); [discriminate|].
  intros H; inversion H; reflexivity.
Qed.

Lemma resolve_vars_raises order_data cp e :
  resolve_vars order_data cp = Raised e -> e = ValidationError.
Proof.
  destruct cp as [p|]; simpl; [|discriminate].
  unfold populate_from_profile, bind.
  destruct (shipping_delivery_address _ _ _ _) as [sd|se] eqn:Es.
  - destruct (billing_delivery_address _ _ _ _) as [bd|be] eqn:Eb; [discriminate|].
    intros H; inversion H; subst.
    eapply billing_delivery_address_raises; exact Eb.
  - intros H; inversion H; subst.
    eapply shipping_delivery_address_raises; exact Es.
Qed.

Lemma check_advance_raises cfg db order_data current_user vars e :
  check_advance cfg db order_data current_user vars = Raised e ->
  create_order_rejection e.
Proof.
  unfold check_advance.
  pose proof (validate_advance_percent_reason db (order_total_price cfg order_data)
                (chosen_advance_percent order_data (v_is_credit_customer vars))
                (v_is_credit_customer vars)
                (get_default (User.role current_user) "customer")) as Hr.
  destruct (validate_advance_percent _ _ _ _ _) as [[|] [d|]];
    try discriminate; try contradiction.
  intros H; inversion H; subst.
  destruct d; try contradiction; reflexivity.
Qed.

Lemma check_credit_limit_raises cfg db order_data cp vars e :
  check_credit_limit cfg db order_data cp vars = Raised e ->
  create_order_rejection e.
Proof.
  unfold check_credit_limit, raise_if.
  destruct cp; [|discriminate].
  destruct (v_is_credit_customer vars); [|discriminate].
  destruct (fgt _ _); [|discriminate].
  intros H; inversion H; subst. reflexivity.
Qed.

Lemma build_order_rejection cfg env db order_data current_user e :
  build_order cfg env db order_data current_user = Raised e ->
  create_order_rejection e.
Proof.
  unfold build_order, bind.
  destruct (lookup_profile db order_data) as [cp|e0] eqn:El.
  - destruct (resolve_vars order_data cp) as [vars|e1] eqn:Er.
    + unfold raise_if at 1.
      destruct (negb (truthy (v_customer_name vars))).
      { intros H; inversion H; subst. reflexivity. }
      unfold raise_if at 1.
      destruct (negb (truthy (v_customer_phone vars))).
      { intros H; inversion H; subst. reflexivity. }
      destruct (check_advance cfg db order_data current_user vars) as [[]|e2] eqn:Ea.
      * destruct (check_credit_limit cfg db order_data cp vars) as [[]|e3] eqn:Ec;
          [discriminate|].
        intros H; inversion H; subst.
        eapply check_credit_limit_raises; exact Ec.
      * intros H; inversion H; subst.
        eapply check_advance_raises; exact Ea.
    + intros H; inversion H; subst.
      rewrite (resolve_vars_raises _ _ _ Er). exact I.
  - intros H; inversion H; subst.
    unfold lookup_profile in El.
    destruct (truthy _); [|discriminate].
    destruct (find_profile _ _); [discriminate|].
    inversion El; subst. reflexivity.
Qed.

(** ** The worked scenario of the specification *)

Example scenario_created_order :
  exists o,
    orders store_10000 = [o]
    /\ Order.order_number o = Some "LG2611030001"
    /\ Order.tax_amount o = float_of_Z 1800
    /\ Order.total_price o = float_of_Z 11800
    /\ Order.advance_amount o = Some (float_of_Z 5900)
    /\ Order.remaining_amount o = Some (float_of_Z 5900)
    /\ Order.payment_status o = "pending"
    /\ Order.status o = "pending"
    /\ Order.razorpay_order_id o = Some "order_A1".
Proof. eexists. vm_compute. repeat split. Qed.

(** ** C1: advance + remaining = total *)




(** ** C2: a recorded gateway payment id is not write-once *)

(** C2, counterexample.  After the advance of the scenario was verified with
    payment id "pay_001", a second, validly signed callback carrying
    "pay_002" is accepted: the recorded id becomes "pay_002", the paid-at
    timestamp is rewritten and a second ledger posting is produced. *)
Lemma second_verification_overwrites_payment_id :
  exists o1 o2 resp post,
    find_one_order store_paid "ord-1" = Some o1
    /\ Order.razorpay_payment_id o1 = Some "pay_001"
    /\ Order.advance_paid_at o1 = Some "2026-11-03T10:00:00+00:00"
    /\ verify_payment cfg_live env_nov3_later store_paid "ord-1"
         callback_other_order walk_in
       = (Returned resp,
          store_of (verify_payment cfg_live env_nov3_later store_paid "ord-1"
                      callback_other_order walk_in),
          [post])
    /\ find_one_order
         (store_of (verify_payment cfg_live env_nov3_later store_paid "ord-1"
                      callback_other_order walk_in)) "ord-1" = Some o2
    /\ Order.razorpay_payment_id o2 = Some "pay_002"
    /\ Order.advance_paid_at o2 = Some "2026-11-03T10:05:00+00:00"
    /\ LedgerPost.entry_type post = "payment_received"
    /\ LedgerPost.reference_id post = "ord-1-advance".
Proof.
  do 4 eexists. vm_compute. repeat split.
Qed.

(** C2, as amended.  Neither verification endpoint has a write-once guard.
    A second call that passes the signature check succeeds and applies the
    [$set] again: the recorded payment id is the one of the second callback,
    the timestamps are those of the second call, [verify_payment] sets the
    status to "processing" and produces another ledger posting.
    [payment_status] and [remaining_amount] are the same after the second
    call as after the first. *)
Theorem repeated_verification
    (cfg : config) (env1 env2 : request_env) (db : store) (order_id : string)
    (current_user : User.t) (o : Order.t)
    (Hfind : find_one_order db order_id = Some o) :
  (forall pd1 pd2 : dict,
      signature_rejected cfg (dict_get pd1 "razorpay_order_id")
        (dict_get pd1 "razorpay_payment_id") (dict_get pd1 "razorpay_signature") = false ->
      signature_rejected cfg (dict_get pd2 "razorpay_order_id")
        (dict_get pd2 "razorpay_payment_id") (dict_get pd2 "razorpay_signature") = false ->
      let db1 := store_of (verify_payment cfg env1 db order_id pd1 current_user) in
      let second := verify_payment cfg env2 db1 order_id pd2 current_user in
      exists o1 o2 resp,
        find_one_order db1 order_id = Some o1
        /\ outcome_of second = Returned resp
        /\ find_one_order (store_of second) order_id = Some o2
        /\ Order.razorpay_payment_id o1 = dict_get pd1 "razorpay_payment_id"
        /\ Order.razorpay_payment_id o2 = dict_get pd2 "razorpay_payment_id"
        /\ Order.payment_status o2 = Order.payment_status o1
        /\ Order.remaining_amount o2 = Order.remaining_amount o1
        /\ Order.status o2 = "processing"
        /\ Order.advance_paid_at o2 = Some (dt_isoformat (now env2))
        /\ Order.updated_at o2 = dt_isoformat (now env2)
        /\ posts_of second = [advance_payment_post env2 order_id o1])
  /\ (forall rd1 rd2 : RemainingPaymentVerify.t,
        signature_rejected cfg
          (Some (RemainingPaymentVerify.razorpay_order_id rd1))
          (Some (RemainingPaymentVerify.razorpay_payment_id rd1))
          (Some (RemainingPaymentVerify.razorpay_signature rd1)) = false ->
        signature_rejected cfg
          (Some (RemainingPaymentVerify.razorpay_order_id rd2))
          (Some (RemainingPaymentVerify.razorpay_payment_id rd2))
          (Some (RemainingPaymentVerify.razorpay_signature rd2)) = false ->
        let db1 :=
          store_of (verify_remaining_payment cfg env1 db order_id rd1 current_user) in
        let second := verify_remaining_payment cfg env2 db1 order_id rd2 current_user in
        exists o1 o2 resp,
          find_one_order db1 order_id = Some o1
          /\ outcome_of second = Returned resp
          /\ find_one_order (store_of second) order_id = Some o2
          /\ Order.remaining_razorpay_payment_id o1
             = Some (RemainingPaymentVerify.razorpay_payment_id rd1)
          /\ Order.remaining_razorpay_payment_id o2
             = Some (RemainingPaymentVerify.razorpay_payment_id rd2)
          /\ Order.payment_status o2 = Order.payment_status o1
          /\ Order.remaining_amount o2 = Order.remaining_amount o1
          /\ Order.remaining_paid_at o2 = Some (dt_isoformat (now env2))
          /\ Order.updated_at o2 = dt_isoformat (now env2)).
Proof.
  split.
  - intros pd1 pd2 H1 H2 db1 second.
    pose proof (find_one_update_order db order_id
                  (verify_payment_update env1 o (dict_get pd1 "razorpay_payment_id"))
                  o Hfind) as Hf1.
    assert (Hdb1 : db1 = update_order order_id
                           (verify_payment_update env1 o
                              (dict_get pd1 "razorpay_payment_id")) db).
    { unfold db1. rewrite (verify_payment_accepted _ _ _ _ _ _ _ Hfind H1).
      reflexivity. }
    clearbody db1. subst db1.
    assert (Hsecond : second = _)
      by (exact (verify_payment_accepted cfg env2 _ order_id pd2 current_user _
                   Hf1 H2)).
    clearbody second. subst second.
    unfold store_of, outcome_of, posts_of; simpl fst; simpl snd.
    do 3 eexists. split; [exact Hf1|]. split; [reflexivity|].
    split; [apply find_one_update_order; exact Hf1|].
    destruct (verify_payment_update_fields env1 o o
                (dict_get pd1 "razorpay_payment_id"))
      as (Ha1 & Ha2 & _ & Ha4 & _).
    destruct (verify_payment_update_fields env2
                (apply_set (verify_payment_update env1 o
                              (dict_get pd1 "razorpay_payment_id")) o)
                (apply_set (verify_payment_update env1 o
                              (dict_get pd1 "razorpay_payment_id")) o)
                (dict_get pd2 "razorpay_payment_id"))
      as (Hb1 & Hb2 & Hb3 & Hb4 & Hb5 & Hb6 & _).
    split; [exact Ha1|]. split; [exact Hb1|].
    split; [rewrite Hb2, Ha2; apply advance_payment_status_after_set|].
    split; [exact Hb4|]. split; [exact Hb3|]. split; [exact Hb5|].
    split; [exact Hb6 | reflexivity].
  - intros rd1 rd2 H1 H2 db1 second.
    pose proof (find_one_update_order db order_id
                  (verify_remaining_update env1 rd1) o Hfind) as Hf1.
    assert (Hdb1 : db1 = update_order order_id (verify_remaining_update env1 rd1) db).
    { unfold db1. rewrite (verify_remaining_accepted _ _ _ _ _ _ _ Hfind H1).
      reflexivity. }
    clearbody db1. subst db1.
    assert (Hsecond : second = _)
      by (exact (verify_remaining_accepted cfg env2 _ order_id rd2 current_user _
                   Hf1 H2)).
    clearbody second. subst second.
    unfold store_of, outcome_of; simpl.
    do 3 eexists. split; [exact Hf1|]. split; [reflexivity|].
    split; [apply find_one_update_order; exact Hf1|].
    simpl. repeat split.
Qed.

(** Witness of [repeated_verification]: the scenario's order, verified with
    "pay_001" and then with "pay_002". *)
Lemma repeated_verification_witness :
  exists o2,
    find_one_order
      (store_of (verify_payment cfg_live env_nov3_later store_paid "ord-1"
                   callback_other_order walk_in)) "ord-1" = Some o2
    /\ Order.razorpay_payment_id o2 = Some "pay_002"
    /\ Order.status o2 = "processing".
Proof.
  destruct (repeated_verification cfg_live env_nov3 env_nov3_later store_10000 "ord-1"
              walk_in _ (eq_refl : find_one_order store_10000 "ord-1" = Some _))
    as [Hadv _].
  destruct (Hadv callback_advance callback_other_order
              ltac:(vm_compute; reflexivity) ltac:(vm_compute; reflexivity))
    as (o1 & o2 & resp & _ & _ & H2 & _ & Hid & _ & _ & Hst & _).
  exists o2. split; [exact H2|]. split; [exact Hid | exact Hst].
Defined.

(** ** C6: a callback with a wrong signature *)

(** C6, counterexample.  Without gateway credentials [razorpay_client] is
    [None] and the signature is not checked: the forged callback is accepted,
    the order moves to "partial"/"processing", the payment id is recorded and
    a ledger posting is produced. *)
Lemma forged_callback_accepted_without_client :
  dict_get callback_forged "razorpay_signature"
  <> Some (expected_signature cfg_unset
             (dict_get callback_forged "razorpay_order_id")
             (dict_get callback_forged "razorpay_payment_id"))
  /\ exists resp o' post,
       verify_payment cfg_unset env_nov3 store_10000 "ord-1" callback_forged walk_in
       = (Returned resp,
          store_of (verify_payment cfg_unset env_nov3 store_10000 "ord-1"
                      callback_forged walk_in),
          [post])
       /\ find_one_order
            (store_of (verify_payment cfg_unset env_nov3 store_10000 "ord-1"
                         callback_forged walk_in)) "ord-1" = Some o'
       /\ Order.payment_status o' = "partial"
       /\ Order.status o' = "processing"
       /\ Order.razorpay_payment_id o' = Some "pay_001".
Proof.
  split.
  - vm_compute. discriminate.
  - do 3 eexists. vm_compute. repeat split.
Qed.

(** C6, as amended.  When the gateway client is configured (key id and secret
    both non-empty), a callback for a stored order whose signature differs
    from the HMAC-SHA256 of "<order id>|<payment id>" under the secret makes
    both verification endpoints raise the 400 "Payment verification failed";
    the store is unchanged and no ledger posting is produced. *)
Theorem wrong_signature_changes_nothing
    (cfg : config) (env : request_env) (db : store) (order_id : string)
    (current_user : User.t) (o : Order.t)
    (Hclient : razorpay_client cfg = true)
    (Hfind : find_one_order db order_id = Some o) :
  (forall payment_data : dict,
      dict_get payment_data "razorpay_signature"
      <> Some (hmac_sha256_hex (RAZORPAY_KEY_SECRET cfg)
                 (py_fmt (dict_get payment_data "razorpay_order_id") ++ "|"
                  ++ py_fmt (dict_get payment_data "razorpay_payment_id"))%string) ->
      verify_payment cfg env db order_id payment_data current_user
      = (Raised (HTTPException 400 PaymentVerificationFailed), db, []))
  /\ (forall payment_data : RemainingPaymentVerify.t,
        RemainingPaymentVerify.razorpay_signature payment_data
        <> hmac_sha256_hex (RAZORPAY_KEY_SECRET cfg)
             (RemainingPaymentVerify.razorpay_order_id payment_data ++ "|"
              ++ RemainingPaymentVerify.razorpay_payment_id payment_data)%string ->
        verify_remaining_payment cfg env db order_id payment_data current_user
        = (Raised (HTTPException 400 PaymentVerificationFailed), db, [])).
Proof.
  split.
  - intros pd Hbad. unfold verify_payment. rewrite Hfind.
    rewrite signature_rejected_bad; [reflexivity | exact Hclient | exact Hbad].
  - intros pd Hbad. unfold verify_remaining_payment. rewrite Hfind.
    rewrite signature_rejected_bad; [reflexivity | exact Hclient |].
    intros E. apply Hbad. injection E as E'. exact E'.
Qed.

(** Witness of [wrong_signature_changes_nothing]: the forged callbacks against
    the live configuration. *)
Lemma wrong_signature_changes_nothing_witness :
  verify_payment cfg_live env_nov3 store_10000 "ord-1" callback_forged walk_in
  = (Raised (HTTPException 400 PaymentVerificationFailed), store_10000, [])
  /\ verify_remaining_payment cfg_live env_nov3 store_10000 "ord-1"
       callback_remaining_forged walk_in
     = (Raised (HTTPException 400 PaymentVerificationFailed), store_10000, []).
Proof.
  destruct (wrong_signature_changes_nothing cfg_live env_nov3 store_10000 "ord-1"
              walk_in _ eq_refl
              (eq_refl : find_one_order store_10000 "ord-1" = Some _))
    as [Hadv Hrem].
  split.
  - apply Hadv. vm_compute. discriminate.
  - apply Hrem. vm_compute. discriminate.
Defined.

(** ** C7: the advance-leg transition *)

(** C7.  When [verify_payment] succeeds on an order, the stored order has
    payment status "partial" if its remaining amount is positive
    ([remaining_amount > 0], with 0 for a missing amount) and "completed"
    otherwise, and status "processing"; the response reports the same
    payment status. *)
Theorem advance_verification_transition
    (cfg : config) (env : request_env) (db : store) (order_id : string)
    (payment_data : dict) (current_user : User.t) (o : Order.t)
    (resp : PaymentResponse.t)
    (Hfind : find_one_order db order_id = Some o)
    (Hok : outcome_of (verify_payment cfg env db order_id payment_data current_user)
           = Returned resp) :
  exists o',
    find_one_order
      (store_of (verify_payment cfg env db order_id payment_data current_user))
      order_id = Some o'
    /\ (fgt (get_default (Order.remaining_amount o) fzero) fzero = true ->
        Order.payment_status o' = "partial")
    /\ (fgt (get_default (Order.remaining_amount o) fzero) fzero = false ->
        Order.payment_status o' = "completed")
    /\ Order.status o' = "processing"
    /\ PaymentResponse.payment_status resp = Order.payment_status o'
    /\ Order.remaining_amount o' = Order.remaining_amount o.
Proof.
  revert Hok. unfold verify_payment, outcome_of, store_of. rewrite Hfind.
  destruct (signature_rejected _ _ _ _); simpl; [discriminate|].
  intros Hok. inversion Hok; subst; clear Hok.
  eexists. split; [apply find_one_update_order; exact Hfind|].
  destruct (verify_payment_update_fields env o o
              (dict_get payment_data "razorpay_payment_id"))
    as (_ & Hps & Hst & Hrem & _).
  rewrite Hps. simpl PaymentResponse.payment_status.
  split; [|split; [|split; [exact Hst | split; [reflexivity | exact Hrem]]]].
  - intros E. unfold advance_payment_status. rewrite E. reflexivity.
  - intros E. unfold advance_payment_status. rewrite E. reflexivity.
Qed.

(** Witness of [advance_verification_transition]: the scenario's order, with
    5900 remaining, becomes "partial" and "processing". *)
Lemma advance_verification_transition_witness :
  exists o',
    find_one_order store_paid "ord-1" = Some o'
    /\ Order.payment_status o' = "partial"
    /\ Order.status o' = "processing".
Proof.
  destruct (advance_verification_transition cfg_live env_nov3 store_10000 "ord-1"
              callback_advance walk_in _ _
              (eq_refl : find_one_order store_10000 "ord-1" = Some _)
              ltac:(vm_compute; reflexivity))
    as (o' & Hf & Hpos & _ & Hst & _).
  exists o'. split; [exact Hf|]. split; [|exact Hst].
  apply Hpos. vm_compute. reflexivity.
Defined.

(** ** C10: what a validly signed callback is checked against *)

(** C10.  For any stored order and any callback whose signature is the
    HMAC-SHA256 of the callback's own "<order id>|<payment id>", whatever the
    order's stored [razorpay_order_id] and [advance_amount] are,
    [verify_payment] succeeds, records the callback's payment id, applies the
    advance-leg transition and produces the ledger posting of the advance. *)
Theorem signed_callback_applies_to_any_order
    (cfg : config) (env : request_env) (db : store) (order_id : string)
    (payment_data : dict) (current_user : User.t) (o : Order.t)
    (Hfind : find_one_order db order_id = Some o)
    (Hsig : dict_get payment_data "razorpay_signature"
            = Some (hmac_sha256_hex (RAZORPAY_KEY_SECRET cfg)
                      (py_fmt (dict_get payment_data "razorpay_order_id") ++ "|"
                       ++ py_fmt (dict_get payment_data "razorpay_payment_id"))%string)) :
  exists resp o',
    verify_payment cfg env db order_id payment_data current_user
    = (Returned resp,
       update_order order_id
         (verify_payment_update env o (dict_get payment_data "razorpay_payment_id")) db,
       [advance_payment_post env order_id o])
    /\ find_one_order
         (store_of (verify_payment cfg env db order_id payment_data current_user))
         order_id = Some o'
    /\ Order.razorpay_payment_id o' = dict_get payment_data "razorpay_payment_id"
    /\ Order.payment_status o' = advance_payment_status o
    /\ Order.status o' = "processing"
    /\ Order.advance_paid_at o' = Some (dt_isoformat (now env))
    /\ Order.razorpay_order_id o' = Order.razorpay_order_id o
    /\ Order.advance_amount o' = Order.advance_amount o.
Proof.
  assert (Hs : signature_rejected cfg (dict_get payment_data "razorpay_order_id")
                 (dict_get payment_data "razorpay_payment_id")
                 (dict_get payment_data "razorpay_signature") = false).
  { rewrite Hsig. apply signature_rejected_good. }
  rewrite (verify_payment_accepted _ _ _ _ _ _ _ Hfind Hs).
  do 2 eexists. split; [reflexivity|].
  unfold store_of; simpl fst; simpl snd.
  split; [apply find_one_update_order; exact Hfind|].
  destruct (verify_payment_update_fields env o o
              (dict_get payment_data "razorpay_payment_id"))
    as (H1 & H2 & H3 & _ & H5 & _ & H7 & H8).
  repeat split; assumption.
Qed.

(** Witness of [signed_callback_applies_to_any_order]: the scenario's order
    was issued gateway order "order_A1"; a callback signed for gateway order
    "order_ZZ" is applied to it. *)
Lemma signed_callback_applies_to_any_order_witness :
  exists o o',
    find_one_order store_10000 "ord-1" = Some o
    /\ Order.razorpay_order_id o = Some "order_A1"
    /\ dict_get callback_other_order "razorpay_order_id" = Some "order_ZZ"
    /\ find_one_order
         (store_of (verify_payment cfg_live env_nov3 store_10000 "ord-1"
                      callback_other_order walk_in)) "ord-1" = Some o'
    /\ Order.razorpay_payment_id o' = Some "pay_002"
    /\ Order.status o' = "processing".
Proof.
  destruct (signed_callback_applies_to_any_order cfg_live env_nov3 store_10000 "ord-1"
              callback_other_order walk_in _
              (eq_refl : find_one_order store_10000 "ord-1" = Some _)
              ltac:(vm_compute; reflexivity))
    as (resp & o' & _ & Hf & Hid & _ & Hst & _).
  eexists. exists o'.
  split; [reflexivity|]. split; [reflexivity|]. split; [reflexivity|].
  split; [exact Hf|]. split; [exact Hid | exact Hst].
Defined.

(** ** C3: the credit-limit guard *)

(** C3, counterexample.  The customer has 1001 unsettled orders of 100 each,
    so the outstanding over all of them is 100100; the limit is 105900 and
    the new order totals 5900.  Outstanding plus order is 106000, above the
    limit, yet the order is created: the guard reads 1000 orders only. *)
Lemma credit_guard_reads_1000_orders :
  spec_outstanding (credit_store (float_of_Z 105900) many_earlier) "cust-1"
  = float_of_Z 100100
  /\ order_total_price cfg_live credit_request = float_of_Z 5900
  /\ fadd (float_of_Z 100100) (float_of_Z 5900) = float_of_Z 106000
  /\ fle (float_of_Z 106000) (float_of_Z 105900) = false
  /\ exists resp,
       outcome_of (create_order cfg_live env_nov3
                     (credit_store (float_of_Z 105900) many_earlier)
                     credit_request walk_in) = Returned resp
       /\ List.length
            (orders (store_of (create_order cfg_live env_nov3
                                 (credit_store (float_of_Z 105900) many_earlier)
                                 credit_request walk_in))) = 1002%nat.
Proof.
  split; [vm_compute; reflexivity|].
  split; [vm_compute; reflexivity|].
  split; [vm_compute; reflexivity|].
  split; [vm_compute; reflexivity|].
  eexists. split; vm_compute; reflexivity.
Qed.

(** C3, as amended.  For an order attributed to an active credit customer
    profile that passes the earlier checks (name, phone, advance percent),
    with O the sum of [remaining_amount] over the first 1000 of the
    customer's orders whose payment status is not "completed", added up in
    floating point in stored order, A the order total and L the profile's
    credit limit: [create_order] is refused with the 400 credit-limit error,
    the store unchanged, exactly when the float sum O + A compares greater
    than L, and creates the order, whose total is A, otherwise; it creates
    it when O + A equals L and refuses it when O + A equals L + 0.01 and
    that is a float greater than L.  O is the sum over all such orders
    whenever there are at most 1000 of them. *)
Theorem credit_limit_guard
    (cfg : config) (env : request_env) (db : store) (order_data : OrderCreate.t)
    (current_user : User.t) (profile_id : string) (p : Profile.t)
    (Hpid : OrderCreate.customer_profile_id order_data = Some profile_id)
    (Hnonempty : profile_id <> "")
    (Hprofile : find_profile db profile_id = Some p)
    (Hcredit : Profile.credit_type p = Some "credit_allowed")
    (Hname : truthy (py_or (Profile.display_name p)
                       (OrderCreate.customer_name order_data)) = true)
    (Hphone : truthy (py_or (Profile.mobile p)
                        (OrderCreate.customer_phone order_data)) = true)
    (Hadvance : fst (validate_advance_percent db (order_total_price cfg order_data)
                       (chosen_advance_percent order_data true) true
                       (get_default (User.role current_user) "customer")) = true) :
  let O := outstanding_over 1000 profile_id fzero (orders db) in
  let A := order_total_price cfg order_data in
  let L := get_default (Profile.credit_limit p) fzero in
  ((exists resp,
       outcome_of (create_order cfg env db order_data current_user) = Returned resp)
   <-> fgt (fadd O A) L = false)
  /\ (forall resp,
        outcome_of (create_order cfg env db order_data current_user) = Returned resp ->
        Order.total_price (CreateOrderResponse.order resp) = A
        /\ orders (store_of (create_order cfg env db order_data current_user))
           = orders db ++ [CreateOrderResponse.order resp])
  /\ (feq (fadd O A) L = true ->
      exists resp,
        outcome_of (create_order cfg env db order_data current_user) = Returned resp)
  /\ (fgt (fadd O A) L = true ->
      create_order cfg env db order_data current_user
      = (Raised (HTTPException 400 (OrderExceedsCreditLimit O L)), db, []))
  /\ (fadd O A = fadd L (cents 1) ->
      fgt (fadd L (cents 1)) L = true ->
      create_order cfg env db order_data current_user
      = (Raised (HTTPException 400 (OrderExceedsCreditLimit O L)), db, []))
  /\ ((List.length (filter (customers_open_order profile_id) (orders db)) <= 1000)%nat ->
      O = spec_outstanding db profile_id).
Proof.
  intros O A L.
  destruct (populate_from_profile_returns order_data p Hname Hphone)
    as (vars & Hvars & Hvn & Hvp & Hvc & Hvl).
  assert (Hvc' : v_is_credit_customer vars = true).
  { rewrite Hvc, Hcredit. reflexivity. }
  assert (Hbuild :
            build_order cfg env db order_data current_user
            = if fgt (fadd O A) L
              then Raised (HTTPException 400 (OrderExceedsCreditLimit O L))
              else Returned (new_order cfg env db order_data current_user vars, Some p)).
  { assert (Hl : lookup_profile db order_data = Returned (Some p)).
    { unfold lookup_profile. rewrite Hpid.
      assert (Ht : truthy (Some profile_id) = true)
        by (destruct profile_id; [contradiction Hnonempty; reflexivity | reflexivity]).
      rewrite Ht. simpl py_fmt. rewrite Hprofile. reflexivity. }
    assert (Hr : resolve_vars order_data (Some p) = Returned vars) by exact Hvars.
    assert (Hn : raise_if (negb (truthy (v_customer_name vars)))
                   (HTTPException 400 CustomerNameRequired) = Returned tt)
      by (rewrite Hvn, Hname; reflexivity).
    assert (Hp : raise_if (negb (truthy (v_customer_phone vars)))
                   (HTTPException 400 CustomerPhoneRequired) = Returned tt)
      by (rewrite Hvp, Hphone; reflexivity).
    assert (Ha : check_advance cfg db order_data current_user vars = Returned tt).
    { unfold check_advance. rewrite Hvc'.
      destruct (validate_advance_percent db (order_total_price cfg order_data)
                  (chosen_advance_percent order_data true) true
                  (get_default (User.role current_user) "customer")) as [ok err].
      simpl in Hadvance. subst ok. reflexivity. }
    assert (Hc : check_credit_limit cfg db order_data (Some p) vars
                 = raise_if (fgt (fadd O A) L)
                     (HTTPException 400 (OrderExceedsCreditLimit O L))).
    { unfold check_credit_limit. rewrite Hvc', Hvl, Hpid.
      rewrite existing_orders_outstanding. reflexivity. }
    unfold build_order. rewrite Hl. cbv beta iota delta [bind].
    rewrite Hr, Hn, Hp, Ha, Hc. unfold raise_if.
    destruct (fgt (fadd O A) L); reflexivity. }
  assert (Hyes : fgt (fadd O A) L = false ->
                 exists resp,
                   outcome_of (create_order cfg env db order_data current_user)
                   = Returned resp).
  { intros Hle. unfold create_order, outcome_of. rewrite Hbuild, Hle.
    eexists. reflexivity. }
  assert (Hno : fgt (fadd O A) L = true ->
                create_order cfg env db order_data current_user
                = (Raised (HTTPException 400 (OrderExceedsCreditLimit O L)), db, [])).
  { intros Hgt. unfold create_order. rewrite Hbuild, Hgt. reflexivity. }
  split; [|split; [|split; [|split; [|split]]]].
  - split; [|exact Hyes].
    intros [resp Hr].
    destruct (fgt (fadd O A) L) eqn:E; [|reflexivity].
    rewrite (Hno eq_refl) in Hr. discriminate.
  - intros resp. unfold create_order, outcome_of, store_of. rewrite Hbuild.
    destruct (fgt (fadd O A) L); cbn [fst snd]; intros H; [discriminate|].
    apply Returned_inj in H. subst resp. split; reflexivity.
  - intros Heq. apply Hyes. apply feq_not_fgt. exact Heq.
  - exact Hno.
  - intros Heq Hgt. apply Hno. rewrite Heq. exact Hgt.
  - intros Hlen. apply outstanding_over_all. exact Hlen.
Qed.

(** Witness of [credit_limit_guard] at the boundary.  With limit 100000 and
    94100 outstanding an order of 5900 is created.  With limit 6412.19 and
    512.19 outstanding it is refused: the float sum 512.19 + 5900.0 is
    6412.1900000000005. *)
Lemma credit_limit_guard_witness :
  (exists resp,
      outcome_of (create_order cfg_live env_nov3
                    (credit_store (float_of_Z 100000)
                       [earlier_order 1 (float_of_Z 94100)])
                    credit_request walk_in) = Returned resp)
  /\ create_order cfg_live env_nov3
       (credit_store (cents 641219) [earlier_order 1 (cents 51219)])
       credit_request walk_in
     = (Raised (HTTPException 400
                  (OrderExceedsCreditLimit (cents 51219) (cents 641219))),
        credit_store (cents 641219) [earlier_order 1 (cents 51219)], []).
Proof.
  split.
  - destruct (credit_limit_guard cfg_live env_nov3
                (credit_store (float_of_Z 100000) [earlier_order 1 (float_of_Z 94100)])
                credit_request walk_in "cust-1" (credit_profile (float_of_Z 100000))
                eq_refl ltac:(discriminate) eq_refl eq_refl eq_refl eq_refl eq_refl)
      as (_ & _ & Heq & _).
    apply Heq. vm_compute. reflexivity.
  - destruct (credit_limit_guard cfg_live env_nov3
                (credit_store (cents 641219) [earlier_order 1 (cents 51219)])
                credit_request walk_in "cust-1" (credit_profile (cents 641219))
                eq_refl ltac:(discriminate) eq_refl eq_refl eq_refl eq_refl eq_refl)
      as (_ & _ & _ & Hgt & _).
    rewrite (Hgt ltac:(vm_compute; reflexivity)).
    vm_compute. reflexivity.
Defined.

(** ** C4: totals of an order *)



(** The totals where the binary product lies below the decimal one: a
    subtotal of 1000.75 gives a tax amount of 180.13 and a total of 1180.88;
    and where rounding goes up: 100.99 gives 18.18 and 119.17. *)
Example order_totals_rounding :
  calc_tax_amount (cents 100075) = cents 18013
  /\ calc_total_price (cents 100075) (cents 18013) = cents 118088
  /\ calc_tax_amount (cents 10099) = cents 1818
  /\ calc_total_price (cents 10099) (cents 1818) = cents 11917.
Proof. vm_compute. repeat split. Qed.

(** ** C5: the advance policy *)

(** C5, counterexample.  With the default settings an admin asking for 150%
    is refused with the reason "Invalid advance percentage: 150%", which is
    neither the below-minimum nor the not-an-allowed-value reason.  With
    settings whose options for normal customers include 150, the same request
    satisfies "percent >= minimum and percent in the allowed options" and is
    refused all the same. *)
Lemma admin_out_of_range_refused :
  validate_advance_percent empty_store (float_of_Z 11800) 150 false "admin"
  = (false, Some (InvalidAdvancePercentage 150))
  /\ (class_minimum settings_with_150 false <= 150)%Z
  /\ In 150%Z (class_options settings_with_150 false)
  /\ validate_advance_percent store_with_150 (float_of_Z 11800) 150 false "admin"
     = (false, Some (InvalidAdvancePercentage 150)).
Proof.
  split; [reflexivity|]. split; [vm_compute; discriminate|].
  split; [simpl; auto|]. reflexivity.
Qed.

(** C5, as amended.  With the minimum and the allowed options of the
    customer's class: the request is accepted iff either the caller is
    privileged with overrides allowed and the percent is in [0,100], or the
    caller is not privileged-with-override and the percent is at least the
    minimum and among the allowed options.  An accepted request carries no
    reason; a refused one carries the invalid-percentage reason on the
    privileged path, the below-minimum reason when the percent is under the
    minimum, and the not-an-allowed-value reason otherwise.  When every
    allowed option lies in [0,100], acceptance is equivalent to: privileged
    with override and in range, or at least the minimum and allowed. *)
Theorem advance_policy
    (db : store) (total_amount : float) (requested_percent : Z) (is_credit : bool)
    (user_role : string) :
  let s := get_advance_settings db in
  let minimum := class_minimum s is_credit in
  let allowed := class_options s is_credit in
  let privileged := privileged_override s user_role in
  let r := validate_advance_percent db total_amount requested_percent is_credit
             user_role in
  (fst r = true
   <-> (privileged = true /\ 0 <= requested_percent <= 100)%Z
       \/ (privileged = false /\ (minimum <= requested_percent)%Z
           /\ In requested_percent allowed))
  /\ (fst r = true -> snd r = None)
  /\ (fst r = false ->
      (privileged = true /\ snd r = Some (InvalidAdvancePercentage requested_percent))
      \/ (privileged = false /\ (requested_percent < minimum)%Z
          /\ snd r = Some (MinimumAdvanceRequired minimum))
      \/ (privileged = false /\ (minimum <= requested_percent)%Z
          /\ ~ In requested_percent allowed
          /\ snd r = Some (AdvanceMustBeOneOf allowed)))
  /\ ((forall x, In x allowed -> (0 <= x <= 100)%Z) ->
      (fst r = true
       <-> (privileged = true /\ 0 <= requested_percent <= 100)%Z
           \/ ((minimum <= requested_percent)%Z /\ In requested_percent allowed))).
Proof.
  intros s minimum allowed privileged r.
  assert (Hr : r = if privileged
                   then if (requested_percent <? 0)%Z || (requested_percent >? 100)%Z
                        then (false, Some (InvalidAdvancePercentage requested_percent))
                        else (true, None)
                   else if (requested_percent <? minimum)%Z
                        then (false, Some (MinimumAdvanceRequired minimum))
                        else if negb (in_ints requested_percent allowed)
                             then (false, Some (AdvanceMustBeOneOf allowed))
                             else (true, None)).
  { subst r privileged minimum allowed s.
    unfold validate_advance_percent, privileged_override, class_minimum, class_options.
    destruct is_credit; reflexivity. }
  rewrite Hr. clear Hr r.
  destruct privileged.
  - destruct (requested_percent <? 0)%Z eqn:E0; simpl.
    + apply Z.ltb_lt in E0.
      split; [|split; [|split]].
      * split; [discriminate | intros [[_ H]|[H _]]; [lia | discriminate]].
      * discriminate.
      * intros _. left. split; reflexivity.
      * intros Hall. split; [discriminate|].
        intros [[_ H]|[_ H]]; [lia | specialize (Hall _ H); lia].
    + apply Z.ltb_ge in E0.
      destruct (requested_percent >? 100)%Z eqn:E1; simpl.
      * apply Z.gtb_lt in E1.
        split; [|split; [|split]].
        -- split; [discriminate | intros [[_ H]|[H _]]; [lia | discriminate]].
        -- discriminate.
        -- intros _. left. split; reflexivity.
        -- intros Hall. split; [discriminate|].
           intros [[_ H]|[_ H]]; [lia | specialize (Hall _ H); lia].
      * assert (E1' : (requested_percent <= 100)%Z).
        { destruct (Z.gtb_spec requested_percent 100); [discriminate | lia]. }
        split; [|split; [|split]].
        -- split; [intros _; left; split; [reflexivity | lia] | reflexivity].
        -- reflexivity.
        -- discriminate.
        -- intros _.
           split; [intros _; left; split; [reflexivity | lia] | reflexivity].
  - destruct (requested_percent <? minimum)%Z eqn:Em; simpl.
    + apply Z.ltb_lt in Em.
      split; [|split; [|split]].
      * split; [discriminate | intros [[H _]|[_ [H _]]]; [discriminate | lia]].
      * discriminate.
      * intros _. right. left. repeat split; assumption.
      * intros _. split; [discriminate|].
        intros [[H _]|[H _]]; [discriminate | lia].
    + apply Z.ltb_ge in Em.
      destruct (in_ints requested_percent allowed) eqn:Ei; simpl.
      * apply in_ints_In in Ei.
        split; [|split; [|split]].
        -- split; [intros _; right; repeat split; assumption | reflexivity].
        -- reflexivity.
        -- discriminate.
        -- intros _. split; [intros _; right; split; assumption | reflexivity].
      * assert (Hni : ~ In requested_percent allowed).
        { intros Hin. apply in_ints_In in Hin. congruence. }
        split; [|split; [|split]].
        -- split; [discriminate|].
           intros [[H _]|[_ [_ H]]]; [discriminate | contradiction].
        -- discriminate.
        -- intros _. right. right. repeat split; assumption.
        -- intros _. split; [discriminate|].
           intros [[H _]|[_ H]]; [discriminate | contradiction].
Qed.

(** Witness of [advance_policy]: the defaults for a normal customer. *)
Lemma advance_policy_witness :
  fst (validate_advance_percent empty_store (float_of_Z 11800) 75 false "customer") = true
  /\ snd (validate_advance_percent empty_store (float_of_Z 11800) 25 false "customer")
     = Some (MinimumAdvanceRequired 50).
Proof.
  destruct (advance_policy empty_store (float_of_Z 11800) 75 false "customer")
    as (_ & _ & _ & Hiff).
  destruct (advance_policy empty_store (float_of_Z 11800) 25 false "customer")
    as (_ & _ & Hno & _).
  split.
  - apply Hiff.
    + simpl. intros x Hx. lia.
    + right. simpl. split; [lia | auto].
  - destruct (Hno eq_refl) as [[Hp _]|[(_ & _ & Hr)|(_ & Hge & _)]].
    + discriminate Hp.
    + exact Hr.
    + simpl in Hge. lia.
Defined.

(** ** C8: order numbers *)

(** C8, counterexample.  On a day with 9999 orders numbered one after
    another, the next number is "LG26110310000", which sorts before the
    number "LG2611039999" issued just before it.  And on a day whose only
    stored order carries "LG2611030002", one order is counted and
    "LG2611030002" is issued a second time. *)
Lemma order_number_order_and_uniqueness_fail :
  issued_serially "LG261103" full_day
  /\ generate_order_number env_nov3 full_day = "LG26110310000"
  /\ Order.order_number (last (orders full_day) (stored_order None 0 fzero))
     = Some "LG2611039999"
  /\ String.compare (generate_order_number env_nov3 full_day) "LG2611039999" = Lt
  /\ exists o, In o (orders day_with_gap)
               /\ Order.order_number o
                  = Some (generate_order_number env_nov3 day_with_gap).
Proof.
  assert (Hgen : generate_order_number env_nov3 full_day = "LG26110310000").
  { rewrite generate_order_number_format.
    change (order_prefix (now env_nov3)) with "LG261103".
    unfold full_day. rewrite (serial_store_count "LG261103" (float_of_Z 100) 9999).
    vm_compute. reflexivity. }
  split; [exact (serial_store_issued "LG261103" (float_of_Z 100) 9999)|].
  split; [exact Hgen|].
  split.
  - unfold full_day, store_of_orders; cbn [orders].
    change 9999%nat with (S 9998).
    rewrite serial_store_last. vm_compute. reflexivity.
  - split; [rewrite Hgen; vm_compute; reflexivity|].
    eexists. split; [left; reflexivity|]. vm_compute. reflexivity.
Qed.

(** C8, as amended.  With k the number of stored orders whose order number
    starts with "LG" followed by the date as YYMMDD,
    [generate_order_number] returns that prefix followed by k+1 zero-padded
    to 4 digits.  When the day's stored numbers are those issued one after
    another (sequence 1 to k), the new number differs from the number of
    every stored order, the store after a successful [create_order] is again
    of that form, and, as long as k+1 <= 9999, the new number is lexically
    greater than every earlier number of the day. *)
Theorem order_number_generation (env : request_env) (db : store) :
  let today := now env in
  let prefix :=
    ("LG" ++ zfill 2 (py_str (dt_year today mod 100))
     ++ zfill 2 (py_str (dt_month today)) ++ zfill 2 (py_str (dt_day today)))%string in
  let k := List.length (filter (order_number_matches prefix) (orders db)) in
  generate_order_number env db = (prefix ++ zfill 4 (py_str (k + 1)))%string
  /\ (issued_serially prefix db ->
      (forall o, In o (orders db) ->
                 Order.order_number o <> Some (generate_order_number env db))
      /\ (forall cfg order_data current_user resp,
             outcome_of (create_order cfg env db order_data current_user)
             = Returned resp ->
             Order.order_number (CreateOrderResponse.order resp)
             = Some (generate_order_number env db)
             /\ issued_serially prefix
                  (store_of (create_order cfg env db order_data current_user)))
      /\ ((k + 1 <= 9999)%nat ->
          forall o n,
            In o (orders db) -> order_number_matches prefix o = true ->
            Order.order_number o = Some n ->
            String.compare n (generate_order_number env db) = Lt)).
Proof.
  intros today prefix k.
  assert (Hgen : generate_order_number env db = order_number_format prefix (k + 1))
    by reflexivity.
  split; [exact Hgen|].
  intros Hser. split; [|split].
  - intros o Hin Ho.
    assert (Hm : order_number_matches prefix o = true).
    { unfold order_number_matches. rewrite Ho, Hgen. apply prefix_append. }
    destruct (issued_serially_numbers prefix db o Hser Hin Hm) as [j [Hj Hrange]].
    rewrite Hj, Hgen in Ho. inversion Ho as [Hfmt].
    apply order_number_format_inj in Hfmt.
    unfold count_documents in Hrange. fold k in Hrange. lia.
  - intros cfg order_data current_user resp.
    unfold create_order, outcome_of, store_of.
    destruct (build_order cfg env db order_data current_user) as [[o cp]|e] eqn:Hb;
      simpl; intros Hok; [|discriminate].
    inversion Hok; subst; clear Hok. simpl.
    destruct (build_order_returned _ _ _ _ _ _ _ Hb) as [vars ->].
    split; [reflexivity|].
    apply issued_serially_insert; [exact Hser | reflexivity].
  - intros Hk o n Hin Hm Ho.
    destruct (issued_serially_numbers prefix db o Hser Hin Hm) as [j [Hj Hrange]].
    rewrite Hj in Ho. inversion Ho; subst n.
    rewrite Hgen. unfold order_number_format. rewrite compare_append.
    unfold count_documents in Hrange. fold k in Hrange.
    apply zfill4_lt; lia.
Qed.

(** Witness of [order_number_generation]: the day of the scenario after its
    first order. *)
Lemma order_number_generation_witness :
  generate_order_number env_nov3_later store_10000 = "LG2611030002"
  /\ (forall o, In o (orders store_10000) ->
                Order.order_number o
                <> Some (generate_order_number env_nov3_later store_10000)).
Proof.
  destruct (order_number_generation env_nov3_later store_10000) as [Hfmt Hrest].
  split; [exact Hfmt|].
  destruct (Hrest eq_refl) as [Huniq _]. exact Huniq.
Defined.

(** ** C9: line items are not validated *)

(** C9, counterexample.  A request whose only line has quantity 0, width -5,
    height 0 and a line total of 777 against unit price 100 times quantity 0
    is accepted; the order is stored with subtotal 777. *)
Lemma invalid_line_item_accepted :
  (GlassItem.quantity bad_pane <= 0)%Z
  /\ fle (GlassItem.width bad_pane) fzero = true
  /\ fle (GlassItem.height bad_pane) fzero = true
  /\ feq (GlassItem.total_price bad_pane)
         (fmul (GlassItem.unit_price bad_pane)
               (float_of_Z (GlassItem.quantity bad_pane))) = false
  /\ exists resp,
       outcome_of (create_order cfg_live env_nov3 empty_store
                     (request_of [bad_pane] (Some 50%Z)) walk_in) = Returned resp
       /\ Order.subtotal (CreateOrderResponse.order resp) = float_of_Z 777
       /\ orders (store_of (create_order cfg_live env_nov3 empty_store
                              (request_of [bad_pane] (Some 50%Z)) walk_in))
          = [CreateOrderResponse.order resp].
Proof.
  split; [vm_compute; discriminate|].
  split; [vm_compute; reflexivity|].
  split; [vm_compute; reflexivity|].
  split; [vm_compute; reflexivity|].
  eexists. split; [reflexivity|]. split; [vm_compute; reflexivity | reflexivity].
Qed.

(** C9, as amended.  [create_order] validates no line item.  Whether it
    succeeds, and which exception it raises, depends on the items only
    through their [total_price] values: replacing the items by others with
    the same line totals, whatever their quantities, dimensions and unit
    prices, gives the same exception or again a created order.  The
    exceptions it raises are the profile, address, name, phone, advance and
    credit-limit ones. *)
Theorem line_items_not_validated
    (cfg : config) (env : request_env) (db : store) (order_data : OrderCreate.t)
    (current_user : User.t) (items : list GlassItem.t)
    (Htotals : map GlassItem.total_price items
               = map GlassItem.total_price (OrderCreate.glass_items order_data)) :
  (forall e,
      outcome_of (create_order cfg env db order_data current_user) = Raised e
      <-> outcome_of (create_order cfg env db (with_items order_data items)
                        current_user) = Raised e)
  /\ ((exists resp,
          outcome_of (create_order cfg env db order_data current_user)
          = Returned resp)
      <-> (exists resp,
              outcome_of (create_order cfg env db (with_items order_data items)
                            current_user) = Returned resp
              /\ Order.glass_items (CreateOrderResponse.order resp) = items))
  /\ (forall e,
        outcome_of (create_order cfg env db order_data current_user) = Raised e ->
        create_order_rejection e).
Proof.
  pose proof (build_order_with_items cfg env db order_data items current_user Htotals)
    as Hb.
  unfold create_order, outcome_of.
  destruct (build_order cfg env db order_data current_user) as [[o cp]|e1] eqn:E1;
    destruct (build_order cfg env db (with_items order_data items) current_user)
      as [[o' cp']|e2] eqn:E2; simpl in *; try contradiction.
  - split; [|split].
    + intros e. split; discriminate.
    + split; intros _; [|eauto].
      eexists. split; [reflexivity|]. simpl.
      destruct (build_order_returned _ _ _ _ _ _ _ E2) as [vars ->]. reflexivity.
    + intros e. discriminate.
  - subst e2. split; [|split].
    + intros e. tauto.
    + split; intros [resp H]; [discriminate | destruct H; discriminate].
    + intros e H. inversion H; subst.
      eapply build_order_rejection. exact E1.
Qed.

(** Witness of [line_items_not_validated]: the scenario's request with its
    pane replaced by a line of quantity 0 and non-positive dimensions that
    carries the same line total. *)
Lemma line_items_not_validated_witness :
  exists resp,
    outcome_of (create_order cfg_live env_nov3 empty_store
                  (with_items request_10000
                     [{| GlassItem.product_id := "glass-5mm";
                         GlassItem.product_name := "Clear float 5mm";
                         GlassItem.thickness := float_of_Z 5;
                         GlassItem.width := float_of_Z (-5);
                         GlassItem.height := fzero;
                         GlassItem.quantity := 0;
                         GlassItem.unit_price := float_of_Z 100;
                         GlassItem.total_price := float_of_Z 10000;
                         GlassItem.edging := None;
                         GlassItem.tempering := false;
                         GlassItem.lamination := false;
                         GlassItem.notes := None |}])
                  walk_in) = Returned resp.
Proof.
  destruct (line_items_not_validated cfg_live env_nov3 empty_store request_10000
              walk_in
              [{| GlassItem.product_id := "glass-5mm";
                  GlassItem.product_name := "Clear float 5mm";
                  GlassItem.thickness := float_of_Z 5;
                  GlassItem.width := float_of_Z (-5);
                  GlassItem.height := fzero;
                  GlassItem.quantity := 0;
                  GlassItem.unit_price := float_of_Z 100;
                  GlassItem.total_price := float_of_Z 10000;
                  GlassItem.edging := None;
                  GlassItem.tempering := false;
                  GlassItem.lamination := false;
                  GlassItem.notes := None |}]
              eq_refl) as (_ & [Hyes _] & _).
  destruct Hyes as [resp [Hr _]].
  - eexists. reflexivity.
  - exists resp. exact Hr.
Defined.

(** * Further properties of the router *)

(** ** How a request changes the store *)

Lemma update_one_length (order_id : string) (u : OrderUpdate.t) (os : list Order.t) :
  List.length (update_one order_id u os) = List.length os.
Proof.
  induction os as [|x xs IH]; simpl; [reflexivity|].
  destruct (String.eqb (Order.id x) order_id); simpl; congruence.
Qed.

Lemma update_one_nth (order_id : string) (u : OrderUpdate.t) (os : list Order.t)
    (n : nat) (o : Order.t) :
  nth_error os n = Some o ->
  exists o',
    nth_error (update_one order_id u os) n = Some o'
    /\ (o' = o \/ (Order.id o = order_id /\ o' = apply_set u o))
    /\ (Order.id o <> order_id -> o' = o).
Proof.
  revert n. induction os as [|x xs IH]; intros n Hn.
  - destruct n; discriminate.
  - simpl. destruct (String.eqb_spec (Order.id x) order_id) as [E|E].
    + destruct n as [|n]; simpl in *.
      * injection Hn as Hn. subst o. eexists. split; [reflexivity|].
        split; [right; split; [exact E | reflexivity] | intros H; contradiction].
      * exists o. split; [exact Hn|]. split; [left; reflexivity | reflexivity].
    + destruct n as [|n]; simpl in *.
      * injection Hn as Hn. subst o. exists x. split; [reflexivity|].
        split; [left; reflexivity | reflexivity].
      * apply IH. exact Hn.
Qed.

Lemma update_one_found (P : Order.t -> Prop) (order_id : string)
    (u : OrderUpdate.t) (os : list Order.t) (o : Order.t) :
  find (fun x => String.eqb (Order.id x) order_id) os = Some o ->
  Forall P os -> P (apply_set u o) -> Forall P (update_one order_id u os).
Proof.
  intros Hf Hall Hp. induction Hall as [|x xs Hx Hxs IH]; simpl in *.
  - discriminate.
  - destruct (String.eqb (Order.id x) order_id).
    + inversion Hf; subst. constructor; assumption.
    + constructor; [exact Hx | apply IH; exact Hf].
Qed.

Lemma find_update_one_other (order_id i : string) (u : OrderUpdate.t)
    (os : list Order.t) :
  i <> order_id ->
  find (fun x => String.eqb (Order.id x) i) (update_one order_id u os)
  = find (fun x => String.eqb (Order.id x) i) os.
Proof.
  intros Hne. induction os as [|x xs IH]; simpl; [reflexivity|].
  destruct (String.eqb_spec (Order.id x) order_id) as [E|E]; simpl.
  - rewrite E. destruct (String.eqb_spec order_id i) as [E'|E'];
      [congruence | reflexivity].
  - rewrite IH. reflexivity.
Qed.

Lemma same_core_apply_set (u : OrderUpdate.t) (o : Order.t) :
  same_core o (apply_set u o).
Proof. unfold same_core; simpl. repeat split. Qed.

Lemma same_core_refl (o : Order.t) : same_core o o.
Proof. unfold same_core. repeat split. Qed.

Lemma serve_store_change cfg env current_user db req :
  store_change cfg env current_user db req
    (snd (fst (serve cfg env current_user db req))).
Proof.
  destruct req as [od | oid pd | oid | oid rd | oid data]; simpl.
  - unfold create_order.
    destruct (build_order cfg env db od current_user) as [[o cp]|e] eqn:Hb; simpl.
    + destruct (build_order_returned _ _ _ _ _ _ _ Hb) as [vars ->].
      eapply change_insert. reflexivity.
    + constructor.
  - unfold verify_payment.
    destruct (find_one_order db oid) as [o|] eqn:Hf; simpl; [|constructor].
    destruct (signature_rejected _ _ _ _); simpl; [constructor|].
    eapply change_set; [reflexivity | exact Hf | constructor].
  - unfold initiate_remaining_payment.
    destruct (find_one_order db oid) as [o|] eqn:Hf; simpl; [|constructor].
    destruct (fle _ _); simpl; [constructor|].
    destruct (razorpay_client cfg); simpl; [|constructor].
    destruct (create_gateway_order env _ _ _ _); simpl; [|constructor].
    eapply change_set; [reflexivity | exact Hf | constructor].
  - unfold verify_remaining_payment.
    destruct (find_one_order db oid) as [o|] eqn:Hf; simpl; [|constructor].
    destruct (signature_rejected _ _ _ _); simpl; [constructor|].
    eapply change_set; [reflexivity | exact Hf | constructor].
  - unfold mark_cash_received.
    destruct (negb _); simpl; [constructor|].
    destruct (find_one_order db oid) as [o|] eqn:Hf; simpl; [|constructor].
    eapply change_cash; [reflexivity | exact Hf | constructor].
Qed.

(** X1.  A request that raises has no effect: the store is the one before the
    request and nothing was handed to the ledger. *)
Theorem failed_request_has_no_effect
    (cfg : config) (env : request_env) (current_user : User.t) (db : store)
    (req : request) (e : exn)
    (Hraised : fst (fst (serve cfg env current_user db req)) = Some e) :
  snd (fst (serve cfg env current_user db req)) = db
  /\ snd (serve cfg env current_user db req) = [].
Proof.
  revert Hraised.
  destruct req as [od | oid pd | oid | oid rd | oid data]; simpl.
  - unfold create_order.
    destruct (build_order cfg env db od current_user) as [[o cp]|e']; simpl;
      [discriminate | auto].
  - unfold verify_payment.
    destruct (find_one_order db oid) as [o|]; simpl; [|auto].
    destruct (signature_rejected _ _ _ _); simpl; [auto | discriminate].
  - unfold initiate_remaining_payment.
    destruct (find_one_order db oid) as [o|]; simpl; [|auto].
    destruct (fle _ _); simpl; [auto|].
    destruct (razorpay_client cfg); simpl; [|discriminate].
    destruct (create_gateway_order env _ _ _ _); simpl; [discriminate | auto].
  - unfold verify_remaining_payment.
    destruct (find_one_order db oid) as [o|]; simpl; [|auto].
    destruct (signature_rejected _ _ _ _); simpl; [auto | discriminate].
  - unfold mark_cash_received.
    destruct (negb _); simpl; [auto|].
    destruct (find_one_order db oid) as [o|]; simpl; [discriminate | auto].
Qed.

(** Witness of [failed_request_has_no_effect]: a payment callback for an
    order that does not exist. *)
Lemma failed_request_has_no_effect_witness :
  snd (fst (serve cfg_unset env_nov3 walk_in store_10000
              (VerifyPayment "no-such-order" callback_forged))) = store_10000
  /\ snd (serve cfg_unset env_nov3 walk_in store_10000
            (VerifyPayment "no-such-order" callback_forged)) = [].
Proof.
  apply (failed_request_has_no_effect cfg_unset env_nov3 walk_in store_10000
           (VerifyPayment "no-such-order" callback_forged)
           (HTTPException 404 OrderNotFound)).
  reflexivity.
Defined.

(** X2.  No request deletes or reorders an order, changes the profiles or the
    settings, or touches an order other than the one it addresses; the
    identity, the items, the totals and the advance of a stored order are
    never rewritten.  Only [create_order] adds an order, at the end. *)
Theorem orders_are_kept
    (cfg : config) (env : request_env) (current_user : User.t) (db : store)
    (req : request) :
  let db' := snd (fst (serve cfg env current_user db req)) in
  customer_profiles db' = customer_profiles db
  /\ settings db' = settings db
  /\ (forall n o,
        nth_error (orders db) n = Some o ->
        exists o',
          nth_error (orders db') n = Some o'
          /\ same_core o o'
          /\ (target req <> Some (Order.id o) -> o' = o))
  /\ (List.length (orders db') = List.length (orders db)
      \/ (target req = None
          /\ List.length (orders db') = S (List.length (orders db)))).
Proof.
  intros db'. subst db'.
  assert (Hset : forall order_id u,
             target req = Some order_id ->
             (forall n o,
                 nth_error (orders db) n = Some o ->
                 exists o',
                   nth_error (update_one order_id u (orders db)) n = Some o'
                   /\ same_core o o'
                   /\ (target req <> Some (Order.id o) -> o' = o))).
  { intros order_id u Ht n o Hn.
    destruct (update_one_nth order_id u (orders db) n o Hn)
      as (o' & Hn' & Hcase & Hother).
    exists o'. split; [exact Hn'|]. split.
    - destruct Hcase as [-> | [_ ->]];
        [apply same_core_refl | apply same_core_apply_set].
    - intros Hne. apply Hother. intros E. apply Hne. rewrite Ht, E. reflexivity. }
  destruct (serve_store_change cfg env current_user db req)
    as [ | order_id u o Ht Hf Hu | order_id u o c Ht Hf Hu | od vars Hreq ].
  - split; [reflexivity|]. split; [reflexivity|]. split; [|left; reflexivity].
    intros n o Hn. exists o.
    split; [exact Hn|]. split; [apply same_core_refl | reflexivity].
  - split; [reflexivity|]. split; [reflexivity|].
    split; [exact (Hset order_id u Ht)|].
    left. apply update_one_length.
  - split; [reflexivity|]. split; [reflexivity|].
    split; [exact (Hset order_id u Ht)|].
    left. apply update_one_length.
  - split; [reflexivity|]. split; [reflexivity|]. split.
    + intros n o Hn. exists o. split; [|split; [apply same_core_refl | reflexivity]].
      simpl. rewrite nth_error_app1; [exact Hn|].
      apply nth_error_Some. congruence.
    + right. subst req. split; [reflexivity|].
      simpl. rewrite length_app. simpl. lia.
Qed.

(** ** The payment status never moves backwards *)

Lemma advance_payment_status_consistent (o : Order.t) :
  In (advance_payment_status o) ["pending"; "partial"; "completed"]
  /\ (advance_payment_status o = "partial" ->
      fgt (get_default (Order.remaining_amount o) fzero) fzero = true)
  /\ (advance_payment_status o = "completed" ->
      fgt (get_default (Order.remaining_amount o) fzero) fzero = false).
Proof.
  unfold advance_payment_status.
  destruct (fgt (get_default (Order.remaining_amount o) fzero) fzero) eqn:E.
  - split; [simpl; auto|]. split; [reflexivity | discriminate].
  - split; [simpl; auto|]. split; [discriminate | reflexivity].
Qed.

Lemma advance_payment_status_forward (o : Order.t) :
  payment_consistent o ->
  (status_rank (Order.payment_status o)
   <= status_rank (advance_payment_status o))%nat.
Proof.
  intros (Hin & Hpartial & Hcompleted).
  destruct (advance_payment_status_consistent o) as (_ & Hp & Hc).
  unfold advance_payment_status in *.
  destruct (fgt (get_default (Order.remaining_amount o) fzero) fzero) eqn:E.
  - specialize (Hp eq_refl).
    simpl in Hin. destruct Hin as [H | [H | [H | []]]];
      symmetry in H; rewrite H; vm_compute; try lia.
    exfalso. specialize (Hcompleted H). discriminate.
  - simpl in Hin. destruct Hin as [H | [H | [H | []]]];
      symmetry in H; rewrite H; vm_compute; lia.
Qed.

Lemma status_rank_max (s : string) : (status_rank s <= 2)%nat.
Proof.
  unfold status_rank. destruct (String.eqb s "completed"); [lia|].
  destruct (String.eqb s "partial"); lia.
Qed.

Lemma route_update_consistent (o : Order.t) (u : OrderUpdate.t) :
  route_update o u ->
  payment_consistent o ->
  payment_consistent (apply_set u o)
  /\ (status_rank (Order.payment_status o)
      <= status_rank (Order.payment_status (apply_set u o)))%nat.
Proof.
  intros Hu Hc.
  assert (Hadv : forall o',
             Order.payment_status o' = advance_payment_status o ->
             Order.remaining_amount o' = Order.remaining_amount o ->
             payment_consistent o'
             /\ (status_rank (Order.payment_status o)
                 <= status_rank (Order.payment_status o'))%nat).
  { intros o' Hs Hr. unfold payment_consistent. rewrite Hs, Hr.
    split; [apply advance_payment_status_consistent|].
    apply advance_payment_status_forward. exact Hc. }
  assert (Hdone : forall o',
             Order.payment_status o' = "completed" ->
             Order.remaining_amount o' = Some fzero ->
             payment_consistent o'
             /\ (status_rank (Order.payment_status o)
                 <= status_rank (Order.payment_status o'))%nat).
  { intros o' Hs Hr. unfold payment_consistent. rewrite Hs, Hr. simpl.
    split; [|apply status_rank_max].
    split; [auto|]. split; [discriminate | intros _; reflexivity]. }
  destruct Hu as [env pid | rz | env rd | env ty].
  - apply Hadv; reflexivity.
  - split; [exact Hc | apply Nat.le_refl].
  - apply Hdone; reflexivity.
  - unfold cash_update. destruct (String.eqb ty "advance").
    + apply Hadv; reflexivity.
    + apply Hdone; reflexivity.
Qed.

Lemma find_one_order_In (db : store) (i : string) (o : Order.t) :
  find_one_order db i = Some o -> In o (orders db).
Proof. unfold find_one_order. intros H. apply find_some in H. tauto. Qed.

Lemma find_app_some {A : Type} (f : A -> bool) (l l' : list A) (x : A) :
  find f l = Some x -> find f (l ++ l') = Some x.
Proof.
  induction l as [|y l IH]; simpl; [discriminate|].
  destruct (f y); [auto | exact IH].
Qed.

Lemma serve_keeps_status_order cfg env current_user db req :
  store_consistent db ->
  store_consistent (snd (fst (serve cfg env current_user db req)))
  /\ (forall i o,
         find_one_order db i = Some o ->
         exists o',
           find_one_order (snd (fst (serve cfg env current_user db req))) i = Some o'
           /\ (status_rank (Order.payment_status o)
               <= status_rank (Order.payment_status o'))%nat).
Proof.
  intros Hcons.
  assert (Hset : forall order_id u o,
             find_one_order db order_id = Some o -> route_update o u ->
             Forall payment_consistent (update_one order_id u (orders db))
             /\ (forall i x,
                    find_one_order db i = Some x ->
                    exists x',
                      find (fun y => String.eqb (Order.id y) i)
                        (update_one order_id u (orders db)) = Some x'
                      /\ (status_rank (Order.payment_status x)
                          <= status_rank (Order.payment_status x'))%nat)).
  { intros order_id u o Hf Hu.
    assert (Ho : payment_consistent o).
    { unfold store_consistent in Hcons. rewrite Forall_forall in Hcons.
      apply Hcons. eapply find_one_order_In. exact Hf. }
    destruct (route_update_consistent o u Hu Ho) as [Hc' Hrank].
    split.
    - eapply update_one_found; [exact Hf | exact Hcons | exact Hc'].
    - intros i x Hx. destruct (String.eqb_spec i order_id) as [E|E].
      + subst i. rewrite Hf in Hx. injection Hx as <-.
        exists (apply_set u o). split; [|exact Hrank].
        apply find_update_one. exact Hf.
      + exists x. split; [|apply Nat.le_refl].
        rewrite find_update_one_other by exact E. exact Hx. }
  destruct (serve_store_change cfg env current_user db req)
    as [ | order_id u o Ht Hf Hu | order_id u o c Ht Hf Hu | od vars Hreq ].
  - split; [exact Hcons|]. intros i o Ho. exists o. split; [exact Ho | apply Nat.le_refl].
  - exact (Hset order_id u o Hf Hu).
  - exact (Hset order_id u o Hf Hu).
  - split.
    + unfold store_consistent; simpl. apply Forall_app. split; [exact Hcons|].
      constructor; [|constructor].
      unfold payment_consistent; simpl.
      split; [auto|]. split; discriminate.
    + intros i o Ho. exists o. split; [|apply Nat.le_refl].
      unfold find_one_order; simpl. apply find_app_some. exact Ho.
Qed.

(** X3.  From a store in which every payment status agrees with the remaining
    amount, any sequence of requests leads to such a store again, every
    order stays retrievable by its id, and the payment status of an order
    never moves back on the way pending, partial, completed. *)
Theorem payment_status_moves_forward
    (cfg : config) (calls : list (request_env * User.t * request)) (db : store)
    (Hcons : store_consistent db) :
  store_consistent (serve_all cfg calls db)
  /\ (forall i o,
         find_one_order db i = Some o ->
         exists o',
           find_one_order (serve_all cfg calls db) i = Some o'
           /\ (status_rank (Order.payment_status o)
               <= status_rank (Order.payment_status o'))%nat).
Proof.
  revert db Hcons. induction calls as [|[[env u] req] rest IH]; intros db Hcons.
  - split; [exact Hcons|]. intros i o Ho. exists o. split; [exact Ho | apply Nat.le_refl].
  - simpl.
    destruct (serve_keeps_status_order cfg env u db req Hcons) as [Hc1 Hstep].
    destruct (IH _ Hc1) as [Hc2 Hrest].
    split; [exact Hc2|].
    intros i o Ho.
    destruct (Hstep i o Ho) as (o1 & Ho1 & Hr1).
    destruct (Hrest i o1 Ho1) as (o2 & Ho2 & Hr2).
    exists o2. split; [exact Ho2 | lia].
Qed.

(** Witness of [payment_status_moves_forward]: the scenario's order through
    a cash advance and a cash remainder. *)
Lemma payment_status_moves_forward_witness :
  store_consistent
    (serve_all cfg_unset
       [(env_nov3, admin_user,
         MarkCashReceived "ord-1"
           {| CashData.payment_type := None; CashData.amount := Some (float_of_Z 5900) |});
        (env_nov3_later, admin_user, MarkCashReceived "ord-1" cash_remaining)]
       store_10000).
Proof.
  assert (Hcons : store_consistent store_10000).
  { constructor; [|constructor].
    split; [left; reflexivity|]. split; intros E; discriminate E. }
  exact (proj1 (payment_status_moves_forward cfg_unset _ store_10000 Hcons)).
Defined.

(** ** [initiate_remaining_payment] *)

(** X4.  For a stored order with remaining amount r (0 when the key is absent):
    r <= 0 gives the 400 "No remaining amount to pay"; otherwise, which
    includes a NaN, without gateway credentials the call succeeds with no
    gateway order id and changes nothing; a failing gateway call gives the
    500 and changes nothing, and so does a remainder that is infinity or
    NaN, for which the gateway is not called; a gateway order id is stored
    under [remaining_razorpay_order_id] and the payment status, the remaining
    amount and the status stay as they were.  The ledger is never posted
    to. *)
Theorem initiate_remaining_payment_cases
    (cfg : config) (env : request_env) (db : store) (order_id : string)
    (current_user : User.t) (o : Order.t)
    (Hfind : find_one_order db order_id = Some o) :
  let r := get_default (Order.remaining_amount o) fzero in
  let result := initiate_remaining_payment cfg env db order_id current_user in
  let asked :=
    create_gateway_order env r (py_fmt (Order.order_number o) ++ "-REM")%string
      order_id "remaining" in
  snd result = []
  /\ (fle r fzero = true ->
      result = (Raised (HTTPException 400 NoRemainingAmount), db, []))
  /\ (fle r fzero = false -> razorpay_client cfg = false ->
      snd (fst result) = db
      /\ exists resp,
           fst (fst result) = Returned resp
           /\ InitiateResponse.razorpay_order_id resp = None
           /\ InitiateResponse.amount resp = r)
  /\ (fle r fzero = false -> razorpay_client cfg = true -> asked = None ->
      result = (Raised (HTTPException 500 FailedToCreatePayment), db, []))
  /\ (r = S754_infinity false \/ r = S754_nan ->
      fle r fzero = false /\ asked = None)
  /\ (forall gateway_id,
        fle r fzero = false -> razorpay_client cfg = true ->
        asked = Some gateway_id ->
        exists resp o',
          fst (fst result) = Returned resp
          /\ InitiateResponse.razorpay_order_id resp = Some gateway_id
          /\ InitiateResponse.amount resp = r
          /\ find_one_order (snd (fst result)) order_id = Some o'
          /\ Order.remaining_razorpay_order_id o' = Some gateway_id
          /\ Order.payment_status o' = Order.payment_status o
          /\ Order.remaining_amount o' = Order.remaining_amount o
          /\ Order.status o' = Order.status o).
Proof.
  intros r result asked. subst result asked.
  unfold initiate_remaining_payment. rewrite Hfind. fold r.
  split; [|split; [|split; [|split; [|split]]]].
  - destruct (fle r fzero); [reflexivity|].
    destruct (razorpay_client cfg); [|reflexivity].
    destruct (create_gateway_order env _ _ _ _); reflexivity.
  - intros Hle. rewrite Hle. reflexivity.
  - intros Hlt Hc. rewrite Hlt, Hc. simpl.
    split; [reflexivity|]. eexists. repeat split.
  - intros Hlt Hc Hg. rewrite Hlt, Hc, Hg. reflexivity.
  - intros [-> | ->]; split; reflexivity.
  - intros gateway_id Hlt Hc Hg. rewrite Hlt, Hc, Hg. simpl.
    do 2 eexists. split; [reflexivity|]. split; [reflexivity|].
    split; [reflexivity|].
    split; [apply find_one_update_order; exact Hfind|].
    repeat split.
Qed.

(** Witness of [initiate_remaining_payment_cases]: the scenario's order has
    5900 remaining; the gateway is asked for 590000 paise. *)
Lemma initiate_remaining_payment_cases_witness :
  exists resp,
    fst (fst (initiate_remaining_payment cfg_live env_nov3_later store_10000 "ord-1"
                walk_in)) = Returned resp
    /\ InitiateResponse.razorpay_order_id resp = Some "order_B2".
Proof.
  destruct (initiate_remaining_payment_cases cfg_live env_nov3_later store_10000
              "ord-1" walk_in _
              (eq_refl : find_one_order store_10000 "ord-1" = Some _))
    as (_ & _ & _ & _ & _ & Hok).
  destruct (Hok "order_B2" ltac:(vm_compute; reflexivity) eq_refl
              ltac:(vm_compute; reflexivity))
    as (resp & o' & Hr & Hid & _).
  exists resp. split; [exact Hr | exact Hid].
Defined.

(** ** [mark_cash_received] *)

(** X5.  Only the roles admin, super_admin, owner and accountant may record cash;
    any other caller, or one without a role, gets the 403 and nothing
    changes.  For an allowed caller the [amount] of the request is only
    copied into the cash record: the order is updated in the same way
    whatever amount is stated, and no ledger posting is made. *)
Theorem cash_received_role_and_amount
    (env : request_env) (db : store) (order_id : string) (current_user : User.t)
    (data data' : CashData.t)
    (Htype : CashData.payment_type data' = CashData.payment_type data) :
  (~ (exists r, User.role current_user = Some r
                /\ In r ["admin"; "super_admin"; "owner"; "accountant"]) ->
   mark_cash_received env db order_id data current_user
   = (Raised (HTTPException 403 AdminAccessRequired), db, []))
  /\ orders (snd (fst (mark_cash_received env db order_id data' current_user)))
     = orders (snd (fst (mark_cash_received env db order_id data current_user)))
  /\ fst (fst (mark_cash_received env db order_id data' current_user))
     = fst (fst (mark_cash_received env db order_id data current_user))
  /\ snd (mark_cash_received env db order_id data current_user) = []
  /\ (forall resp,
        fst (fst (mark_cash_received env db order_id data current_user))
        = Returned resp ->
        exists c,
          cash_payments (snd (fst (mark_cash_received env db order_id data
                                     current_user)))
          = cash_payments db ++ [c]
          /\ CashPayment.order_id c = order_id
          /\ CashPayment.amount c = Some (get_default (CashData.amount data) fzero)
          /\ CashPayment.payment_type c
             = get_default (CashData.payment_type data) "advance"
          /\ CashPayment.received_by c = User.name current_user).
Proof.
  unfold mark_cash_received. rewrite Htype.
  split; [|split; [|split; [|split]]].
  - intros Hno.
    assert (E : match User.role current_user with
                | Some r => in_strings r ["admin"; "super_admin"; "owner"; "accountant"]
                | None => false
                end = false).
    { destruct (User.role current_user) as [r|] eqn:Er; [|reflexivity].
      destruct (in_strings r _) eqn:Ein; [|reflexivity].
      exfalso. apply Hno. exists r. split; [reflexivity|].
      unfold in_strings in Ein. apply existsb_exists in Ein.
      destruct Ein as [x [Hin Hx]]. apply String.eqb_eq in Hx. subst x. exact Hin. }
    rewrite E. reflexivity.
  - destruct (negb _); [reflexivity|].
    destruct (find_one_order db order_id); reflexivity.
  - destruct (negb _); [reflexivity|].
    destruct (find_one_order db order_id); reflexivity.
  - destruct (negb _); [reflexivity|].
    destruct (find_one_order db order_id); reflexivity.
  - intros resp. destruct (negb _); simpl; [discriminate|].
    destruct (find_one_order db order_id); simpl; [|discriminate].
    intros _. eexists. split; [reflexivity|]. repeat split.
Qed.

(** Witness of [cash_received_role_and_amount]: an accountant records the
    advance of the scenario's order, once stating 5900 and once stating 1. *)
Lemma cash_received_role_and_amount_witness :
  orders (snd (fst (mark_cash_received env_nov3 store_10000 "ord-1"
                      {| CashData.payment_type := Some "advance";
                         CashData.amount := Some (float_of_Z 1) |}
                      {| User.id := Some "user-7"; User.role := Some "accountant";
                         User.name := Some "Meera" |})))
  = orders (snd (fst (mark_cash_received env_nov3 store_10000 "ord-1"
                        {| CashData.payment_type := Some "advance";
                           CashData.amount := Some (float_of_Z 5900) |}
                        {| User.id := Some "user-7"; User.role := Some "accountant";
                           User.name := Some "Meera" |}))).
Proof.
  exact (proj1 (proj2 (cash_received_role_and_amount env_nov3 store_10000 "ord-1"
                         {| User.id := Some "user-7"; User.role := Some "accountant";
                            User.name := Some "Meera" |}
                         {| CashData.payment_type := Some "advance";
                            CashData.amount := Some (float_of_Z 5900) |}
                         {| CashData.payment_type := Some "advance";
                            CashData.amount := Some (float_of_Z 1) |}
                         eq_refl))).
Defined.

(** ** The remaining leg *)

(** X6.  A verified remaining payment records the payment id, sets the remaining
    amount to 0 and the payment status to "completed" whatever the order's
    state was, and leaves the status, the advance payment id and the
    advance timestamp as they were: an order whose advance was never
    verified becomes "completed" with its status unchanged.  No ledger
    posting is made.  Afterwards [initiate_remaining_payment] refuses with
    "No remaining amount to pay", and an advance callback that passes the
    signature check reports "completed". *)
Theorem remaining_leg_settles_the_order
    (cfg : config) (env env' : request_env) (db : store) (order_id : string)
    (payment_data : RemainingPaymentVerify.t) (current_user : User.t)
    (o : Order.t) (resp : PaymentResponse.t)
    (Hfind : find_one_order db order_id = Some o)
    (Hok : fst (fst (verify_remaining_payment cfg env db order_id payment_data
                       current_user)) = Returned resp) :
  let db1 :=
    snd (fst (verify_remaining_payment cfg env db order_id payment_data
                current_user)) in
  snd (verify_remaining_payment cfg env db order_id payment_data current_user) = []
  /\ (exists o1,
         find_one_order db1 order_id = Some o1
         /\ Order.remaining_amount o1 = Some fzero
         /\ Order.payment_status o1 = "completed"
         /\ Order.remaining_razorpay_payment_id o1
            = Some (RemainingPaymentVerify.razorpay_payment_id payment_data)
         /\ Order.remaining_paid_at o1 = Some (dt_isoformat (now env))
         /\ Order.status o1 = Order.status o
         /\ Order.razorpay_payment_id o1 = Order.razorpay_payment_id o
         /\ Order.advance_paid_at o1 = Order.advance_paid_at o)
  /\ initiate_remaining_payment cfg env' db1 order_id current_user
     = (Raised (HTTPException 400 NoRemainingAmount), db1, [])
  /\ (forall callback r,
         fst (fst (verify_payment cfg env' db1 order_id callback current_user))
         = Returned r ->
         PaymentResponse.payment_status r = "completed").
Proof.
  intros db1. subst db1. revert Hok.
  unfold verify_remaining_payment. rewrite Hfind.
  destruct (signature_rejected _ _ _ _); simpl; [discriminate|]. intros _.
  pose proof (find_one_update_order db order_id
                (verify_remaining_update env payment_data) o Hfind) as Hf1.
  split; [reflexivity|]. split; [|split].
  - eexists. split; [exact Hf1|]. repeat split.
  - unfold initiate_remaining_payment. rewrite Hf1. reflexivity.
  - intros callback r. unfold verify_payment. rewrite Hf1.
    destruct (signature_rejected _ _ _ _); simpl; [discriminate|].
    intros H. injection H as <-. reflexivity.
Qed.

(** Witness of [remaining_leg_settles_the_order]: the remaining payment of
    the scenario's order arrives before any advance was verified. *)
Lemma remaining_leg_settles_the_order_witness :
  exists o1,
    find_one_order
      (snd (fst (verify_remaining_payment cfg_unset env_nov3 store_10000 "ord-1"
                   callback_remaining walk_in))) "ord-1" = Some o1
    /\ Order.payment_status o1 = "completed"
    /\ Order.status o1 = "pending".
Proof.
  destruct (remaining_leg_settles_the_order cfg_unset env_nov3 env_nov3_later
              store_10000 "ord-1" callback_remaining walk_in _ _
              (eq_refl : find_one_order store_10000 "ord-1" = Some _) eq_refl)
    as (_ & (o1 & Hf & _ & Hps & _ & _ & Hst & _) & _).
  exists o1. split; [exact Hf|]. split; [exact Hps|].
  rewrite Hst. reflexivity.
Defined.

(** ** When the credit limit is looked at *)

Lemma lookup_profile_some db order_data p :
  lookup_profile db order_data = Returned (Some p) ->
  exists profile_id,
    OrderCreate.customer_profile_id order_data = Some profile_id
    /\ profile_id <> ""
    /\ find_profile db profile_id = Some p.
Proof.
  unfold lookup_profile.
  destruct (OrderCreate.customer_profile_id order_data) as [[|c s]|]; simpl;
    try discriminate.
  destruct (find_profile db (String c s)) as [q|] eqn:Eq; [|discriminate].
  intros H. injection H as <-. exists (String c s).
  split; [reflexivity|]. split; [discriminate | exact Eq].
Qed.

Lemma lookup_profile_none db order_data :
  truthy (OrderCreate.customer_profile_id order_data) = false ->
  lookup_profile db order_data = Returned None.
Proof. unfold lookup_profile. intros ->. reflexivity. Qed.

Lemma populate_is_credit order_data p vars :
  populate_from_profile order_data p = Returned vars ->
  v_is_credit_customer vars
  = opt_string_eqb (Profile.credit_type p) (Some "credit_allowed")
  /\ v_credit_limit vars = get_default (Profile.credit_limit p) fzero.
Proof.
  unfold populate_from_profile, bind.
  destruct (shipping_delivery_address _ _ _ _); [|discriminate].
  destruct (billing_delivery_address _ _ _ _); [|discriminate].
  intros H. injection H as <-. split; reflexivity.
Qed.

(** X7.  The credit-limit error is raised only for a request attributed to an
    active profile whose credit type is "credit_allowed", and then with the
    outstanding of the first 1000 unsettled orders and the profile's limit.
    A request without a profile id is never checked against a credit limit,
    even when it declares [is_credit_customer]: with no advance percent
    given and 0% allowed for credit customers, it is accepted with a credit
    limit of 0 on the document and no gateway order; when its total is
    finite the advance is zero and the remainder is the total (rounded once
    more). *)
Theorem credit_limit_needs_a_credit_profile
    (cfg : config) (env : request_env) (db : store) (order_data : OrderCreate.t)
    (current_user : User.t) :
  (forall outstanding limit,
      fst (fst (create_order cfg env db order_data current_user))
      = Raised (HTTPException 400 (OrderExceedsCreditLimit outstanding limit)) ->
      exists profile_id p,
        OrderCreate.customer_profile_id order_data = Some profile_id
        /\ find_profile db profile_id = Some p
        /\ Profile.credit_type p = Some "credit_allowed"
        /\ limit = get_default (Profile.credit_limit p) fzero
        /\ outstanding = outstanding_over 1000 profile_id fzero (orders db)
        /\ fgt (fadd outstanding (order_total_price cfg order_data)) limit = true)
  /\ (truthy (OrderCreate.customer_profile_id order_data) = false ->
      OrderCreate.is_credit_customer order_data = true ->
      OrderCreate.advance_percent order_data = None ->
      truthy (OrderCreate.customer_name order_data) = true ->
      truthy (OrderCreate.customer_phone order_data) = true ->
      fst (validate_advance_percent db (order_total_price cfg order_data) 0 true
             (get_default (User.role current_user) "customer")) = true ->
      exists resp,
        fst (fst (create_order cfg env db order_data current_user)) = Returned resp
        /\ Order.is_credit_customer (CreateOrderResponse.order resp) = true
        /\ Order.advance_percent (CreateOrderResponse.order resp) = 0%Z
        /\ Order.total_price (CreateOrderResponse.order resp)
           = order_total_price cfg order_data
        /\ Order.credit_limit (CreateOrderResponse.order resp) = fzero
        /\ (forall s m e,
              order_total_price cfg order_data = S754_finite s m e ->
              Order.advance_amount (CreateOrderResponse.order resp)
              = Some (S754_zero s)
              /\ Order.remaining_amount (CreateOrderResponse.order resp)
                 = Some (round2 (S754_finite s m e))
              /\ Order.razorpay_order_id (CreateOrderResponse.order resp) = None)
        /\ (forall s,
              order_total_price cfg order_data = S754_zero s ->
              Order.advance_amount (CreateOrderResponse.order resp)
              = Some (S754_zero s)
              /\ Order.remaining_amount (CreateOrderResponse.order resp) = Some fzero
              /\ Order.razorpay_order_id (CreateOrderResponse.order resp) = None)).
Proof.
  split.
  - intros outstanding limit. unfold create_order.
    destruct (build_order cfg env db order_data current_user) as [[o cp]|e] eqn:Hb;
      simpl; [discriminate|].
    intros H. injection H as ->. revert Hb. unfold build_order, bind.
    destruct (lookup_profile db order_data) as [cp|e0] eqn:El.
    2:{ intros H. injection H as ->. unfold lookup_profile in El.
        destruct (truthy _); [|discriminate].
        destruct (find_profile _ _); discriminate. }
    destruct (resolve_vars order_data cp) as [vars|e1] eqn:Er.
    2:{ intros H. injection H as ->.
        pose proof (resolve_vars_raises _ _ _ Er). discriminate. }
    unfold raise_if at 1.
    destruct (negb (truthy (v_customer_name vars))); [discriminate|].
    unfold raise_if at 1.
    destruct (negb (truthy (v_customer_phone vars))); [discriminate|].
    destruct (check_advance cfg db order_data current_user vars) as [[]|e2] eqn:Ea.
    2:{ intros H. injection H as ->. revert Ea. unfold check_advance.
        pose proof (validate_advance_percent_reason db
                      (order_total_price cfg order_data)
                      (chosen_advance_percent order_data (v_is_credit_customer vars))
                      (v_is_credit_customer vars)
                      (get_default (User.role current_user) "customer")) as Hr.
        destruct (validate_advance_percent _ _ _ _ _) as [[|] [d|]];
          try discriminate; try contradiction.
        destruct d; try contradiction; discriminate. }
    unfold check_credit_limit.
    destruct cp as [p|]; [|discriminate].
    destruct (v_is_credit_customer vars) eqn:Ec; [|discriminate].
    unfold raise_if.
    destruct (fgt _ _) eqn:Eg; [|discriminate].
    intros H. injection H as <- <-.
    destruct (lookup_profile_some _ _ _ El) as (pid & Hpid & _ & Hfp).
    destruct (populate_is_credit _ _ _ Er) as [Hcr Hlim].
    exists pid, p. split; [exact Hpid|]. split; [exact Hfp|].
    split.
    { rewrite Ec in Hcr. symmetry in Hcr. apply opt_string_eqb_eq in Hcr. exact Hcr. }
    split; [exact Hlim|].
    rewrite Hpid, existing_orders_outstanding in *.
    split; [reflexivity | exact Eg].
  - intros Hnoid Hflag Hpct Hname Hphone Hadv.
    assert (Hb : build_order cfg env db order_data current_user
                 = Returned (new_order cfg env db order_data current_user
                               (request_vars order_data), None)).
    { unfold build_order. rewrite (lookup_profile_none _ _ Hnoid).
      cbv beta iota delta [bind resolve_vars].
      assert (Hn : raise_if (negb (truthy (v_customer_name (request_vars order_data))))
                     (HTTPException 400 CustomerNameRequired) = Returned tt)
        by (simpl v_customer_name; rewrite Hname; reflexivity).
      assert (Hp : raise_if (negb (truthy (v_customer_phone (request_vars order_data))))
                     (HTTPException 400 CustomerPhoneRequired) = Returned tt)
        by (simpl v_customer_phone; rewrite Hphone; reflexivity).
      assert (Ha : check_advance cfg db order_data current_user
                     (request_vars order_data) = Returned tt).
      { unfold check_advance, chosen_advance_percent. simpl v_is_credit_customer.
        rewrite Hflag, Hpct.
        destruct (validate_advance_percent db (order_total_price cfg order_data) 0
                    true (get_default (User.role current_user) "customer"))
          as [ok err].
        simpl in Hadv. subst ok. reflexivity. }
      rewrite Hn, Hp, Ha. reflexivity. }
    unfold create_order. rewrite Hb. cbn [fst].
    eexists. split; [reflexivity|].
    cbn [CreateOrderResponse.order].
    unfold new_order, chosen_advance_percent. simpl v_is_credit_customer.
    rewrite Hflag, Hpct. cbv zeta.
    cbn [Order.is_credit_customer Order.advance_percent Order.advance_amount
         Order.remaining_amount Order.credit_limit Order.razorpay_order_id
         Order.total_price v_credit_limit request_vars].
    fold (order_total_price cfg order_data).
    split; [reflexivity|]. split; [reflexivity|]. split; [reflexivity|].
    split; [reflexivity|]. split.
    + intros s m e Ht. rewrite Ht.
      unfold calc_remaining_amount, calc_advance_amount.
      destruct s; repeat split; reflexivity.
    + intros s Ht. rewrite Ht.
      unfold calc_remaining_amount, calc_advance_amount.
      destruct s; repeat split; reflexivity.
Qed.

(** Witness of [credit_limit_needs_a_credit_profile]: a walk-in customer
    declares itself a credit customer and orders for 590000. *)
Lemma credit_limit_needs_a_credit_profile_witness :
  exists resp,
    fst (fst (create_order cfg_live env_nov3 store_10000
                self_declared_credit_request walk_in)) = Returned resp
    /\ Order.advance_amount (CreateOrderResponse.order resp) = Some fzero
    /\ Order.razorpay_order_id (CreateOrderResponse.order resp) = None.
Proof.
  destruct (credit_limit_needs_a_credit_profile cfg_live env_nov3 store_10000
              self_declared_credit_request walk_in) as [_ H].
  destruct (H eq_refl eq_refl eq_refl eq_refl eq_refl eq_refl)
    as (resp & Hr & _ & _ & _ & _ & Hfin & _).
  destruct (Hfin false _ _ ltac:(vm_compute; reflexivity)) as (Ha & _ & Hg).
  exists resp. split; [exact Hr|]. split; [exact Ha | exact Hg].
Defined.

(** ** The gateway and the ledger around [create_order] *)





Lemma create_order_success cfg env db order_data current_user resp :
  fst (fst (create_order cfg env db order_data current_user)) = Returned resp ->
  exists vars,
    CreateOrderResponse.order resp
    = new_order cfg env db order_data current_user vars
    /\ snd (fst (create_order cfg env db order_data current_user))
       = insert_order (new_order cfg env db order_data current_user vars) db
    /\ snd (create_order cfg env db order_data current_user)
       = [sales_invoice_post env order_data
            (new_order cfg env db order_data current_user vars)].
Proof.
  unfold create_order.
  destruct (build_order cfg env db order_data current_user) as [[o cp]|e] eqn:Hb;
    cbn [fst snd]; [|discriminate].
  destruct (build_order_returned _ _ _ _ _ _ _ Hb) as [vars ->].
  intros H. apply Returned_inj in H. subst resp.
  exists vars. repeat split.
Qed.

Lemma find_app_none {A : Type} (f : A -> bool) (l l' : list A) :
  find f l = None -> find f (l ++ l') = find f l'.
Proof.
  induction l as [|y l IH]; simpl; [reflexivity|].
  destruct (f y); [discriminate | exact IH].
Qed.

Lemma find_inserted_order (db : store) (o : Order.t) :
  find_one_order db (Order.id o) = None ->
  find_one_order (insert_order o db) (Order.id o) = Some o.
Proof.
  unfold find_one_order, insert_order; cbn [orders]. intros Hnone.
  rewrite find_app_none by exact Hnone. cbn [find].
  rewrite String.eqb_refl. reflexivity.
Qed.

(** X9.  The two ledger postings of an order.  [create_order] posts one
    [sales_invoice] for the subtotal and the tax, with the profile id (or
    else the caller's id) as party.  The [payment_received] posting of a
    verified advance carries the reference "<order id>-advance" and the
    order's stored advance amount, and its party id is the empty string for
    every order made by [create_order], since no order document has a
    [user_id]. *)
Theorem ledger_postings_of_an_order
    (cfg : config) (env env' : request_env) (db : store)
    (order_data : OrderCreate.t) (current_user caller : User.t)
    (resp : CreateOrderResponse.t) (callback : dict)
    (Hfresh : find_one_order db (uuid4 env) = None)
    (Hcreated : fst (fst (create_order cfg env db order_data current_user))
                = Returned resp)
    (Hsigned : signature_rejected cfg (dict_get callback "razorpay_order_id")
                 (dict_get callback "razorpay_payment_id")
                 (dict_get callback "razorpay_signature") = false) :
  let o := CreateOrderResponse.order resp in
  let db1 := snd (fst (create_order cfg env db order_data current_user)) in
  exists invoice payment,
    snd (create_order cfg env db order_data current_user) = [invoice]
    /\ snd (verify_payment cfg env' db1 (Order.id o) callback caller) = [payment]
    /\ LedgerPost.entry_type invoice = "sales_invoice"
    /\ LedgerPost.reference_id invoice = Order.id o
    /\ LedgerPost.amount invoice = Order.subtotal o
    /\ LedgerPost.gst_amount invoice = Order.tax_amount o
    /\ LedgerPost.party_id invoice
       = py_or (OrderCreate.customer_profile_id order_data) (User.id current_user)
    /\ LedgerPost.entry_type payment = "payment_received"
    /\ LedgerPost.reference_id payment = (Order.id o ++ "-advance")%string
    /\ Some (LedgerPost.amount payment) = Order.advance_amount o
    /\ LedgerPost.gst_amount payment = fzero
    /\ LedgerPost.party_id payment = Some "".
Proof.
  intros o db1. subst o db1.
  destruct (create_order_success _ _ _ _ _ _ Hcreated) as (vars & Ho & Hdb & Hposts).
  rewrite Ho, Hdb, Hposts.
  assert (Hf : find_one_order
                 (insert_order (new_order cfg env db order_data current_user vars) db)
                 (Order.id (new_order cfg env db order_data current_user vars))
               = Some (new_order cfg env db order_data current_user vars))
    by (apply find_inserted_order; exact Hfresh).
  rewrite (verify_payment_accepted _ _ _ _ _ _ _ Hf Hsigned).
  cbn [snd]. do 2 eexists. split; [reflexivity|]. split; [reflexivity|].
  unfold sales_invoice_post, advance_payment_post.
  cbn [LedgerPost.entry_type LedgerPost.reference_id LedgerPost.amount
       LedgerPost.gst_amount LedgerPost.party_id].
  repeat split.
Qed.

(** Witness of [ledger_postings_of_an_order]: the scenario's order and an
    advance callback taken without gateway credentials. *)
Lemma ledger_postings_of_an_order_witness :
  exists payment,
    snd (verify_payment cfg_unset env_nov3_later
           (snd (fst (create_order cfg_unset env_nov3 empty_store request_10000
                        walk_in)))
           "ord-1" callback_forged walk_in) = [payment]
    /\ LedgerPost.party_id payment = Some ""
    /\ LedgerPost.reference_id payment = "ord-1-advance".
Proof.
  destruct (ledger_postings_of_an_order cfg_unset env_nov3 env_nov3_later
              empty_store request_10000 walk_in walk_in _ callback_forged
              eq_refl eq_refl eq_refl)
    as (invoice & payment & _ & Hp & _ & _ & _ & _ & _ & _ & Href & _ & _ & Hparty).
  exists payment. split; [exact Hp|]. split; [exact Hparty | exact Href].
Defined.

(** ** [track_order] *)

Lemma find_none_all {A : Type} (f : A -> bool) (l : list A) :
  (forall x, In x l -> f x = false) -> find f l = None.
Proof.
  induction l as [|y l IH]; simpl; intros H; [reflexivity|].
  rewrite (H y (or_introl eq_refl)). apply IH. intros x Hx. apply H. right. exact Hx.
Qed.

Lemma tracked_by_false (k : string) (o : Order.t) :
  tracked_by k o = false <-> Order.id o <> k /\ Order.order_number o <> Some k.
Proof.
  unfold tracked_by. rewrite orb_false_iff, String.eqb_neq. split.
  - intros [Hid Hnum]. split; [exact Hid|]. intros E.
    apply opt_string_eqb_eq in E. congruence.
  - intros [Hid Hnum]. split; [exact Hid|].
    destruct (opt_string_eqb (Order.order_number o) (Some k)) eqn:E; [|reflexivity].
    apply opt_string_eqb_eq in E. contradiction.
Qed.

(** X10.  [track_order] answers 404 exactly when no stored order has the key as
    its id or as its order number.  Otherwise it returns a stored order that
    has the key as id or as number, without the customer's email but with
    the phone number and the delivery address. *)
Theorem track_order_lookup (db : store) (key : string) :
  (track_order db key = Raised (HTTPException 404 OrderNotFound)
   <-> unused_key db key)
  /\ (forall e, track_order db key = Raised e -> e = HTTPException 404 OrderNotFound)
  /\ (forall r,
        track_order db key = Returned r ->
        Order.customer_email r = None
        /\ exists o,
             In o (orders db)
             /\ (Order.id o = key \/ Order.order_number o = Some key)
             /\ r = hide_customer_email o
             /\ Order.customer_phone r = Order.customer_phone o
             /\ Order.delivery_address r = Order.delivery_address o
             /\ Order.total_price r = Order.total_price o).
Proof.
  unfold track_order.
  destruct (find (tracked_by key) (orders db)) as [o|] eqn:Hf.
  - apply find_some in Hf. destruct Hf as [Hin Ht].
    split; [|split].
    + split; [discriminate|]. intros Hun.
      destruct (Hun o Hin) as [Hid Hnum].
      assert (E : tracked_by key o = false) by (apply tracked_by_false; auto).
      congruence.
    + discriminate.
    + intros r H. apply Returned_inj in H. subst r.
      split; [reflexivity|]. exists o. split; [exact Hin|]. split.
      * unfold tracked_by in Ht. apply orb_true_iff in Ht.
        destruct Ht as [Ht|Ht]; [left; apply String.eqb_eq; exact Ht|].
        right. apply opt_string_eqb_eq. exact Ht.
      * repeat split.
  - split; [|split].
    + split; [|reflexivity]. intros _ o Hin.
      apply tracked_by_false. exact (find_none _ _ Hf o Hin).
    + intros e H. injection H as <-. reflexivity.
    + discriminate.
Qed.

(** X11.  An order made by [create_order] can be tracked at once, by its id and
    by its order number, provided neither key was in use; the public answer
    is the created document without the email. *)
Theorem created_order_can_be_tracked
    (cfg : config) (env : request_env) (db : store) (order_data : OrderCreate.t)
    (current_user : User.t) (resp : CreateOrderResponse.t)
    (Hid : unused_key db (uuid4 env))
    (Hnumber : unused_key db (generate_order_number env db))
    (Hcreated : fst (fst (create_order cfg env db order_data current_user))
                = Returned resp) :
  let o := CreateOrderResponse.order resp in
  let db1 := snd (fst (create_order cfg env db order_data current_user)) in
  Order.id o = uuid4 env
  /\ Order.order_number o = Some (generate_order_number env db)
  /\ track_order db1 (uuid4 env) = Returned (hide_customer_email o)
  /\ track_order db1 (generate_order_number env db)
     = Returned (hide_customer_email o).
Proof.
  intros o db1. subst o db1.
  destruct (create_order_success _ _ _ _ _ _ Hcreated) as (vars & Ho & Hdb & _).
  rewrite Ho, Hdb.
  split; [reflexivity|]. split; [reflexivity|].
  assert (Hfind : forall k,
             unused_key db k ->
             tracked_by k (new_order cfg env db order_data current_user vars) = true ->
             track_order
               (insert_order (new_order cfg env db order_data current_user vars) db) k
             = Returned (hide_customer_email
                           (new_order cfg env db order_data current_user vars))).
  { intros k Hun Ht. unfold track_order, insert_order; cbn [orders].
    rewrite find_app_none.
    - cbn [find]. rewrite Ht. reflexivity.
    - apply find_none_all. intros x Hx. apply tracked_by_false. exact (Hun x Hx). }
  split.
  - apply Hfind; [exact Hid|]. unfold tracked_by.
    change (Order.id (new_order cfg env db order_data current_user vars))
      with (uuid4 env).
    rewrite String.eqb_refl. reflexivity.
  - apply Hfind; [exact Hnumber|]. unfold tracked_by.
    change (Order.order_number (new_order cfg env db order_data current_user vars))
      with (Some (generate_order_number env db)).
    cbn [opt_string_eqb]. rewrite String.eqb_refl. apply orb_true_r.
Qed.

(** Witness of [created_order_can_be_tracked]: the first order of the
    scenario, tracked by its number. *)
Lemma created_order_can_be_tracked_witness :
  exists r,
    track_order store_10000 "LG2611030001" = Returned r
    /\ Order.id r = "ord-1".
Proof.
  destruct (created_order_can_be_tracked cfg_live env_nov3 empty_store
              request_10000 walk_in _
              ltac:(intros o []) ltac:(intros o []) eq_refl)
    as (Hi & _ & _ & Ht).
  eexists. split; [exact Ht|]. reflexivity.
Defined.

(** ** [get_my_orders] *)

Lemma insert_latest_first_perm (o : Order.t) (l : list Order.t) :
  Permutation (insert_latest_first o l) (o :: l).
Proof.
  induction l as [|x l IH]; simpl; [apply Permutation_refl|].
  destruct (String.leb (Order.created_at x) (Order.created_at o)).
  - apply Permutation_refl.
  - eapply Permutation_trans; [apply perm_skip; exact IH | apply perm_swap].
Qed.

Lemma sort_latest_first_perm (l : list Order.t) :
  Permutation (sort_latest_first l) l.
Proof.
  induction l as [|x l IH]; simpl; [apply Permutation_refl|].
  eapply Permutation_trans; [apply insert_latest_first_perm|].
  apply perm_skip. exact IH.
Qed.

Lemma insert_latest_first_sorted (o : Order.t) (l : list Order.t) :
  Sorted not_earlier l -> Sorted not_earlier (insert_latest_first o l).
Proof.
  intros Hs. induction Hs as [|x l Hs IH Hhd]; simpl.
  - repeat constructor.
  - destruct (String.leb (Order.created_at x) (Order.created_at o)) eqn:E.
    + constructor; [constructor; assumption|]. constructor. exact E.
    + constructor; [exact IH|].
      assert (Hox : not_earlier x o).
      { unfold not_earlier.
        destruct (String.leb_total (Order.created_at x) (Order.created_at o))
          as [H|H]; [congruence | exact H]. }
      destruct l as [|y l]; simpl.
      * constructor. exact Hox.
      * destruct (String.leb (Order.created_at y) (Order.created_at o));
          constructor; [exact Hox|].
        inversion Hhd; assumption.
Qed.

Lemma sort_latest_first_sorted (l : list Order.t) :
  Sorted not_earlier (sort_latest_first l).
Proof.
  induction l as [|x l IH]; simpl; [constructor|].
  apply insert_latest_first_sorted. exact IH.
Qed.

Lemma firstn_sorted {A : Type} (R : A -> A -> Prop) (n : nat) (l : list A) :
  Sorted R l -> Sorted R (firstn n l).
Proof.
  revert l. induction n as [|n IH]; intros l Hs; simpl; [constructor|].
  destruct l as [|x l]; [constructor|].
  inversion Hs as [|? ? Hs' Hhd]; subst.
  constructor; [apply IH; exact Hs'|].
  destruct n; simpl; [constructor|].
  destruct l as [|y l]; [constructor|].
  inversion Hhd; subst. constructor. assumption.
Qed.

Lemma In_firstn {A : Type} (n : nat) (l : list A) (x : A) :
  In x (firstn n l) -> In x l.
Proof.
  intros H. rewrite <- (firstn_skipn n l). apply in_or_app. left. exact H.
Qed.

Lemma get_my_orders_complete (db : store) (current_user : User.t) :
  (List.length
     (filter (fun o => opt_string_eqb (Order.customer_id o) (User.id current_user))
             (orders db)) <= 100)%nat ->
  forall o, In o (orders db) ->
            Order.customer_id o = User.id current_user ->
            In o (get_my_orders db current_user).
Proof.
  unfold get_my_orders.
  set (own := filter (fun o => opt_string_eqb (Order.customer_id o)
                                 (User.id current_user)) (orders db)).
  intros Hlen o Hin Hc.
  rewrite firstn_all2.
  - apply (Permutation_in _ (Permutation_sym (sort_latest_first_perm own))).
    unfold own. apply filter_In. split; [exact Hin|].
    apply opt_string_eqb_eq. exact Hc.
  - rewrite (Permutation_length (sort_latest_first_perm own)). exact Hlen.
Qed.

(** X12.  [get_my_orders] returns at most 100 orders, each a stored order whose
    [customer_id] is the caller's id, latest first.  A caller with at most
    100 orders gets all of them. *)
Theorem my_orders_are_mine (db : store) (current_user : User.t) :
  let mine := get_my_orders db current_user in
  (forall o, In o mine ->
             In o (orders db) /\ Order.customer_id o = User.id current_user)
  /\ (List.length mine <= 100)%nat
  /\ Sorted not_earlier mine
  /\ ((List.length
         (filter (fun o => opt_string_eqb (Order.customer_id o) (User.id current_user))
                 (orders db)) <= 100)%nat ->
      forall o, In o (orders db) ->
                Order.customer_id o = User.id current_user -> In o mine).
Proof.
  intros mine. subst mine. unfold get_my_orders.
  set (own := filter (fun o => opt_string_eqb (Order.customer_id o)
                                 (User.id current_user)) (orders db)).
  split; [|split; [|split]].
  - intros o Hin. apply In_firstn in Hin.
    apply (Permutation_in _ (sort_latest_first_perm own)) in Hin.
    unfold own in Hin. apply filter_In in Hin. destruct Hin as [Hin Hc].
    split; [exact Hin | apply opt_string_eqb_eq; exact Hc].
  - apply firstn_le_length.
  - apply firstn_sorted, sort_latest_first_sorted.
  - exact (get_my_orders_complete db current_user).
Qed.

(** Witness of [my_orders_are_mine]: the scenario's customer sees the
    scenario's order. *)
Lemma my_orders_are_mine_witness :
  exists o, In o (get_my_orders store_10000 walk_in)
            /\ Order.customer_id o = Some "user-1".
Proof.
  destruct (my_orders_are_mine store_10000 walk_in) as (Hmine & _ & _ & Hall).
  eexists. split.
  - apply Hall; [vm_compute; lia | left; reflexivity | reflexivity].
  - reflexivity.
Defined.

(** X13.  An order made by [create_order] is listed for its creator, as long as
    the creator had fewer than 100 orders. *)
Theorem created_order_is_listed
    (cfg : config) (env : request_env) (db : store) (order_data : OrderCreate.t)
    (current_user : User.t) (resp : CreateOrderResponse.t)
    (Hfew : (List.length
               (filter (fun o => opt_string_eqb (Order.customer_id o)
                                   (User.id current_user)) (orders db)) < 100)%nat)
    (Hcreated : fst (fst (create_order cfg env db order_data current_user))
                = Returned resp) :
  In (CreateOrderResponse.order resp)
     (get_my_orders (snd (fst (create_order cfg env db order_data current_user)))
        current_user).
Proof.
  destruct (create_order_success _ _ _ _ _ _ Hcreated) as (vars & Ho & Hdb & _).
  rewrite Ho, Hdb.
  assert (Hown : opt_string_eqb
                   (Order.customer_id
                      (new_order cfg env db order_data current_user vars))
                   (User.id current_user) = true)
    by (apply opt_string_eqb_eq; reflexivity).
  apply get_my_orders_complete.
  - unfold insert_order; cbn [orders]. rewrite filter_app, length_app.
    cbn [filter]. rewrite Hown. simpl List.length. lia.
  - unfold insert_order; cbn [orders]. apply in_or_app. right. left. reflexivity.
  - reflexivity.
Qed.

(** Witness of [created_order_is_listed]. *)
Lemma created_order_is_listed_witness :
  exists o, In o (get_my_orders store_10000 walk_in) /\ Order.id o = "ord-1".
Proof.
  eexists. split.
  - exact (created_order_is_listed cfg_live env_nov3 empty_store request_10000
             walk_in _ ltac:(vm_compute; lia) eq_refl).
  - reflexivity.
Defined.

(** ** The length of a signature *)

Lemma be_bytes_length (w : nat) (x : Z) : List.length (SHA256.be_bytes w x) = w.
Proof.
  unfold SHA256.be_bytes. rewrite length_map, length_rev, length_seq. reflexivity.
Qed.

Lemma round_length (st : list Z) (kw : Z * Z) :
  List.length st = 8%nat -> List.length (SHA256.round st kw) = 8%nat.
Proof.
  intros H. unfold SHA256.round.
  destruct st as [|a [|b [|c [|d [|e [|f [|g [|h [|i st]]]]]]]]];
    try discriminate; reflexivity.
Qed.

Lemma fold_round_length (kws : list (Z * Z)) (st : list Z) :
  List.length st = 8%nat -> List.length (fold_left SHA256.round kws st) = 8%nat.
Proof.
  revert st. induction kws as [|kw kws IH]; intros st H; simpl; [exact H|].
  apply IH. apply round_length. exact H.
Qed.

Lemma compress_length (st block : list Z) :
  List.length st = 8%nat -> List.length (SHA256.compress st block) = 8%nat.
Proof.
  intros H. unfold SHA256.compress.
  rewrite length_map, length_combine, fold_round_length, H by exact H.
  reflexivity.
Qed.

Lemma fold_compress_length (blocks : list (list Z)) (st : list Z) :
  List.length st = 8%nat -> List.length (fold_left SHA256.compress blocks st) = 8%nat.
Proof.
  revert st. induction blocks as [|b bs IH]; intros st H; simpl; [exact H|].
  apply IH. apply compress_length. exact H.
Qed.

Lemma flat_map_length_const {A B : Type} (f : A -> list B) (k : nat) (l : list A) :
  (forall x, List.length (f x) = k) ->
  List.length (flat_map f l) = (k * List.length l)%nat.
Proof.
  intros Hk. induction l as [|x l IH]; simpl; [lia|].
  rewrite length_app, Hk, IH. lia.
Qed.

Lemma digest_length (msg : list Z) : List.length (SHA256.digest msg) = 32%nat.
Proof.
  unfold SHA256.digest.
  rewrite (flat_map_length_const (SHA256.be_bytes 4) 4) by (intros; apply be_bytes_length).
  rewrite fold_compress_length; reflexivity.
Qed.

Lemma string_of_list_ascii_length (l : list ascii) :
  String.length (string_of_list_ascii l) = List.length l.
Proof. induction l as [|c l IH]; simpl; congruence. Qed.

Lemma hmac_sha256_hex_length (key msg : string) :
  String.length (hmac_sha256_hex key msg) = 64%nat.
Proof.
  unfold hmac_sha256_hex, hex_of_bytes, hmac_sha256.
  rewrite string_of_list_ascii_length.
  rewrite (flat_map_length_const _ 2) by (intros; reflexivity).
  rewrite digest_length. reflexivity.
Qed.

(** X14.  With the gateway client configured, a callback for a stored order that
    carries no signature, or a signature that is not 64 characters long, is
    always refused with the 400 and changes nothing: the expected signature
    is a 64-character hex digest. *)
Theorem signature_must_have_64_characters
    (cfg : config) (env : request_env) (db : store) (order_id : string)
    (current_user : User.t) (o : Order.t)
    (Hclient : razorpay_client cfg = true)
    (Hfind : find_one_order db order_id = Some o) :
  (forall key msg, String.length (hmac_sha256_hex key msg) = 64%nat)
  /\ (forall payment_data : dict,
        (forall s, dict_get payment_data "razorpay_signature" = Some s ->
                   String.length s <> 64%nat) ->
        verify_payment cfg env db order_id payment_data current_user
        = (Raised (HTTPException 400 PaymentVerificationFailed), db, []))
  /\ (forall payment_data : RemainingPaymentVerify.t,
        String.length (RemainingPaymentVerify.razorpay_signature payment_data)
        <> 64%nat ->
        verify_remaining_payment cfg env db order_id payment_data current_user
        = (Raised (HTTPException 400 PaymentVerificationFailed), db, [])).
Proof.
  split; [exact hmac_sha256_hex_length|]. split.
  - intros pd Hlen. unfold verify_payment. rewrite Hfind.
    rewrite signature_rejected_bad; [reflexivity | exact Hclient |].
    intros E. apply (Hlen _ E). apply hmac_sha256_hex_length.
  - intros pd Hlen. unfold verify_remaining_payment. rewrite Hfind.
    rewrite signature_rejected_bad; [reflexivity | exact Hclient |].
    intros E. injection E as E. apply Hlen. rewrite E.
    apply hmac_sha256_hex_length.
Qed.

(** Witness of [signature_must_have_64_characters]: a callback without a
    signature key. *)
Lemma signature_must_have_64_characters_witness :
  verify_payment cfg_live env_nov3 store_10000 "ord-1"
    [("razorpay_order_id", "order_A1"); ("razorpay_payment_id", "pay_001")] walk_in
  = (Raised (HTTPException 400 PaymentVerificationFailed), store_10000, []).
Proof.
  destruct (signature_must_have_64_characters cfg_live env_nov3 store_10000 "ord-1"
              walk_in _ eq_refl
              (eq_refl : find_one_order store_10000 "ord-1" = Some _))
    as (_ & H & _).
  apply H. intros s Hs. discriminate Hs.
Defined.

(** ** The built-in advance settings *)

(** X15.  Without a settings document, or with one that has none of the policy
    keys, [validate_advance_percent] accepts a privileged caller for 0 to
    100, a normal customer for 50, 75 or 100 and a credit customer for 0,
    25, 50, 75 or 100, and nothing else. *)
Theorem default_advance_policy
    (db : store) (total_amount : float) (requested_percent : Z) (is_credit : bool)
    (user_role : string)
    (Hdefault :
       settings db = None
       \/ exists s, settings db = Some s
                    /\ Settings.normal_customer_min s = None
                    /\ Settings.normal_customer_options s = None
                    /\ Settings.credit_customer_min s = None
                    /\ Settings.credit_customer_options s = None
                    /\ Settings.admin_override_allowed s = None) :
  fst (validate_advance_percent db total_amount requested_percent is_credit user_role)
  = true
  <-> default_policy_accepts requested_percent is_credit user_role.
Proof.
  assert (Hsame : validate_advance_percent db total_amount requested_percent
                    is_credit user_role
                  = validate_advance_percent empty_store total_amount
                      requested_percent is_credit user_role).
  { unfold validate_advance_percent, get_advance_settings.
    destruct Hdefault as [-> | (s & -> & H1 & H2 & H3 & H4 & H5)].
    - reflexivity.
    - rewrite H1, H2, H3, H4, H5. reflexivity. }
  rewrite Hsame. clear Hsame Hdefault.
  unfold validate_advance_percent, default_policy_accepts.
  cbn [get_advance_settings empty_store settings default_settings get_default
       Settings.credit_customer_min Settings.credit_customer_options
       Settings.normal_customer_min Settings.normal_customer_options
       Settings.admin_override_allowed].
  destruct (in_strings user_role ["admin"; "super_admin"; "owner"]); cbn [andb].
  - destruct (requested_percent <? 0)%Z eqn:E0; cbn [orb].
    + apply Z.ltb_lt in E0. cbn [fst]. split; [discriminate | lia].
    + apply Z.ltb_ge in E0.
      destruct (requested_percent >? 100)%Z eqn:E1; cbn [fst].
      * apply Z.gtb_lt in E1. split; [discriminate | lia].
      * split; [|reflexivity]. intros _.
        destruct (Z.gtb_spec requested_percent 100); [discriminate | lia].
  - destruct is_credit.
    + destruct (requested_percent <? 0)%Z eqn:E0.
      * apply Z.ltb_lt in E0. cbn [fst]. split; [discriminate|].
        simpl. intros H. lia.
      * destruct (in_ints requested_percent [0; 25; 50; 75; 100]%Z) eqn:Ei;
          cbn [negb fst].
        -- apply in_ints_In in Ei. tauto.
        -- split; [discriminate|]. intros H. apply in_ints_In in H. congruence.
    + destruct (requested_percent <? 50)%Z eqn:E0.
      * apply Z.ltb_lt in E0. cbn [fst]. split; [discriminate|].
        simpl. intros H. lia.
      * destruct (in_ints requested_percent [50; 75; 100]%Z) eqn:Ei;
          cbn [negb fst].
        -- apply in_ints_In in Ei. tauto.
        -- split; [discriminate|]. intros H. apply in_ints_In in H. congruence.
Qed.

(** Witness of [default_advance_policy]: a dealer asking for 75%. *)
Lemma default_advance_policy_witness :
  fst (validate_advance_percent empty_store (float_of_Z 11800) 75 false "dealer") = true.
Proof.
  apply (default_advance_policy empty_store (float_of_Z 11800) 75 false "dealer").
  - left. reflexivity.
  - right. left. reflexivity.
Defined.

(** ** Order numbers and the calendar *)

Lemma string_length_append (a b : string) :
  String.length (a ++ b) = (String.length a + String.length b)%nat.
Proof. induction a as [|c a IH]; simpl; congruence. Qed.

Lemma append_inj_length (a a' b b' : string) :
  (a ++ b = a' ++ b')%string -> String.length a = String.length a' ->
  a = a' /\ b = b'.
Proof.
  revert a'. induction a as [|c a IH]; intros [|c' a'] H Hlen; simpl in *;
    try discriminate.
  - split; [reflexivity | exact H].
  - injection H as Hc H. injection Hlen as Hlen.
    destruct (IH a' H Hlen) as [-> ->]. subst c'. split; reflexivity.
Qed.

Lemma prefix_same_length (p q s : string) :
  String.prefix p (q ++ s) = true -> String.length p = String.length q -> p = q.
Proof.
  revert q. induction p as [|c p IH]; intros [|c' q] H Hlen; simpl in *;
    try discriminate; [reflexivity|].
  destruct (ascii_dec c c') as [->|]; [|discriminate].
  injection Hlen as Hlen. rewrite (IH q H Hlen). reflexivity.
Qed.

Lemma two_digits_all :
  forallb (fun n => Nat.eqb (String.length (zfill 2 (py_str n))) 2) (seq 0 100) = true.
Proof. vm_compute. reflexivity. Qed.

Lemma two_digits_length (n : nat) :
  (n < 100)%nat -> String.length (zfill 2 (py_str n)) = 2%nat.
Proof.
  intros Hn. pose proof two_digits_all as Hall.
  rewrite forallb_forall in Hall.
  apply Nat.eqb_eq. apply Hall. apply in_seq. lia.
Qed.

Lemma order_prefix_length (d : datetime) :
  two_digit_date d -> String.length (order_prefix d) = 8%nat.
Proof.
  intros [Hm Hd]. unfold order_prefix, strftime_y2md.
  rewrite !string_length_append, !two_digits_length; try assumption.
  - reflexivity.
  - apply Nat.mod_upper_bound. discriminate.
Qed.

Lemma order_prefix_inj (d d' : datetime) :
  two_digit_date d -> two_digit_date d' ->
  order_prefix d = order_prefix d' ->
  (dt_year d mod 100 = dt_year d' mod 100)%nat
  /\ dt_month d = dt_month d' /\ dt_day d = dt_day d'.
Proof.
  intros [Hm Hd] [Hm' Hd'] H. unfold order_prefix, strftime_y2md in H.
  apply append_inj_l in H.
  assert (Hy : forall y, (y mod 100 < 100)%nat)
    by (intros y; apply Nat.mod_upper_bound; discriminate).
  apply append_inj_length in H; [|rewrite !two_digits_length; auto].
  destruct H as [H1 H23].
  apply append_inj_length in H23; [|rewrite !two_digits_length; auto].
  destruct H23 as [H2 H3].
  apply zfill_py_str_inj in H1, H2, H3. auto.
Qed.

(** X16.  An order counts towards the sequence of a day exactly when its number
    was issued on a day with the same two-digit year, month and day; the
    year enters modulo 100.  When all stored numbers were issued on other
    days, the day's first order gets the sequence field "0001". *)
Theorem order_numbers_count_per_day
    (env : request_env) (db : store)
    (Htoday : two_digit_date (now env)) :
  (forall o d n,
      two_digit_date d ->
      Order.order_number o = Some (order_number_format (order_prefix d) n) ->
      (order_number_matches (order_prefix (now env)) o = true
       <-> (dt_year d mod 100 = dt_year (now env) mod 100)%nat
           /\ dt_month d = dt_month (now env) /\ dt_day d = dt_day (now env)))
  /\ ((forall o, In o (orders db) ->
         exists d n,
           two_digit_date d
           /\ Order.order_number o = Some (order_number_format (order_prefix d) n)
           /\ ~ ((dt_year d mod 100 = dt_year (now env) mod 100)%nat
                 /\ dt_month d = dt_month (now env) /\ dt_day d = dt_day (now env))) ->
      generate_order_number env db = (order_prefix (now env) ++ "0001")%string).
Proof.
  assert (Hiff : forall o d n,
             two_digit_date d ->
             Order.order_number o = Some (order_number_format (order_prefix d) n) ->
             (order_number_matches (order_prefix (now env)) o = true
              <-> (dt_year d mod 100 = dt_year (now env) mod 100)%nat
                  /\ dt_month d = dt_month (now env) /\ dt_day d = dt_day (now env))).
  { intros o d n Hd Ho. unfold order_number_matches. rewrite Ho.
    unfold order_number_format. split.
    - intros Hp. apply prefix_same_length in Hp.
      + symmetry in Hp. apply order_prefix_inj in Hp; assumption.
      + rewrite !order_prefix_length by assumption. reflexivity.
    - intros (Hy & Hm & Hday).
      assert (E : order_prefix d = order_prefix (now env)).
      { unfold order_prefix, strftime_y2md. rewrite Hy, Hm, Hday. reflexivity. }
      rewrite E. apply prefix_append. }
  split; [exact Hiff|].
  intros Hother. rewrite generate_order_number_format.
  assert (Hcount : count_documents
                     (order_number_matches (order_prefix (now env))) db = 0%nat).
  { unfold count_documents.
    assert (Hnil : filter (order_number_matches (order_prefix (now env))) (orders db)
                   = []).
    { induction (orders db) as [|x l IH]; [reflexivity|]. simpl.
      destruct (Hother x (or_introl eq_refl)) as (d & n & Hd & Hx & Hne).
      destruct (order_number_matches (order_prefix (now env)) x) eqn:E.
      - exfalso. apply Hne. apply (Hiff x d n Hd Hx). exact E.
      - apply IH. intros o Ho. apply Hother. right. exact Ho. }
    rewrite Hnil. reflexivity. }
  rewrite Hcount. reflexivity.
Qed.

(** Witness of [order_numbers_count_per_day]: the customer's earlier orders
    were placed on 2025-10-01. *)
Lemma order_numbers_count_per_day_witness :
  generate_order_number env_nov3
    (credit_store (float_of_Z 100000)
       [earlier_order 1 (float_of_Z 94100); earlier_order 2 (float_of_Z 100)])
  = "LG2611030001".
Proof.
  destruct (order_numbers_count_per_day env_nov3
              (credit_store (float_of_Z 100000)
       [earlier_order 1 (float_of_Z 94100); earlier_order 2 (float_of_Z 100)])
              ltac:(split; vm_compute; lia)) as [_ H].
  apply H. intros o Ho.
  exists {| dt_year := 2025; dt_month := 10; dt_day := 1; dt_isoformat := "" |}.
  destruct Ho as [<- | [<- | []]].
  - exists 1%nat. split; [split; vm_compute; lia|]. split; [reflexivity|].
    intros (_ & Hm & _). discriminate Hm.
  - exists 2%nat. split; [split; vm_compute; lia|]. split; [reflexivity|].
    intros (_ & Hm & _). discriminate Hm.
Defined.

(** * The authentication router *)

(** X17.  [get_current_user] fails only with a 401 whose detail is "Not
    authenticated", "Token expired" or "Invalid token": the "User not found"
    it raises inside its [try] is caught by its own [except Exception], so a
    valid token of a user that is no longer stored is answered "Invalid
    token".  A user it returns is a stored user whose id is the one in the
    token. *)
Theorem current_user_errors
    (lib : libraries) (env : auth_env) (credentials : option string)
    (users : list UserDoc.t) :
  (forall e,
      get_current_user lib env credentials users = AuthRaised e ->
      e = AuthHTTPException 401 NotAuthenticated
      \/ e = AuthHTTPException 401 TokenExpired
      \/ e = AuthHTTPException 401 InvalidToken)
  /\ (credentials = None ->
      get_current_user lib env credentials users
      = AuthRaised (AuthHTTPException 401 NotAuthenticated))
  /\ (forall token user_id,
        credentials = Some token ->
        jwt_decode lib (JWT_SECRET env) token = Payload (Some user_id) ->
        (forall u, In u users -> UserDoc.id u <> user_id) ->
        get_current_user lib env credentials users
        = AuthRaised (AuthHTTPException 401 InvalidToken))
  /\ (forall u,
        get_current_user lib env credentials users = AuthReturned u ->
        In u users
        /\ exists token,
             credentials = Some token
             /\ jwt_decode lib (JWT_SECRET env) token
                = Payload (Some (UserDoc.id u))).
Proof.
  unfold get_current_user, current_user_lookup, find_user.
  split; [|split; [|split]].
  - intros e. destruct credentials as [token|].
    + destruct (jwt_decode lib (JWT_SECRET env) token) as [[uid|]| |].
      * destruct (find _ users); [discriminate|].
        intros H. injection H as <-. auto.
      * intros H. injection H as <-. auto.
      * intros H. injection H as <-. auto.
      * intros H. injection H as <-. auto.
    + intros H. injection H as <-. auto.
  - intros ->. reflexivity.
  - intros token user_id -> Hd Hnone. rewrite Hd.
    rewrite find_none_all; [reflexivity|].
    intros u Hu. apply String.eqb_neq. apply Hnone. exact Hu.
  - intros u. destruct credentials as [token|]; [|discriminate].
    destruct (jwt_decode lib (JWT_SECRET env) token) as [[uid|]| |] eqn:Hd;
      try discriminate.
    destruct (find _ users) as [x|] eqn:Hf; [|discriminate].
    intros H. injection H as <-. apply find_some in Hf. destruct Hf as [Hin Hid].
    apply String.eqb_eq in Hid. split; [exact Hin|].
    exists token. split; [reflexivity|]. rewrite Hid. exact Hd.
Qed.

(** Witness of [current_user_errors]: a well-formed token of a user that is
    not stored. *)
Lemma current_user_errors_witness :
  get_current_user plain_libraries auth_env_nov3 (Some "user-gone") []
  = AuthRaised (AuthHTTPException 401 InvalidToken).
Proof.
  destruct (current_user_errors plain_libraries auth_env_nov3 (Some "user-gone") [])
    as (_ & _ & H & _).
  apply (H "user-gone" "user-gone"); [reflexivity | reflexivity|].
  intros u [].
Defined.

(** X18.  A user made by [register_user] has the role "customer" or "dealer",
    whatever role the request names; the token and the response carry that
    role.  Such a user is refused by [mark_cash_received] and by
    [create_erp_user] with the 403, and is never on the privileged path of
    [validate_advance_percent]. *)
Theorem self_registration_gives_no_staff_role
    (lib : libraries) (env : auth_env) (users : list UserDoc.t)
    (user_data : UserRegister.t) (resp : AuthResponse.t)
    (Hok : fst (register_user lib env users user_data) = AuthReturned resp) :
  exists u,
    snd (register_user lib env users user_data) = users ++ [u]
    /\ UserDoc.id u = auth_uuid4 env
    /\ UserDoc.email u = str_lower lib (UserRegister.email user_data)
    /\ (UserDoc.role u = "customer" \/ UserDoc.role u = "dealer")
    /\ (In (UserRegister.role user_data) ["customer"; "dealer"] ->
        UserDoc.role u = UserRegister.role user_data)
    /\ AuthResponse.role resp = UserDoc.role u
    /\ AuthResponse.token resp
       = create_token lib env (UserDoc.id u) (UserDoc.email u) (UserDoc.role u)
           (UserRegister.name user_data)
    /\ (forall renv db order_id data,
           mark_cash_received renv db order_id data (as_current_user u)
           = (Raised (HTTPException 403 AdminAccessRequired), db, []))
    /\ (forall lib' env' users' data,
           create_erp_user lib' env' users' data (as_current_user u)
           = (AuthRaised (AuthHTTPException 403 AdminRequired), users'))
    /\ (forall s, privileged_override s (UserDoc.role u) = false).
Proof.
  revert Hok. unfold register_user.
  destruct (find_user users _); cbn [fst snd]; [discriminate|].
  intros H. injection H as <-.
  eexists. split; [reflexivity|].
  cbn [UserDoc.id UserDoc.email UserDoc.role AuthResponse.role AuthResponse.token].
  split; [reflexivity|]. split; [reflexivity|].
  assert (Hrole : (if in_strings (UserRegister.role user_data) ["customer"; "dealer"]
                   then UserRegister.role user_data else "customer") = "customer"
                  \/ (if in_strings (UserRegister.role user_data) ["customer"; "dealer"]
                      then UserRegister.role user_data else "customer") = "dealer").
  { destruct (in_strings (UserRegister.role user_data) ["customer"; "dealer"]) eqn:E;
      [|left; reflexivity].
    unfold in_strings in E. cbn [existsb] in E.
    apply orb_true_iff in E. destruct E as [E|E].
    - apply String.eqb_eq in E. left. exact E.
    - apply orb_true_iff in E. destruct E as [E|E]; [|discriminate].
      apply String.eqb_eq in E. right. exact E. }
  split; [exact Hrole|]. split.
  { intros Hin.
    assert (E : in_strings (UserRegister.role user_data) ["customer"; "dealer"] = true).
    { unfold in_strings. apply existsb_exists. eexists. split; [exact Hin|].
      apply String.eqb_refl. }
    rewrite E. reflexivity. }
  split; [reflexivity|]. split; [reflexivity|].
  split; [|split].
  - intros renv db order_id data. unfold mark_cash_received, as_current_user.
    cbn [User.role UserDoc.role].
    destruct Hrole as [-> | ->]; reflexivity.
  - intros lib' env' users' data. unfold create_erp_user, as_current_user.
    cbn [User.role UserDoc.role].
    destruct Hrole as [-> | ->]; reflexivity.
  - intros s. unfold privileged_override.
    destruct Hrole as [-> | ->]; reflexivity.
Qed.

(** Witness of [self_registration_gives_no_staff_role]: a registration that
    asks for the role "admin". *)
Lemma self_registration_gives_no_staff_role_witness :
  exists u,
    snd (register_user plain_libraries auth_env_nov3 [] registration_as_admin) = [u]
    /\ UserDoc.role u = "customer".
Proof.
  destruct (self_registration_gives_no_staff_role plain_libraries auth_env_nov3 []
              registration_as_admin _ eq_refl)
    as (u & Hu & _ & _ & _ & _ & _ & _).
  exists u. split; [exact Hu|].
  cbn in Hu. injection Hu as <-. reflexivity.
Defined.

Lemma register_user_stores (lib : libraries) (env : auth_env)
    (users : list UserDoc.t) (user_data : UserRegister.t) :
  find (fun u => String.eqb (UserDoc.email u)
                   (str_lower lib (UserRegister.email user_data))) users = None ->
  exists u,
    snd (register_user lib env users user_data) = users ++ [u]
    /\ UserDoc.email u = str_lower lib (UserRegister.email user_data).
Proof.
  intros Hf. unfold register_user, find_user. rewrite Hf.
  eexists. split; reflexivity.
Qed.

(** X19.  [register_user] refuses an email whose lower-case form is already
    stored, with the 400 and without storing anything; an accepted
    registration stores exactly one new user under the lower-case email, so
    registering the same email again is refused. *)
Theorem registered_email_is_taken
    (lib : libraries) (env env' : auth_env) (users : list UserDoc.t)
    (user_data again : UserRegister.t)
    (Hsame : str_lower lib (UserRegister.email again)
             = str_lower lib (UserRegister.email user_data)) :
  ((exists u, In u users
              /\ UserDoc.email u = str_lower lib (UserRegister.email user_data)) ->
   register_user lib env users user_data
   = (AuthRaised (AuthHTTPException 400 EmailAlreadyRegistered), users))
  /\ (forall resp,
        fst (register_user lib env users user_data) = AuthReturned resp ->
        (forall u, In u users ->
                   UserDoc.email u <> str_lower lib (UserRegister.email user_data))
        /\ List.length (snd (register_user lib env users user_data))
           = S (List.length users)
        /\ register_user lib env' (snd (register_user lib env users user_data)) again
           = (AuthRaised (AuthHTTPException 400 EmailAlreadyRegistered),
              snd (register_user lib env users user_data))).
Proof.
  split.
  - intros (u & Hin & Hu). unfold register_user, find_user.
    destruct (find _ users) as [x|] eqn:Hf; [reflexivity|].
    exfalso. pose proof (find_none _ _ Hf u Hin) as Hn. cbn beta in Hn.
    rewrite Hu, String.eqb_refl in Hn. discriminate.
  - intros resp Hr.
    assert (Hf : find (fun u => String.eqb (UserDoc.email u)
                                  (str_lower lib (UserRegister.email user_data)))
                   users = None).
    { unfold register_user, find_user in Hr.
      destruct (find _ users); [discriminate | reflexivity]. }
    destruct (register_user_stores lib env users user_data Hf) as (u & Hs & He).
    rewrite Hs. split; [|split].
    + intros x Hin. apply String.eqb_neq. exact (find_none _ _ Hf x Hin).
    + rewrite length_app. simpl. lia.
    + unfold register_user, find_user. rewrite Hsame.
      rewrite (find_app_none _ _ _ Hf). cbn [find].
      rewrite He, String.eqb_refl. reflexivity.
Qed.

(** Witness of [registered_email_is_taken]. *)
Lemma registered_email_is_taken_witness :
  register_user plain_libraries auth_env_nov3
    (snd (register_user plain_libraries auth_env_nov3 [] registration_as_admin))
    registration_as_admin
  = (AuthRaised (AuthHTTPException 400 EmailAlreadyRegistered),
     snd (register_user plain_libraries auth_env_nov3 [] registration_as_admin)).
Proof.
  destruct (registered_email_is_taken plain_libraries auth_env_nov3 auth_env_nov3 []
              registration_as_admin registration_as_admin eq_refl) as [_ H].
  destruct (H _ eq_refl) as (_ & _ & Hagain). exact Hagain.
Defined.



(** X21.  [create_erp_user] is refused with the 403 for every caller that is not
    admin, super_admin or owner, and then stores nothing.  For such a caller
    and an unused email it stores one user with the role of the request,
    whatever it is, or "operator" when none is given, and with the hash of
    the password of the request, or of "password123" when none is given. *)
Theorem erp_user_defaults
    (lib : libraries) (env : auth_env) (users : list UserDoc.t)
    (user_data : ErpUserData.t) (current_user : User.t) :
  (~ (exists r, User.role current_user = Some r
                /\ In r ["admin"; "super_admin"; "owner"]) ->
   create_erp_user lib env users user_data current_user
   = (AuthRaised (AuthHTTPException 403 AdminRequired), users))
  /\ (forall user_id,
        fst (create_erp_user lib env users user_data current_user)
        = AuthReturned user_id ->
        exists u,
          snd (create_erp_user lib env users user_data current_user) = users ++ [u]
          /\ UserDoc.id u = user_id
          /\ UserDoc.role u = get_default (ErpUserData.role user_data) "operator"
          /\ UserDoc.password_hash u
             = Some (hashpw lib
                       (get_default (ErpUserData.password user_data) "password123")
                       (gensalt env))
          /\ UserDoc.created_by u = User.id current_user
          /\ exists r, User.role current_user = Some r
                       /\ In r ["admin"; "super_admin"; "owner"]).
Proof.
  unfold create_erp_user.
  split.
  - intros Hno.
    assert (E : match User.role current_user with
                | Some r => in_strings r ["admin"; "super_admin"; "owner"]
                | None => false
                end = false).
    { destruct (User.role current_user) as [r|] eqn:Er; [|reflexivity].
      destruct (in_strings r _) eqn:Ein; [|reflexivity].
      exfalso. apply Hno. exists r. split; [reflexivity|].
      unfold in_strings in Ein. apply existsb_exists in Ein.
      destruct Ein as [x [Hin Hx]]. apply String.eqb_eq in Hx. subst x. exact Hin. }
    rewrite E. reflexivity.
  - intros user_id.
    destruct (User.role current_user) as [r|] eqn:Er; cbn [negb fst snd];
      [|discriminate].
    destruct (in_strings r ["admin"; "super_admin"; "owner"]) eqn:Ein;
      cbn [negb fst snd]; [|discriminate].
    destruct (find_user users _); cbn [fst snd]; [discriminate|].
    intros H. injection H as <-.
    eexists. split; [reflexivity|]. repeat split.
    exists r. split; [reflexivity|].
    unfold in_strings in Ein. apply existsb_exists in Ein.
    destruct Ein as [x [Hin Hx]]. apply String.eqb_eq in Hx. subst x. exact Hin.
Qed.

(** Witness of [erp_user_defaults]: an admin creates a user and gives only
    an email. *)
Lemma erp_user_defaults_witness :
  exists u,
    snd (create_erp_user plain_libraries auth_env_nov3 []
           {| ErpUserData.email := Some "ops@example.com";
              ErpUserData.name := None; ErpUserData.phone := None;
              ErpUserData.password := None; ErpUserData.role := None;
              ErpUserData.department := None |} admin_user) = [u]
    /\ UserDoc.password_hash u = Some "salt$password123"
    /\ UserDoc.role u = "operator".
Proof.
  destruct (erp_user_defaults plain_libraries auth_env_nov3 []
              {| ErpUserData.email := Some "ops@example.com";
                 ErpUserData.name := None; ErpUserData.phone := None;
                 ErpUserData.password := None; ErpUserData.role := None;
                 ErpUserData.department := None |} admin_user) as [_ H].
  destruct (H _ eq_refl) as (u & Hu & _ & Hrole & Hpw & _).
  exists u. split; [exact Hu|]. split; [exact Hpw | exact Hrole].
Defined.

(** * One-time codes and password reset *)

Lemma truthy_some (s : string) : truthy (Some s) = true <-> s <> "".
Proof. destruct s; simpl; split; congruence. Qed.

Lemma truthy_some_false (s : string) : truthy (Some s) = false <-> s = "".
Proof. destruct s; simpl; split; congruence. Qed.

Lemma update_first_length {A : Type} (p : A -> bool) (g : A -> A) (l : list A) :
  List.length (update_first p g l) = List.length l.
Proof.
  induction l as [|x l IH]; simpl; [reflexivity|].
  destruct (p x); simpl; congruence.
Qed.

Lemma update_first_app_none {A : Type} (p : A -> bool) (g : A -> A) (l l' : list A) :
  find p l = None -> update_first p g (l ++ l') = l ++ update_first p g l'.
Proof.
  induction l as [|x l IH]; simpl; [reflexivity|].
  destruct (p x); [discriminate|]. intros H. rewrite IH by exact H. reflexivity.
Qed.


Lemma find_update_first {A : Type} (p : A -> bool) (g : A -> A) (l : list A) (x : A) :
  find p l = Some x -> p (g x) = true -> find p (update_first p g l) = Some (g x).
Proof.
  induction l as [|y l IH]; simpl; [discriminate|].
  destruct (p y) eqn:E.
  - intros H Hg. injection H as ->. simpl. rewrite Hg. reflexivity.
  - intros H Hg. simpl. rewrite E. apply IH; assumption.
Qed.



(** No code of another address is taken for a code of [email]. *)
Lemma find_other_codes (email otp : string) (codes : list OtpCode.t) :
  find (otp_matches email otp)
    (filter (fun c => negb (String.eqb (OtpCode.email c) email)) codes) = None.
Proof.
  apply find_none_all. intros c Hc. apply filter_In in Hc. destruct Hc as [_ Hc].
  unfold otp_matches. apply negb_true_iff in Hc. rewrite Hc. reflexivity.
Qed.

(** What [send_otp] stores. *)
Lemma send_otp_stores (lib : libraries) (env : otp_env) (db : auth_store)
    (data : OtpData.t) :
  str_lower lib (get_default (OtpData.email data) "") <> "" ->
  send_otp lib env db data
  = (AuthReturned (str_lower lib (get_default (OtpData.email data) "")),
     {| users := users db;
        otp_codes :=
          filter (fun c => negb (String.eqb (OtpCode.email c)
                                   (str_lower lib (get_default (OtpData.email data) ""))))
                 (otp_codes db)
          ++ [{| OtpCode.email := str_lower lib (get_default (OtpData.email data) "");
                 OtpCode.otp := generate_otp env;
                 OtpCode.purpose := get_default (OtpData.purpose data) "verification";
                 OtpCode.expires_at := (utcnow env + minutes 10)%Z;
                 OtpCode.verified := false;
                 OtpCode.created_at := utcnow_again env |}];
        password_reset_tokens := password_reset_tokens db |}).
Proof.
  intros He. unfold send_otp.
  apply truthy_some in He. rewrite He. reflexivity.
Qed.



(** [verify_otp] on the code that [send_otp] just stored. *)
Lemma verify_after_send
    (lib : libraries) (env env' : otp_env) (db : auth_store) (data : OtpData.t)
    (purpose : option string) :
  str_lower lib (get_default (OtpData.email data) "") <> "" ->
  generate_otp env <> "" ->
  let email := str_lower lib (get_default (OtpData.email data) "") in
  let db1 := snd (send_otp lib env db data) in
  let codes :=
    update_first (otp_matches email (generate_otp env)) mark_verified
      (otp_codes db1) in
  verify_otp lib env' db1
    {| OtpData.email := OtpData.email data;
       OtpData.purpose := purpose;
       OtpData.otp := Some (generate_otp env) |}
  = if (utcnow env' >? utcnow env + 600000000)%Z
    then (AuthRaised (AuthHTTPException 400 OtpExpired), db1)
    else if String.eqb (get_default (OtpData.purpose data) "verification")
              "password_reset"
         then (AuthReturned (Some (auth_uuid4 (base_env env'))),
               {| users := users db;
                  otp_codes := codes;
                  password_reset_tokens :=
                    password_reset_tokens db
                    ++ [{| ResetToken.email := email;
                           ResetToken.token := auth_uuid4 (base_env env');
                           ResetToken.expires_at :=
                             (utcnow_again env' + 3600000000)%Z;
                           ResetToken.used := false |}] |})
         else (AuthReturned None,
               {| users := users db;
                  otp_codes := codes;
                  password_reset_tokens := password_reset_tokens db |}).
Proof.
  intros Hemail Hotp email db1 codes. subst codes db1.
  rewrite (send_otp_stores lib env db data Hemail). fold email. cbn [snd].
  assert (Hte : truthy (Some email) = true) by (apply truthy_some; exact Hemail).
  assert (Hto : truthy (Some (generate_otp env)) = true)
    by (apply truthy_some; exact Hotp).
  unfold verify_otp.
  cbn [OtpData.email OtpData.otp otp_codes get_default users password_reset_tokens].
  fold email. rewrite Hte, Hto. cbn [negb orb].
  rewrite find_app_none by apply find_other_codes. cbn [find].
  unfold otp_matches at 1.
  cbn [OtpCode.email OtpCode.otp OtpCode.verified OtpCode.expires_at OtpCode.purpose].
  rewrite !String.eqb_refl. cbn [andb Bool.eqb]. reflexivity.
Qed.

(** [verify_otp] on that code once it was accepted. *)
Lemma verify_again
    (lib : libraries) (env env'' : otp_env) (db : auth_store) (data : OtpData.t)
    (purpose : option string) (users' : list UserDoc.t)
    (tokens' : list ResetToken.t) :
  str_lower lib (get_default (OtpData.email data) "") <> "" ->
  generate_otp env <> "" ->
  let email := str_lower lib (get_default (OtpData.email data) "") in
  let after :=
    {| users := users';
       otp_codes :=
         update_first (otp_matches email (generate_otp env)) mark_verified
           (otp_codes (snd (send_otp lib env db data)));
       password_reset_tokens := tokens' |} in
  verify_otp lib env'' after
    {| OtpData.email := OtpData.email data;
       OtpData.purpose := purpose;
       OtpData.otp := Some (generate_otp env) |}
  = (AuthRaised (AuthHTTPException 400 InvalidOtp), after).
Proof.
  intros Hemail Hotp email after. subst after.
  rewrite (send_otp_stores lib env db data Hemail). fold email. cbn [snd otp_codes].
  assert (Hte : truthy (Some email) = true) by (apply truthy_some; exact Hemail).
  assert (Hto : truthy (Some (generate_otp env)) = true)
    by (apply truthy_some; exact Hotp).
  match goal with
  | |- context [update_first ?p ?g (?kept ++ [?code])] =>
      assert (Hcodes : update_first p g (kept ++ [code]) = kept ++ [g code])
  end.
  { rewrite (update_first_app_none _ _ _ _
               (find_other_codes email (generate_otp env) _)).
    cbn [update_first]. unfold otp_matches.
    cbn [OtpCode.email OtpCode.otp OtpCode.verified].
    rewrite !String.eqb_refl. reflexivity. }
  rewrite Hcodes. unfold verify_otp.
  cbn [OtpData.email OtpData.otp otp_codes get_default]. fold email.
  rewrite Hte, Hto. cbn [negb orb].
  rewrite find_app_none by apply find_other_codes. cbn [find].
  unfold otp_matches at 1, mark_verified. cbn [OtpCode.verified].
  rewrite andb_false_r. reflexivity.
Qed.

(** X23.  The code that [send_otp] sent is accepted by [verify_otp] until ten
    minutes after the request, the last instant included, and answered with
    the 400 "OTP expired" afterwards, the store unchanged.  An accepted code
    is accepted once: every later [verify_otp] for it answers 400 "Invalid
    OTP".  The answer carries a reset token, which is then stored unused
    with an expiry of one hour, exactly when the code was sent for the
    purpose "password_reset"; no user is changed. *)
Theorem otp_is_accepted_once_within_ten_minutes
    (lib : libraries) (env env' : otp_env) (db : auth_store) (data : OtpData.t)
    (purpose : option string)
    (Hemail : str_lower lib (get_default (OtpData.email data) "") <> "")
    (Hotp : generate_otp env <> "") :
  let email := str_lower lib (get_default (OtpData.email data) "") in
  let db1 := snd (send_otp lib env db data) in
  let entered :=
    {| OtpData.email := OtpData.email data;
       OtpData.purpose := purpose;
       OtpData.otp := Some (generate_otp env) |} in
  let result := verify_otp lib env' db1 entered in
  ((utcnow env + 600000000 < utcnow env')%Z ->
   result = (AuthRaised (AuthHTTPException 400 OtpExpired), db1))
  /\ ((utcnow env' <= utcnow env + 600000000)%Z ->
      users (snd result) = users db
      /\ (forall env'',
             verify_otp lib env'' (snd result) entered
             = (AuthRaised (AuthHTTPException 400 InvalidOtp), snd result))
      /\ (get_default (OtpData.purpose data) "verification" = "password_reset" ->
          fst result = AuthReturned (Some (auth_uuid4 (base_env env')))
          /\ password_reset_tokens (snd result)
             = password_reset_tokens db
               ++ [{| ResetToken.email := email;
                      ResetToken.token := auth_uuid4 (base_env env');
                      ResetToken.expires_at := (utcnow_again env' + 3600000000)%Z;
                      ResetToken.used := false |}])
      /\ (get_default (OtpData.purpose data) "verification" <> "password_reset" ->
          fst result = AuthReturned None
          /\ password_reset_tokens (snd result) = password_reset_tokens db)).
Proof.
  intros email db1 entered result. subst result entered db1.
  rewrite (verify_after_send lib env env' db data purpose Hemail Hotp).
  fold email.
  split.
  - intros Hlate.
    assert (E : (utcnow env' >? utcnow env + 600000000)%Z = true)
      by (apply Z.gtb_lt; exact Hlate).
    rewrite E. reflexivity.
  - intros Hintime.
    assert (E : (utcnow env' >? utcnow env + 600000000)%Z = false).
    { destruct (utcnow env' >? utcnow env + 600000000)%Z eqn:G; [|reflexivity].
      apply Z.gtb_lt in G. lia. }
    rewrite E.
    destruct (String.eqb_spec (get_default (OtpData.purpose data) "verification")
                "password_reset") as [Hp | Hp]; cbn [fst snd users password_reset_tokens].
    + split; [reflexivity|].
      split; [intros env''; apply (verify_again lib env env'' db data purpose);
              assumption|].
      split; [intros _; split; reflexivity | intros Hn; contradiction].
    + split; [reflexivity|].
      split; [intros env''; apply (verify_again lib env env'' db data purpose);
              assumption|].
      split; [intros Hy; contradiction | intros _; split; reflexivity].
Qed.

(** Witness of [otp_is_accepted_once_within_ten_minutes]: Mallory's code is
    refused eleven minutes after it was sent. *)
Lemma otp_is_accepted_once_within_ten_minutes_witness :
  verify_otp plain_libraries env_verify_late
    (snd (send_otp plain_libraries env_send_otp auth_store_mallory forgot_password))
    code_entered
  = (AuthRaised (AuthHTTPException 400 OtpExpired),
     snd (send_otp plain_libraries env_send_otp auth_store_mallory forgot_password)).
Proof.
  destruct (otp_is_accepted_once_within_ten_minutes plain_libraries env_send_otp
              env_verify_late auth_store_mallory forgot_password None
              ltac:(discriminate) ltac:(discriminate)) as [Hlate _].
  apply Hlate. reflexivity.
Defined.

(** A used token is no longer found. *)
Lemma find_marked_used (token : string) (tokens : list ResetToken.t)
    (r : ResetToken.t) :
  NoDup (map ResetToken.token tokens) ->
  find (token_matches token) tokens = Some r ->
  find (token_matches token) (update_first (token_matches token) mark_used tokens)
  = None.
Proof.
  induction tokens as [|x l IH]; simpl; [discriminate|].
  intros Hnd Hf. apply NoDup_cons_iff in Hnd. destruct Hnd as [Hx Hl].
  destruct (token_matches token x) eqn:E.
  - simpl. unfold token_matches at 1, mark_used. cbn [ResetToken.used ResetToken.token].
    rewrite andb_false_r.
    apply find_none_all. intros y Hy. unfold token_matches.
    unfold token_matches in E. apply andb_true_iff in E. destruct E as [E _].
    apply String.eqb_eq in E.
    destruct (String.eqb_spec (ResetToken.token y) token) as [Ey|]; [|reflexivity].
    exfalso. apply Hx. rewrite E, <- Ey. apply in_map. exact Hy.
  - simpl. rewrite E. apply IH; assumption.
Qed.



(** X25.  A reset token works once: when the stored tokens are pairwise different,
    a second [reset_password] with a token that was just used answers 400
    "Invalid or expired reset token" and changes nothing, whatever password
    it proposes and whenever it comes. *)
Theorem reset_token_is_single_use
    (lib : libraries) (env env' : otp_env) (db : auth_store)
    (data again : ResetData.t)
    (Hdistinct : NoDup (map ResetToken.token (password_reset_tokens db)))
    (Hused : fst (reset_password lib env db data) = AuthReturned tt)
    (Hsame : ResetData.token again = ResetData.token data)
    (Hpassword : truthy (ResetData.new_password again) = true) :
  reset_password lib env' (snd (reset_password lib env db data)) again
  = (AuthRaised (AuthHTTPException 400 InvalidResetToken),
     snd (reset_password lib env db data)).
Proof.
  destruct (reset_password lib env db data) as [out db2] eqn:Hr.
  cbn [fst snd] in *. subst out.
  unfold reset_password in Hr.
  destruct (negb (truthy (ResetData.token data))
            || negb (truthy (ResetData.new_password data))) eqn:Ereq;
    [discriminate|].
  destruct (find (token_matches (get_default (ResetData.token data) ""))
              (password_reset_tokens db)) as [r|] eqn:Ef; [|discriminate].
  destruct (utcnow env >? ResetToken.expires_at r)%Z; [discriminate|].
  injection Hr as <-.
  unfold reset_password. rewrite Hsame, Hpassword.
  apply orb_false_iff in Ereq. destruct Ereq as [Et _].
  rewrite Et. cbn [negb orb password_reset_tokens].
  rewrite (find_marked_used _ _ r Hdistinct Ef). reflexivity.
Qed.

(** Witness of [reset_token_is_single_use]: the token issued for Mallory
    resets the password once. *)
Lemma reset_token_is_single_use_witness :
  let issued :=
    snd (verify_otp plain_libraries env_verify_otp
           (snd (send_otp plain_libraries env_send_otp auth_store_mallory
                   forgot_password))
           code_entered) in
  let request :=
    {| ResetData.token := Some "reset-7"; ResetData.new_password := Some "s3cret" |} in
  fst (reset_password plain_libraries env_reset_password issued request)
  = AuthReturned tt
  /\ fst (reset_password plain_libraries env_reset_password
            (snd (reset_password plain_libraries env_reset_password issued request))
            request)
     = AuthRaised (AuthHTTPException 400 InvalidResetToken).
Proof.
  intros issued request. split; [reflexivity|].
  rewrite (reset_token_is_single_use plain_libraries env_reset_password
             env_reset_password issued request request
             ltac:(repeat constructor; simpl; tauto) eq_refl eq_refl eq_refl).
  reflexivity.
Defined.

(** X26.  A forgotten password, from the code to the login.  For a stored user:
    [send_otp] for the purpose "password_reset", [verify_otp] with the code
    within ten minutes, [reset_password] with the token it answered within
    the hour, and then [login_user] with the new password succeeds, as the
    user stored first under that address, given that [bcrypt.checkpw]
    accepts the password against its own hash and that the token is not one
    already stored. *)
Theorem forgotten_password_round_trip
    (lib : libraries) (env1 env2 env3 : otp_env) (env4 : auth_env)
    (db : auth_store) (address password : string) (u : UserDoc.t)
    (Haddress : str_lower lib address <> "")
    (Hcode : generate_otp env1 <> "")
    (Hpassword : password <> "")
    (Htoken : auth_uuid4 (base_env env2) <> "")
    (Hfresh : forall r, In r (password_reset_tokens db) ->
                        ResetToken.token r <> auth_uuid4 (base_env env2))
    (Hverify_in_time : (utcnow env2 <= utcnow env1 + 600000000)%Z)
    (Hreset_in_time : (utcnow env3 <= utcnow_again env2 + 3600000000)%Z)
    (Hbcrypt : checkpw lib password (hashpw lib password (gensalt (base_env env3)))
               = Some true)
    (Huser : find (fun x => String.eqb (UserDoc.email x) (str_lower lib address))
                  (users db) = Some u) :
  let db1 :=
    snd (send_otp lib env1 db
           {| OtpData.email := Some address;
              OtpData.purpose := Some "password_reset";
              OtpData.otp := None |}) in
  let verified :=
    verify_otp lib env2 db1
      {| OtpData.email := Some address;
         OtpData.purpose := None;
         OtpData.otp := Some (generate_otp env1) |} in
  let reset :=
    reset_password lib env3 (snd verified)
      {| ResetData.token := Some (auth_uuid4 (base_env env2));
         ResetData.new_password := Some password |} in
  fst verified = AuthReturned (Some (auth_uuid4 (base_env env2)))
  /\ fst reset = AuthReturned tt
  /\ exists resp,
       login_user lib env4 (users (snd reset)) address password = AuthReturned resp
       /\ AuthResponse.user_id resp = UserDoc.id u
       /\ AuthResponse.email resp = str_lower lib address
       /\ AuthResponse.role resp = UserDoc.role u.
Proof.
  intros db1 verified reset.
  subst reset verified db1.
  assert (E : (utcnow env2 >? utcnow env1 + 600000000)%Z = false).
  { destruct (utcnow env2 >? utcnow env1 + 600000000)%Z eqn:G; [|reflexivity].
    apply Z.gtb_lt in G. lia. }
  pose proof (verify_after_send lib env1 env2 db
                {| OtpData.email := Some address;
                   OtpData.purpose := Some "password_reset";
                   OtpData.otp := None |} None Haddress Hcode) as Hv.
  cbv zeta in Hv. cbn [OtpData.email OtpData.purpose get_default] in Hv.
  rewrite E in Hv.
  change (String.eqb "password_reset" "password_reset") with true in Hv.
  cbv iota in Hv. rewrite Hv. clear Hv.
  cbn [fst snd]. split; [reflexivity|].
  set (codes := update_first _ mark_verified _).
  set (h := hashpw lib password (gensalt (base_env env3))).
  assert (Hreset :
            reset_password lib env3
              {| users := users db;
                 otp_codes := codes;
                 password_reset_tokens :=
                   password_reset_tokens db
                   ++ [{| ResetToken.email := str_lower lib address;
                          ResetToken.token := auth_uuid4 (base_env env2);
                          ResetToken.expires_at := (utcnow_again env2 + 3600000000)%Z;
                          ResetToken.used := false |}] |}
              {| ResetData.token := Some (auth_uuid4 (base_env env2));
                 ResetData.new_password := Some password |}
            = (AuthReturned tt,
               {| users :=
                    update_first
                      (fun x => String.eqb (UserDoc.email x) (str_lower lib address))
                      (set_password_hash h) (users db);
                  otp_codes := codes;
                  password_reset_tokens :=
                    password_reset_tokens db
                    ++ [mark_used
                          {| ResetToken.email := str_lower lib address;
                             ResetToken.token := auth_uuid4 (base_env env2);
                             ResetToken.expires_at :=
                               (utcnow_again env2 + 3600000000)%Z;
                             ResetToken.used := false |}] |})).
  { unfold reset_password.
    cbn [ResetData.token ResetData.new_password password_reset_tokens users
         otp_codes get_default].
    apply truthy_some in Htoken. apply truthy_some in Hpassword.
    rewrite Htoken, Hpassword. cbn [negb orb].
    assert (Hold : find (token_matches (auth_uuid4 (base_env env2)))
                     (password_reset_tokens db) = None).
    { apply find_none_all. intros r Hr. unfold token_matches.
      pose proof (Hfresh r Hr) as Hne. apply String.eqb_neq in Hne.
      rewrite Hne. reflexivity. }
    rewrite (find_app_none _ _ _ Hold). cbn [find].
    unfold token_matches at 1. cbn [ResetToken.token ResetToken.used].
    rewrite String.eqb_refl. cbn [andb Bool.eqb ResetToken.expires_at].
    assert (E3 : (utcnow env3 >? utcnow_again env2 + 3600000000)%Z = false).
    { destruct (utcnow env3 >? utcnow_again env2 + 3600000000)%Z eqn:G;
        [|reflexivity].
      apply Z.gtb_lt in G. lia. }
    rewrite E3. rewrite (update_first_app_none _ _ _ _ Hold).
    cbn [update_first]. unfold token_matches at 1.
    cbn [ResetToken.token ResetToken.used ResetToken.email].
    rewrite String.eqb_refl. reflexivity. }
  rewrite Hreset. cbn [fst snd users]. split; [reflexivity|].
  unfold login_user, find_user.
  rewrite (find_update_first _ _ _ _ Huser).
  - cbn [UserDoc.password_hash set_password_hash get_default].
    unfold verify_password, hash_password, h. rewrite Hbcrypt.
    eexists. split; [reflexivity|].
    cbn [AuthResponse.user_id AuthResponse.email AuthResponse.role UserDoc.id
         UserDoc.email UserDoc.role].
    apply find_some in Huser. destruct Huser as [_ He]. apply String.eqb_eq in He.
    repeat split. exact He.
  - apply find_some in Huser. destruct Huser as [_ He]. exact He.
Qed.

(** Witness of [forgotten_password_round_trip]: Mallory logs in with the new
    password. *)
Lemma forgotten_password_round_trip_witness :
  exists resp,
    login_user plain_libraries auth_env_nov3
      (users
         (snd (reset_password plain_libraries env_reset_password
                 (snd (verify_otp plain_libraries env_verify_otp
                         (snd (send_otp plain_libraries env_send_otp
                                 auth_store_mallory forgot_password))
                         code_entered))
                 {| ResetData.token := Some "reset-7";
                    ResetData.new_password := Some "s3cret" |})))
      "mallory@example.com" "s3cret"
    = AuthReturned resp
    /\ AuthResponse.user_id resp = "user-42".
Proof.
  destruct (forgotten_password_round_trip plain_libraries env_send_otp
              env_verify_otp env_reset_password auth_env_nov3 auth_store_mallory
              "mallory@example.com" "s3cret" _
              ltac:(discriminate) ltac:(discriminate) ltac:(discriminate)
              ltac:(discriminate) ltac:(intros r [])
              ltac:(vm_compute; discriminate) ltac:(vm_compute; discriminate)
              eq_refl eq_refl)
    as (_ & _ & resp & Hlogin & Hid & _).
  exists resp. split; [exact Hlogin | exact Hid].
Defined.

(** * What the user routes give out *)


